(** * seaflowpy [filterevt.py]: EVT codec, focus filter, fetch retry, batch runner

    A shallow embedding of the parts of [src/filterevt.py] that the
    specification talks about, of the rows it prepares for the database
    and of the validation command [cli/commands/evt_cmd.py], followed by
    the theorems that settle each claim and by further properties of the
    code.

    Conventions of the embedding.
    - Python objects mutated in place ([EVT] instances) are records passed
      and returned explicitly.
    - A Python call that may raise is a value of [outcome]: [Returned v] or
      [Raised e].
    - File contents are [list byte]; numpy's native-endian [uint16]/[uint32]
      are little-endian ([le_combine]/[le_split] of coqutil), as on the x86
      machines the instrument software runs on and as the specification
      fixes.
    - A decoded channel value is a [uint16] widened to [float64]; it is an
      integer below [2^16] and is kept as a [Z].  Quantities derived from
      them in [EVT.filter] (origin, notches, ratio) are rationals with a
      [NaN] ([fval]), without infinities.  Sums, differences and medians
      of 16-bit integers are exact in binary64; the products with the
      width, the offset and the notches and the divisions are not, and
      are kept exact here.  The theorems on [EVT.filter] are therefore
      those that hold whichever rows the tests select or that rounding,
      being monotone, cannot break; a theorem that names the rows the band
      test selects assumes parameters for which that test is exact
      ([on_half_grid]).
    - The sleeps of the fetch loop are kept as the exact sums
      [2^(k-1) + draw]; their binary64 roundings, which [time.sleep]
      receives, lie within [[2^(k-1), 2^(k-1) + 1]].
    - The progress arithmetic of [filter_files] does depend on rounding and
      is therefore carried out in binary64 itself ([PrimFloat]).
    - [EVT.transform] needs a real power and is stated over [R]. *)

From Stdlib Require Import Reals Rpower Lra.
From Stdlib Require Import String Ascii DecimalString ZArith QArith Qround Qreals List Bool Lia.
From Stdlib Require Import Permutation Sorted.
From Stdlib Require Import Floats.
From coqutil Require Import Byte Word.LittleEndianList.
Import ListNotations.

Local Open Scope Z_scope.

(** ** Python outcomes *)

(** The four messages of [EVTFileError] in [read_evt]; the last one is
    formatted from the expected and the seen number of data bytes. *)
Inductive evt_file_error : Type :=
| FileIsEmpty                                (* "File is empty" *)
| InvalidCountHeader                         (* "File has invalid particle count header" *)
| NoParticleData                             (* "File has no particle data" *)
| IncorrectDataBytes (expected saw : Z).     (* "... Expected %i, saw %i" *)

Inductive exn : Type :=
| EVTFileError (msg : evt_file_error)
| ValueError (msg : string)
| ZeroDivisionError
| OverflowError
| TypeError
| AttributeError
| KeyboardInterrupt
| OtherError (what : string).   (* IOError, botocore and sqlite3 errors, ... *)

Inductive outcome (A : Type) : Type :=
| Returned (a : A)
| Raised (e : exn).
Arguments Returned {A} a.
Arguments Raised {A} e.

Definition bind {A B} (c : outcome A) (k : A -> outcome B) : outcome B :=
  match c with
  | Returned a => k a
  | Raised e => Raised e
  end.

Declare Scope py_scope.
Delimit Scope py_scope with py.
Notation "x <- c ;; k" := (bind c (fun x => k))
  (at level 61, c at next level, right associativity) : py_scope.

(** ** float64 values of the filter: a rational or NaN *)

Inductive fval : Type :=
| NaN
| Fin (q : Q).

Definition val (z : Z) : fval := Fin (inject_Z z).

Definition lift2 (f : Q -> Q -> Q) (a b : fval) : fval :=
  match a, b with
  | Fin x, Fin y => Fin (f x y)
  | _, _ => NaN
  end.

Definition fadd := lift2 Qplus.
Definition fsub := lift2 Qminus.
Definition fmul := lift2 Qmult.

(** numpy division; a zero divisor (never met below: the only divisors are
    [min + 10000] with [min >= 0]) is folded into [NaN]. *)
Definition fdiv (a b : fval) : fval :=
  match a, b with
  | Fin x, Fin y => if Qeq_bool y 0 then NaN else Fin (x / y)
  | _, _ => NaN
  end.

(** Comparisons are false as soon as a NaN is involved. *)
Definition flt (a b : fval) : bool :=
  match a, b with
  | Fin x, Fin y => match x ?= y with Lt => true | _ => false end
  | _, _ => false
  end%Q.

Definition fgt (a b : fval) : bool := flt b a.

Definition feqb (a b : fval) : bool :=
  match a, b with
  | Fin x, Fin y => Qeq_bool x y
  | _, _ => false
  end.

(** Equality of float values as numbers (two NaN results are identified). *)
Definition fval_eq (a b : fval) : Prop :=
  match a, b with
  | NaN, NaN => True
  | Fin x, Fin y => (x == y)%Q
  | _, _ => False
  end.

(** ** pandas Series reductions *)

Fixpoint insert_sorted (x : Z) (l : list Z) : list Z :=
  match l with
  | [] => [x]
  | y :: l' => if x <=? y then x :: l else y :: insert_sorted x l'
  end.

Definition sort_values (l : list Z) : list Z := fold_right insert_sorted [] l.

(** [Series.median()] of integer-valued data: the middle value, or the mean
    of the two middle values; NaN on an empty Series. *)
Definition median (l : list Z) : fval :=
  let s := sort_values l in
  let n := length s in
  match n with
  | O => NaN
  | _ =>
      if Nat.odd n then val (nth (Nat.div2 n) s 0)
      else Fin ((inject_Z (nth (Nat.div2 n - 1) s 0)
                 + inject_Z (nth (Nat.div2 n) s 0)) / 2)
  end.

(** [Series.max()] and [Series.min()]; NaN on an empty Series. *)
Definition series_max (l : list Z) : fval :=
  match l with
  | [] => NaN
  | x :: l' => val (fold_left Z.max l' x)
  end.

Definition series_min (l : list Z) : fval :=
  match l with
  | [] => NaN
  | x :: l' => val (fold_left Z.min l' x)
  end.

(** [Series.mean()]: the sum over the count; NaN on an empty Series. *)
Definition series_mean (l : list Z) : fval :=
  match l with
  | [] => NaN
  | _ => Fin (inject_Z (fold_right Z.add 0 l) / inject_Z (Z.of_nat (length l)))
  end.

(** ** class EVT *)

Module EVT.

(** One row of the DataFrame; the fields are [EVT.cols], in column order. *)
Record particle : Type := mkParticle {
  time : Z; pulse_width : Z; D1 : Z; D2 : Z; fsc_small : Z;
  fsc_perp : Z; fsc_big : Z; pe : Z; chl_small : Z; chl_big : Z
}.

Definition cols (p : particle) : list Z :=
  [time p; pulse_width p; D1 p; D2 p; fsc_small p;
   fsc_perp p; fsc_big p; pe p; chl_small p; chl_big p].

Definition particle_of (l : list Z) : particle :=
  mkParticle (nth 0 l 0) (nth 1 l 0) (nth 2 l 0) (nth 3 l 0) (nth 4 l 0)
             (nth 5 l 0) (nth 6 l 0) (nth 7 l 0) (nth 8 l 0) (nth 9 l 0).

(** The attributes of an [EVT] instance ([fileobj] is the content handed to
    [read_evt]; [stats] is not needed by any statement below). *)
Record obj : Type := mkEVT {
  path : string;
  headercnt : Z;
  evtcnt : Z;
  oppcnt : Z;
  opp_evt_ratio : Q;
  evt : option (list particle);
  opp : option (list particle);
  notch1 : option fval;
  notch2 : option fval;
  offset : option fval;
  origin : option fval;
  width : option fval
}.

(** The assignments of [__init__] before [read_evt] is called. *)
Definition blank (p : string) : obj :=
  mkEVT p 0 0 0 0%Q None None None None None None None.

(** [fh.read(n)]: at most [n] bytes, and the rest of the stream. *)
Definition read (n : Z) (fh : list byte) : list byte * list byte :=
  (firstn (Z.to_nat n) fh, skipn (Z.to_nat n) fh).

(** [np.fromstring(buff, dtype="uint16", count=count)]. *)
Fixpoint fromstring_uint16 (count : nat) (buff : list byte) : list Z :=
  match count with
  | O => []
  | S c => le_combine (firstn 2 buff) :: fromstring_uint16 c (skipn 2 buff)
  end.

(** [np.reshape(a, [rows, ncol])]. *)
Fixpoint reshape (rows ncol : nat) (a : list Z) : list (list Z) :=
  match rows with
  | O => []
  | S r => firstn ncol a :: reshape r ncol (skipn ncol a)
  end.

(** [np.delete(particles, [0, 1], 1)] on one row. *)
Definition delete01 (row : list Z) : list Z := skipn 2 row.

Definition read_evt (self : obj) (fh : list byte) : outcome obj :=
  let (buff, fh) := read 4 fh in
  if (length buff =? 0)%nat then Raised (EVTFileError FileIsEmpty)
  else if negb (length buff =? 4)%nat then
    Raised (EVTFileError InvalidCountHeader)
  else
    let rowcnt := le_combine buff in
    if rowcnt =? 0 then Raised (EVTFileError NoParticleData)
    else
      let expected_bytes := rowcnt * 12 * 2 in
      let (buff, _) := read expected_bytes fh in
      if negb (Z.of_nat (length buff) =? expected_bytes) then
        Raised (EVTFileError
                  (IncorrectDataBytes expected_bytes (Z.of_nat (length buff))))
      else
        let particles := fromstring_uint16 (Z.to_nat (rowcnt * 12)) buff in
        let particles := reshape (Z.to_nat rowcnt) 12 particles in
        let rows := map (fun r => particle_of (delete01 r)) particles in
        Returned (mkEVT (path self) rowcnt (Z.of_nat (length rows))
                        (oppcnt self) (opp_evt_ratio self) (Some rows)
                        (opp self) (notch1 self) (notch2 self) (offset self)
                        (origin self) (width self)).

(** [EVT(path, fileobj, read_data)]: [content = None] stands for
    [read_data=False]; otherwise [content] is what the handle returned by
    [self.open()] yields (after gunzip when the path ends in ".gz"). *)
Definition init (p : string) (content : option (list byte)) : outcome obj :=
  match content with
  | None => Returned (blank p)
  | Some fh => read_evt (blank p) fh
  end.

(** Names for the parts of a file that [read_evt] looks at: the count in
    the header, the bytes after the header, and the rows of 12 words that
    the declared count cuts out of them. *)
Definition header_count (fh : list byte) : Z := le_combine (firstn 4 fh).

Definition remaining (fh : list byte) : Z := Z.of_nat (length fh) - 4.

Definition raw_rows (fh : list byte) : list (list Z) :=
  let rowcnt := header_count fh in
  reshape (Z.to_nat rowcnt) 12
    (fromstring_uint16 (Z.to_nat (rowcnt * 12))
       (firstn (Z.to_nat (rowcnt * 12 * 2)) (skipn 4 fh))).

(** A file as the instrument writes it: nothing after the declared rows, and
    every row led by the two padding words 10 and 0. *)
Definition labview_file (fh : list byte) : Prop :=
  remaining fh = header_count fh * 12 * 2 /\
  Forall (fun row => firstn 2 row = [10; 0]) (raw_rows fh).

(** *** Filtering *)

(** The keyword arguments of [filter]; [None] is Python's [None]. *)
Record filter_options : Type := mkOptions {
  o_notch1 : option fval;
  o_notch2 : option fval;
  o_offset : option fval;
  o_origin : option fval;
  o_width : option fval
}.

(** The defaults of the signature: [offset=0.0], [width=0.5]. *)
Definition default_options : filter_options :=
  mkOptions None None (Some (Fin 0)) None (Some (Fin (1 # 2))).

Definition or_else (o : option fval) (d : fval) : fval :=
  match o with
  | Some v => v
  | None => d
  end.

(** [notch = max / (min + 10000)] as derived from column [D]. *)
Definition derive_notch (D : particle -> Z) (aligned : list particle)
    (fsc_small_max : fval) : fval :=
  let min1 :=
    series_min
      (map D (List.filter (fun p => feqb (val (fsc_small p)) fsc_small_max)
                          aligned)) in
  let max1 :=
    series_max
      (map fsc_small (List.filter (fun p => feqb (val (D p)) min1) aligned)) in
  fdiv max1 (fadd min1 (val 10000)).

(** [EVT.filter]: the new instance state and how the call ended. *)
Definition filter (self : obj) (o : filter_options) : obj * outcome unit :=
  match evt self with
  | None => (self, Returned tt)
  | Some rows =>
    if evtcnt self =? 0 then (self, Returned tt)
    else
      match o_width o, o_offset o with
      | Some width, Some offset =>
        let origin :=
          or_else (o_origin o) (median (map (fun p => D2 p - D1 p) rows)) in
        let opp := List.filter (fun p => 1 <? fsc_small p) rows in
        let w := fmul width (val (10 ^ 4)) in
        let alignedD1 p := flt (fadd (val (D1 p)) origin) (fadd (val (D2 p)) w) in
        let alignedD2 p := flt (val (D2 p)) (fadd (fadd (val (D1 p)) origin) w) in
        let aligned := List.filter (fun p => alignedD1 p && alignedD2 p) opp in
        let fsc_small_max := series_max (map fsc_small aligned) in
        let notch1 := or_else (o_notch1 o) (derive_notch D1 aligned fsc_small_max) in
        let notch2 := or_else (o_notch2 o) (derive_notch D2 aligned fsc_small_max) in
        let off := fmul offset (val (10 ^ 4)) in
        let oppD1 p := fgt (val (fsc_small p)) (fsub (fmul (val (D1 p)) notch1) off) in
        let oppD2 p := fgt (val (fsc_small p)) (fsub (fmul (val (D2 p)) notch2) off) in
        let opp := List.filter (fun p => oppD1 p && oppD2 p) aligned in
        let oppcnt := Z.of_nat (length opp) in
        let ratio :=
          if evtcnt self =? 0 then 0%Q
          else (inject_Z oppcnt / inject_Z (evtcnt self))%Q in
        (mkEVT (path self) (headercnt self) (evtcnt self) oppcnt ratio
               (evt self) (Some opp) (Some notch1) (Some notch2) (Some offset)
               (Some origin) (Some width),
         Returned tt)
      | _, _ =>
        (self, Raised (ValueError "Must supply width and offset to EVT.filter()"))
      end
  end.

(** *** Binary output *)

(** [astype(np.uint16)] of a float64 holding an integer. *)
Definition astype_uint16 (v : Z) : Z := v mod 2 ^ 16.

(** The matrix of 12 [uint16] columns: "tens", "zeros", then the channels. *)
Definition create_opp_for_binary (self : obj) : outcome (option (list (list Z))) :=
  match opp self with
  | None => Returned None
  | Some rows =>
    if Z.of_nat (length rows) =? oppcnt self then
      Returned (Some (map (fun p => 10 :: 0 :: map astype_uint16 (cols p)) rows))
    else Raised (ValueError "Length of values does not match length of index")
  end.

(** [ndarray.tofile] of a [uint16] matrix: row-major, two bytes per value. *)
Definition tofile (m : list (list Z)) : list byte :=
  flat_map (fun row => flat_map (le_split 2) row) m.

(** [write_opp_binary]: the bytes written to [outfile] (before the optional
    gzip), or [None] when no file is written. *)
Definition write_opp_binary (self : obj) : outcome (option (list byte)) :=
  if oppcnt self =? 0 then Returned None
  else
    let header := le_split 4 (oppcnt self mod 2 ^ 32) in
    match create_opp_for_binary self with
    | Raised e => Raised e
    | Returned None => Raised AttributeError
    | Returned (Some m) => Returned (Some (header ++ tofile m))
    end.

(** *** Log-scale transform *)

(** [transform(vals) = 10**((vals / 2**16) * 3.5)], over the reals. *)
Definition transform (vals : R) : R :=
  Rpower 10 ((vals / 2 ^ 16) * 3.5)%R.

(** *** Statistics *)

(** [EVT.float_cols = cols[2:]], each name with its column. *)
Definition float_cols : list (string * (particle -> Z)) :=
  [("D1", D1); ("D2", D2); ("fsc_small", fsc_small); ("fsc_perp", fsc_perp);
   ("fsc_big", fsc_big); ("pe", pe); ("chl_small", chl_small);
   ("chl_big", chl_big)]%string.

(** An entry of [self.stats]: [{"min": ..., "max": ..., "mean": ...}]. *)
Record channel_stats : Type := mkStats {
  s_min : fval;
  s_max : fval;
  s_mean : fval
}.

(** [self.stats], a dictionary from channel names to their statistics
    (the instance attribute that [obj] leaves out is passed beside it). *)
Definition stats_dict : Type := list (string * channel_stats).

(** [d[k] = v]. *)
Fixpoint assign (d : stats_dict) (k : string) (v : channel_stats) : stats_dict :=
  match d with
  | [] => [(k, v)]
  | (k', v') :: d' =>
    if String.eqb k k' then (k, v) :: d' else (k', v') :: assign d' k v
  end.

(** [d[k]], [None] standing for a [KeyError]. *)
Fixpoint lookup (d : stats_dict) (k : string) : option channel_stats :=
  match d with
  | [] => None
  | (k', v') :: d' => if String.eqb k k' then Some v' else lookup d' k
  end.

Definition calc_opp_stats (self : obj) (stats : stats_dict) : outcome stats_dict :=
  if oppcnt self =? 0 then Returned stats
  else
    match opp self with
    | None => Raised TypeError
    | Some rows =>
      Returned
        (fold_left
           (fun stats col =>
              assign stats (fst col)
                (mkStats (series_min (map (snd col) rows))
                         (series_max (map (snd col) rows))
                         (series_mean (map (snd col) rows))))
           float_cols stats)
    end.

(** *** Relational rows *)

(** A value bound to a statement parameter. *)
Inductive sql_value : Type :=
| SqlText (s : string)
| SqlInteger (z : Z)
| SqlReal (x : R)
| SqlNull.

(** A float as it is bound: sqlite3 stores a NaN as NULL. *)
Definition bind_float (v : fval) : sql_value :=
  match v with
  | NaN => SqlNull
  | Fin q => SqlReal (Q2R q)
  end.

(** A filter parameter as it is bound: [None] is NULL. *)
Definition bind_param (v : option fval) : sql_value :=
  match v with
  | None => SqlNull
  | Some v => bind_float v
  end.

(** [self.transform(v)] of a float, as it is bound. *)
Definition bind_transformed (v : fval) : sql_value :=
  match v with
  | NaN => SqlNull
  | Fin q => SqlReal (transform (Q2R q))
  end.

(** The three values appended for one channel by [insert_filter_sqlite3]. *)
Definition stat_values (transform_flag : bool) (st : channel_stats)
    : list sql_value :=
  let f := if transform_flag then bind_transformed else bind_float in
  [f (s_min st); f (s_max st); f (s_mean st)].

(** The loop [for channel in self.float_cols: vals.append(...)]. *)
Fixpoint append_stats (transform_flag : bool) (stats : stats_dict)
    (channels : list (string * (particle -> Z))) (vals : list sql_value)
    : outcome (list sql_value) :=
  match channels with
  | [] => Returned vals
  | channel :: rest =>
    match lookup stats (fst channel) with
    | None => Raised (OtherError "KeyError")
    | Some st =>
      append_stats transform_flag stats rest (vals ++ stat_values transform_flag st)
    end
  end.

(** [insert_filter_sqlite3]: the values bound to "INSERT INTO filter"
    ([None] when it returns without inserting) and [self.stats]
    afterwards.  [file] is the value of [self.get_julian_path()]. *)
Definition insert_filter_sqlite3 (self : obj) (cruise_name file : string)
    (transform_flag : bool) (stats : stats_dict)
    : outcome (option (list sql_value) * stats_dict) :=
  match opp self with
  | None => Returned (None, stats)
  | Some _ =>
    if (evtcnt self =? 0) || (oppcnt self =? 0) then Returned (None, stats)
    else
      let vals :=
        [SqlText cruise_name; SqlText file; SqlInteger (oppcnt self);
         SqlInteger (evtcnt self); bind_float (Fin (opp_evt_ratio self));
         bind_param (notch1 self); bind_param (notch2 self);
         bind_param (offset self); bind_param (origin self);
         bind_param (width self)] in
      match calc_opp_stats self stats with
      | Raised e => Raised e
      | Returned stats =>
        match append_stats transform_flag stats float_cols vals with
        | Raised e => Raised e
        | Returned vals => Returned (Some vals, stats)
        end
      end
  end.

(** [np.arange(1, n + 1, dtype=np.int64)]. *)
Definition arange1 (n : Z) : list Z := map Z.of_nat (seq 1 (Z.to_nat n)).

(** [create_opp_for_db]: the rows of the frame, each with the columns
    cruise, file, particle, the two integer channels and the eight float
    channels (log-transformed when asked). *)
Definition create_opp_for_db (self : obj) (cruise file : string)
    (transform_flag : bool) : outcome (option (list (list sql_value))) :=
  match opp self with
  | None => Returned None
  | Some rows =>
    if Z.of_nat (length rows) =? oppcnt self then
      Returned
        (Some
           (map
              (fun ip =>
                 [SqlText cruise; SqlText file; SqlInteger (fst ip);
                  SqlInteger (time (snd ip)); SqlInteger (pulse_width (snd ip))]
                 ++ map (fun col =>
                           SqlReal (if transform_flag
                                    then transform (IZR (snd col (snd ip)))
                                    else IZR (snd col (snd ip))))
                        float_cols)
              (combine (arange1 (oppcnt self)) rows)))
    else Raised (ValueError "Length of values does not match length of index")
  end.

(** [insert_opp_sqlite3]: the rows handed to [executemany]. *)
Definition insert_opp_sqlite3 (self : obj) (cruise file : string)
    (transform_flag : bool) : outcome (list (list sql_value)) :=
  if oppcnt self =? 0 then Returned []
  else
    match create_opp_for_db self cruise file transform_flag with
    | Raised e => Raised e
    | Returned None => Raised AttributeError
    | Returned (Some rows) => Returned rows
    end.

(** [save_opp_to_db]: the rows inserted into table opp and the row
    inserted into table filter, if any. *)
Definition save_opp_to_db (self : obj) (cruise file : string)
    (transform_flag no_opp : bool) (stats : stats_dict)
    : outcome (list (list sql_value) * option (list sql_value)) :=
  if oppcnt self =? 0 then Returned ([], None)
  else
    match (if no_opp then Returned []
           else insert_opp_sqlite3 self cruise file transform_flag) with
    | Raised e => Raised e
    | Returned opp_rows =>
      match insert_filter_sqlite3 self cruise file transform_flag stats with
      | Raised e => Raised e
      | Returned (filter_row, _) => Returned (opp_rows, filter_row)
      end
    end.

End EVT.

(** ** Tables *)

(** The columns of table opp, as [ensure_tables] creates it (all of them
    NOT NULL; the first three are the primary key). *)
Definition opp_table : list string :=
  ["cruise"; "file"; "particle"; "time"; "pulse_width"; "D1"; "D2";
   "fsc_small"; "fsc_perp"; "fsc_big"; "pe"; "chl_small"; "chl_big"]%string.

(** The columns of table filter (all of them NOT NULL; the first two are
    the primary key). *)
Definition filter_table : list string :=
  ["cruise"; "file"; "opp_count"; "evt_count"; "opp_evt_ratio"; "notch1";
   "notch2"; "offset"; "origin"; "width";
   "D1_min"; "D1_max"; "D1_mean"; "D2_min"; "D2_max"; "D2_mean";
   "fsc_small_min"; "fsc_small_max"; "fsc_small_mean";
   "fsc_perp_min"; "fsc_perp_max"; "fsc_perp_mean";
   "fsc_big_min"; "fsc_big_max"; "fsc_big_mean";
   "pe_min"; "pe_max"; "pe_mean";
   "chl_small_min"; "chl_small_max"; "chl_small_mean";
   "chl_big_min"; "chl_big_max"; "chl_big_mean"]%string.

(** ** Remote fetch with retries *)

Module S3.

(** What the retry loop does that is visible from outside: the [k]-th
    execution of the [try] body, and a call of [time.sleep]. *)
Inductive event : Type :=
| Get (attempt : nat)
| Sleep (seconds : Q).

Section Download.

(** [s3_get key k]: how the [k]-th execution of the [try] body ends for
    [key] (connection, [obj.get()] and the read of the body). *)
Variable s3_get : string -> nat -> outcome (list byte).

(** [random k]: the [k]-th value returned by [random.random()]. *)
Variable random : nat -> Q.

(** The [while True] loop, entered with the current value of [tries];
    [None] when [fuel] iterations did not leave it.  The sum
    [2**(tries-1) + random.random()] converts the integer power to a
    float, which raises [OverflowError] from [2**1024] on; raised in the
    [except] suite, that exception leaves the function.  The duration of a
    sleep is kept as the exact sum: its binary64 rounding, which is what
    [time.sleep] receives, lies within [[2^(k-1), 2^(k-1) + 1]];
    [time.sleep] itself is taken to return. *)
Fixpoint download_loop (fuel : nat) (key_str : string) (retries tries : Z)
    : option (list event * outcome (list byte)) :=
  match fuel with
  | O => None
  | S fuel' =>
    let k := Z.to_nat (tries + 1) in
    match s3_get key_str k with
    | Returned data => Some ([Get k], Returned data)
    | Raised e =>
      let tries := tries + 1 in
      if tries =? retries then Some ([Get k], Raised e)
      else if 1024 <? tries then Some ([Get k], Raised OverflowError)
      else
        let sleep := (inject_Z (2 ^ (tries - 1)) + random (Z.to_nat tries))%Q in
        match download_loop fuel' key_str retries tries with
        | None => None
        | Some (tr, r) => Some (Get k :: Sleep sleep :: tr, r)
        end
    end
  end.

(** [download_s3_file_memory(key_str)] with the default [retries=5]. *)
Definition download_s3_file_memory (fuel : nat) (key_str : string)
    : option (list event * outcome (list byte)) :=
  download_loop fuel key_str 5 0.

(** The number of executions of the [try] body in a trace. *)
Definition attempts (tr : list event) : nat :=
  length (List.filter (fun ev => match ev with Get _ => true | Sleep _ => false end) tr).

(** The schedule in the words of the specification: attempts [k], [k+1],
    ..., [n], with a sleep of [2^(k-1) + jitter] before attempt [k+1]. *)
Fixpoint schedule (k : nat) (more : nat) : list event :=
  match more with
  | O => [Get k]
  | S m =>
    Get k :: Sleep (inject_Z (2 ^ (Z.of_nat k - 1)) + random k)%Q
          :: schedule (S k) m
  end.

End Download.

End S3.

(** ** Batch runner *)

(** *** binary64 arithmetic of the progress report *)

(** [float(n)] for a Python int. *)
Definition float_of_int (z : Z) : float :=
  SF2Prim (SpecFloat.binary_normalize prec emax z 0 false).

(** Python's [x / y] on floats. *)
Definition py_truediv (x y : float) : outcome float :=
  if PrimFloat.eqb y 0 then Raised ZeroDivisionError
  else Returned (x / y)%float.

(** Python's [int(x)] on a float: truncation towards zero. *)
Definition py_int (x : float) : outcome Z :=
  match Prim2SF x with
  | SpecFloat.S754_zero _ => Returned 0
  | SpecFloat.S754_infinity _ => Raised OverflowError
  | SpecFloat.S754_nan => Raised (ValueError "cannot convert float NaN to integer")
  | SpecFloat.S754_finite s m e =>
    let a := if 0 <=? e then Z.shiftl (Z.pos m) e else Z.shiftr (Z.pos m) (- e) in
    Returned (if s then - a else a)
  end.

(** *** One file *)

(** The dictionary returned by [filter_one_file]. *)
Record result : Type := mkResult {
  ok : bool;
  evtcnt : Z;
  oppcnt : Z;
  path : string
}.

(** The entries of the options dictionary that [filter_files] and
    [filter_one_file] read. *)
Record options : Type := mkOpts {
  cruise : string;
  filter_options : EVT.filter_options;
  every : float;
  s3 : bool;
  no_opp_db : bool;
  gz_binary : bool;
  db : option string;
  binary_dir : option string;
  cpus : Z
}.

(** The collaborators of a batch and of its workers: each field is how
    the corresponding external call ends. *)
Record world : Type := mkWorld {
  (* [download_s3_file_memory(evt_file)] *)
  download : string -> outcome (list byte);
  (* [EVT.open()] and the reads on its handle: the (gunzipped) content *)
  open_evt : string -> option (list byte) -> outcome (list byte);
  (* the sqlite3 inserts of [save_opp_to_db] *)
  insert_sqlite3 : string -> string -> bool -> EVT.obj -> outcome unit;
  (* [mkdir_p(outdir)] *)
  mkdir_p : string -> outcome unit;
  (* [open(outfile, "wb")], the writes and the optional [gzip_file] *)
  write_file : string -> bool -> list byte -> outcome unit;
  (* [ensure_tables(dbpath)] *)
  ensure_tables : string -> outcome unit
}.

Inductive log_line : Type :=
| CouldNotParse (file : string) (e : exn)   (* "Could not parse file %s: %s" *)
| UnexpectedError (file : string).          (* "Unexpected error for file %s" *)

Definition save_opp_to_db (w : world) (o : options) (d : string) (evt : EVT.obj)
    : outcome unit :=
  if EVT.oppcnt evt =? 0 then Returned tt
  else insert_sqlite3 w (cruise o) d (no_opp_db o) evt.

Definition write_opp_binary (w : world) (o : options) (evt : EVT.obj)
    : outcome unit :=
  match EVT.write_opp_binary evt with
  | Raised e => Raised e
  | Returned None => Returned tt
  | Returned (Some content) => write_file w (EVT.path evt) (gz_binary o) content
  end.

(** [fileobj]: the downloaded content when [o["s3"]] is set, else [None].
    This runs before the [try] statement. *)
Definition fetch_fileobj (w : world) (o : options) (file : string)
    : outcome (option (list byte)) :=
  if s3 o then
    match download w file with
    | Returned data => Returned (Some data)
    | Raised e => Raised e
    end
  else Returned None.

(** The body of the [try]: [evt = EVT(path=evt_file, fileobj=fileobj)]. *)
Definition construct_evt (w : world) (file : string)
    (fileobj : option (list byte)) : outcome EVT.obj :=
  (fh <- open_evt w file fileobj ;; EVT.read_evt (EVT.blank file) fh)%py.

(** The [else] suite: filter, save to the database, write the binary file,
    fill in the result. *)
Definition filter_and_save (w : world) (o : options) (file : string)
    (evt : EVT.obj) : outcome result :=
  let (evt, filtered) := EVT.filter evt (filter_options o) in
  (_ <- filtered ;;
   _ <- match db o with
        | Some d => save_opp_to_db w o d evt
        | None => Returned tt
        end ;;
   _ <- match binary_dir o with
        | Some d => (_ <- mkdir_p w d ;; write_opp_binary w o evt)
        | None => Returned tt
        end ;;
   Returned (mkResult true (EVT.evtcnt evt) (EVT.oppcnt evt) file))%py.

Definition filter_one_file (w : world) (o : options) (file : string)
    : list log_line * outcome result :=
  let result := mkResult false 0 0 file in
  match fetch_fileobj w o file with
  | Raised e => ([], Raised e)
  | Returned fileobj =>
    match construct_evt w file fileobj with
    | Raised (EVTFileError m) =>
      ([CouldNotParse file (EVTFileError m)], Returned result)
    | Raised _ =>
      ([UnexpectedError file], Returned result)
    | Returned evt =>
      ([], filter_and_save w o file evt)
    end
  end.

(** The pool worker: only [KeyboardInterrupt] is handled, and then the
    function falls off its end and returns [None]. *)
Definition do_work (w : world) (o : options) (file : string)
    : list log_line * outcome (option result) :=
  match filter_one_file w o file with
  | (l, Returned r) => (l, Returned (Some r))
  | (l, Raised KeyboardInterrupt) => (l, Returned None)
  | (l, Raised e) => (l, Raised e)
  end.

(** *** The orchestrator loop *)

(** A progress line: "File: i/N (perc%) Particles this block: opp / evt
    (ratio)"; the elapsed wall time is not modelled. *)
Record block_report : Type := mkBlock {
  b_file : Z;
  b_perc : float;
  b_oppcnt : Z;
  b_evtcnt : Z;
  b_ratio : float
}.

(** The closing summary (without the time-based rates). *)
Record final_report : Type := mkFinal {
  input_files : Z;
  parsed_files : Z;
  evt_particles : Z;
  opp_particles : Z;
  opp_evt_ratio : float
}.

(** The local variables of [filter_files] that the loop updates. *)
Record progress : Type := mkProgress {
  last : float;
  evtcnt_block : Z;
  oppcnt_block : Z;
  evtcnt_total : Z;
  oppcnt_total : Z;
  files_ok : Z;
  printed : list block_report
}.

(** [float(a) / b] guarded by [except ZeroDivisionError: 0.0]. *)
Definition ratio_or_zero (a b : Z) : float :=
  if b =? 0 then 0%float else (float_of_int a / float_of_int b)%float.

(** [perc = float(i + 1) / len(files) * 100]; [len(files) >= 1] inside the
    loop, so this division cannot raise. *)
Definition perc (i n : Z) : float :=
  (float_of_int (i + 1) / float_of_int n * 100)%float.

(** [int(perc / every)]. *)
Definition quotient (every : float) (i n : Z) : outcome Z :=
  (q <- py_truediv (perc i n) every ;; py_int q)%py.

(** The body of the [for i, res in enumerate(pool.imap_unordered(...))]
    loop.  [res] is what the pool iterator delivers: the value returned by
    [do_work], or the exception it raised, re-raised in the parent. *)
Definition loop_body (every : float) (n : Z) (st : progress) (i : Z)
    (res : outcome (option result)) : outcome progress :=
  match res with
  | Raised e => Raised e
  | Returned None => Raised TypeError
  | Returned (Some res) =>
    let evtcnt_block := evtcnt_block st + evtcnt res in
    let oppcnt_block := oppcnt_block st + oppcnt res in
    let files_ok := files_ok st + (if ok res then 1 else 0) in
    match quotient every i n with
    | Raised e => Raised e
    | Returned q =>
      let milestone := (float_of_int q * every)%float in
      if (last st <? milestone)%float then
        Returned (mkProgress milestone 0 0
                    (evtcnt_total st + evtcnt_block)
                    (oppcnt_total st + oppcnt_block)
                    files_ok
                    (printed st ++
                     [mkBlock (i + 1) (perc i n) oppcnt_block evtcnt_block
                              (ratio_or_zero oppcnt_block evtcnt_block)]))
      else
        Returned (mkProgress (last st) evtcnt_block oppcnt_block
                    (evtcnt_total st) (oppcnt_total st) files_ok (printed st))
    end
  end.

Fixpoint loop (every : float) (n : Z) (st : progress) (i : Z)
    (completions : list (outcome (option result))) : outcome progress :=
  match completions with
  | [] => Returned st
  | res :: rest =>
    match loop_body every n st i res with
    | Raised e => Raised e
    | Returned st' => loop every n st' (i + 1) rest
    end
  end.

(** The heading "Filtering %i EVT files. Progress every %i%%
    (approximately)" of [len(files)] and [o["every"]]: [%i] formats the
    integer part of a float and raises, as [int] does, on an infinity or a
    NaN.  The two numbers printed. *)
Definition heading (n : Z) (every : float) : outcome (Z * Z) :=
  (e <- py_int every ;; Returned (n, e))%py.

(** [mp.Pool(cpus)]: refused below one process. *)
Definition Pool (cpus : Z) : outcome unit :=
  if cpus <? 1 then Raised (ValueError "Number of processes must be at least 1")
  else Returned tt.

(** [filter_files] from the heading on, given the worker outcomes in the
    order in which the pool delivers them: the heading, the loop over the
    completions, the flush of the last block and the summary. *)
Definition filter_files (every : float)
    (completions : list (outcome (option result)))
    : outcome (list block_report * final_report) :=
  let n := Z.of_nat (length completions) in
  match heading n every with
  | Raised e => Raised e
  | Returned _ =>
    match loop every n (mkProgress 0 0 0 0 0 0 []) 0 completions with
    | Raised e => Raised e
    | Returned st =>
      let flush := 0 <? evtcnt_block st in
      let evtcnt :=
        if flush then evtcnt_total st + evtcnt_block st else evtcnt_total st in
      let oppcnt :=
        if flush then oppcnt_total st + oppcnt_block st else oppcnt_total st in
      Returned (printed st,
                mkFinal n (files_ok st) evtcnt oppcnt (ratio_or_zero oppcnt evtcnt))
    end
  end.

(** A whole batch, as a call of [filter_files] runs it: the tables are
    ensured when a database is given, the pool is created, and every file
    goes through [do_work]; [files] is listed in completion order. *)
Definition run_batch (w : world) (o : options) (files : list string)
    : outcome (list block_report * final_report) :=
  (_ <- match db o with
        | Some d => ensure_tables w d
        | None => Returned tt
        end ;;
   _ <- Pool (cpus o) ;;
   filter_files (every o) (map (fun f => snd (do_work w o f)) files))%py.

(** [int(perc / every)] for the completions [i], [i+1], ... ([count] of
    them), or the first exception met. *)
Fixpoint quotients (every : float) (n i : Z) (count : nat) : outcome (list Z) :=
  match count with
  | O => Returned []
  | S c =>
    (q <- quotient every i n ;;
     qs <- quotients every n (i + 1) c ;;
     Returned (q :: qs))%py
  end.

(** [milestone = int(perc / every) * every] for a given quotient. *)
Definition milestone_of (every : float) (q : Z) : float :=
  (float_of_int q * every)%float.

(** binary64 multiplication by [every] keeps the order of the quotients
    [qs] among themselves and above zero.  (It does for every positive
    finite [every] and quotients below [2^53]; the test makes this a
    matter of computation for a given batch.) *)
Definition order_kept (every : float) (qs : list Z) : bool :=
  forallb
    (fun a =>
       Bool.eqb (0 <? milestone_of every a)%float (0 <? a)
       && forallb
            (fun b =>
               Bool.eqb (milestone_of every b <? milestone_of every a)%float
                        (b <? a))
            qs)
    qs.

(** The reports in the words of the specification.  After each completion
    (numbered from [i] on, first one 0) the particles of its result join
    those "processed since the last report"; a block report is due exactly
    when [floor(p/R)] exceeds its value at the previous report ([0] before
    the first one), and then the block counters start again from zero. *)
Record due : Type := mkDue {
  d_index : Z;     (* the completion after which the report is due *)
  d_floor : Z;     (* [floor(p/R)] at that point *)
  d_oppcnt : Z;    (* OPP particles since the last report *)
  d_evtcnt : Z     (* EVT particles since the last report *)
}.

Fixpoint due_reports (items : list (Z * result)) (i previous : Z)
    (opp_since evt_since : Z) : list due :=
  match items with
  | [] => []
  | (f, r) :: rest =>
    let evt_since := evt_since + evtcnt r in
    let opp_since := opp_since + oppcnt r in
    if previous <? f then
      mkDue i f opp_since evt_since :: due_reports rest (i + 1) f 0 0
    else due_reports rest (i + 1) previous opp_since evt_since
  end.

(** The progress line printed for a due report in a batch of [n] files. *)
Definition block_of (n : Z) (d : due) : block_report :=
  mkBlock (d_index d + 1) (perc (d_index d) n) (d_oppcnt d) (d_evtcnt d)
          (ratio_or_zero (d_oppcnt d) (d_evtcnt d)).

(** [last] is [0] before the first report, and afterwards the milestone of
    the quotient at the previous report. *)
Definition tracks (every : float) (allqs : list Z) (st : progress)
    (previous : Z) : Prop :=
  (last st = 0%float /\ previous = 0) \/
  (In previous allqs /\ last st = milestone_of every previous).

(** What the pool delivers when every worker returns a result. *)
Definition delivered (results : list result) : list (outcome (option result)) :=
  map (fun r => Returned (Some r)) results.

(** The result of a file with 100 particles of which 40 are in focus, and
    batches of ten and of a hundred such files. *)
Definition some_result : result := mkResult true 100 40 "f".

Definition ten_results : list result := repeat some_result 10.

Definition hundred_results : list result := repeat some_result 100.

Definition one_to_ten : list Z := [1; 2; 3; 4; 5; 6; 7; 8; 9; 10].

(** The test in the words of the specification, for [n] files at a
    positive integer resolution [r]: the exact [floor(p/r)] with
    [p = completed / n * 100], after [completed] files and after each of
    the first [count] completions. *)
Definition exact_floor (n r completed : Z) : Z := (completed * 100) / (n * r).

Definition exact_floors (n r : Z) (count : nat) : list Z :=
  map (fun completed => exact_floor n r (Z.of_nat completed)) (seq 1 count).

(** ** The validation command ([cli/commands/evt_cmd.py]) *)

Module EvtCmd.

(** How a call of [fileio.read_evt_labview] or [fileio.read_opp_labview]
    ends: with a frame of so many events, with an [errors.FileError], or
    with another exception. *)
Inductive read_result : Type :=
| Data (events : nat)
| FileError (msg : string)
| Failure (e : exn).

(** The local variables of [evt_cmd] and what it has printed so far;
    [data] is [None] as long as the name is unbound. *)
Record state : Type := mkState {
  header_printed : bool;
  ok : nat;
  bad : nat;
  data : option nat;
  printed : list string
}.

Definition initial : state := mkState false 0 0 None [].

Definition print (line : string) (st : state) : state :=
  mkState (header_printed st) (ok st) (bad st) (data st) (printed st ++ [line]).

Definition tab : string := String (ascii_of_nat 9) EmptyString.

(** [sep.join(fields)]. *)
Definition join (sep : string) (fields : list string) : string :=
  String.concat sep fields.

(** [str(n)] and ["%d" % n] of a natural number. *)
Definition str (n : nat) : string := NilZero.string_of_uint (Nat.to_uint n).

(** ["%d/%d files passed validation" % (ok, total)]. *)
Definition summary (passed total : nat) : string :=
  (str passed ++ "/" ++ str total ++ " files passed validation")%string.

Section Command.

(** [seaflowfile.SeaFlowFile(path).is_evt] and [.is_opp], and the two
    readers of [fileio]. *)
Variable is_evt is_opp : string -> outcome bool.
Variable read_evt_labview read_opp_labview : string -> read_result.

(** The first half of the loop body: [status], the counters and [data]. *)
Definition classify (opp : bool) (evt_file : string) (st : state)
    : outcome (string * state) :=
  (not_evt <- (if negb opp
               then (b <- is_evt evt_file ;; Returned (negb b))
               else Returned false) ;;
   if (not_evt : bool) then
     Returned ("Filename does not look like an EVT file"%string,
               mkState (header_printed st) (ok st) (bad st + 1) (data st) (printed st))
   else
     not_opp <- (if opp
                 then (b <- is_opp evt_file ;; Returned (negb b))
                 else Returned false) ;;
     if (not_opp : bool) then
       Returned ("Filename does not look like an OPP file"%string,
                 mkState (header_printed st) (ok st) (bad st + 1) (data st) (printed st))
     else
       match (if opp then read_opp_labview evt_file
              else read_evt_labview evt_file) with
       | Failure e => Raised e
       | FileError msg =>
         Returned (msg,
                   mkState (header_printed st) (ok st) (bad st + 1) (data st) (printed st))
       | Data n =>
         Returned ("OK"%string,
                   mkState (header_printed st) (ok st + 1) (bad st) (Some n) (printed st))
       end)%py%nat.

(** [if not header_printed and not no_header: print(...)]. *)
Definition print_header (no_header : bool) (columns : list string) (st : state)
    : state :=
  if negb (header_printed st) && negb no_header then
    let st := print (join tab columns) st in
    mkState true (ok st) (bad st) (data st) (printed st)
  else st.

(** The second half of the loop body: what is printed for the file. *)
Definition report (no_header verbose : bool) (evt_file status : string)
    (st : state) : outcome state :=
  if negb verbose then
    if negb (String.eqb status "OK") then
      let st := print_header no_header ["path"; "status"]%string st in
      Returned (print (join tab [evt_file; status]) st)
    else Returned st
  else
    let st := print_header no_header ["path"; "status"; "events"]%string st in
    if negb (String.eqb status "OK") then
      Returned (print (join tab [evt_file; status; "-"%string]) st)
    else
      match data st with
      | None => Raised (OtherError "UnboundLocalError")
      | Some n => Returned (print (join tab [evt_file; status; str n]) st)
      end.

(** [for evt_file in files: ...]. *)
Fixpoint loop (no_header opp verbose : bool) (files : list string) (st : state)
    : outcome state :=
  match files with
  | [] => Returned st
  | evt_file :: rest =>
    (r <- classify opp evt_file st ;;
     st <- report no_header verbose evt_file (fst r) (snd r) ;;
     loop no_header opp verbose rest st)%py
  end.

(** [evt_cmd]: the lines printed. *)
Definition evt_cmd (no_header opp no_summary verbose : bool) (files : list string)
    : outcome (list string) :=
  match files with
  | [] => Returned []
  | _ =>
    (st <- loop no_header opp verbose files initial ;;
     Returned
       (printed (if negb no_summary
                 then print (summary (ok st) (bad st + ok st)) st
                 else st)))%py
  end.

(** What the name test and the reader say about one file: the status and
    the number of events read, if the file was read. *)
Definition verdict (opp : bool) (evt_file : string)
    : outcome (string * option nat) :=
  (named <- (if opp then is_opp evt_file else is_evt evt_file) ;;
   if (named : bool) then
     match (if opp then read_opp_labview evt_file
            else read_evt_labview evt_file) with
     | Failure e => Raised e
     | FileError msg => Returned (msg, None)
     | Data n => Returned ("OK"%string, Some n)
     end
   else
     Returned (("Filename does not look like an "
                ++ (if opp then "OPP" else "EVT") ++ " file")%string, None))%py.

End Command.

(** The files of a listing whose status is not ["OK"], with the status. *)
Definition failures (checked : list (string * (string * option nat)))
    : list (string * (string * option nat)) :=
  List.filter (fun c => negb (String.eqb (fst (snd c)) "OK")) checked.

(** The files of a listing that were not read: their name was refused or
    the reader raised a [FileError]. *)
Definition unread (checked : list (string * (string * option nat)))
    : list (string * (string * option nat)) :=
  List.filter (fun c => match snd (snd c) with Some _ => false | None => true end)
              checked.

(** The number of files that were read. *)
Definition passed (verdicts : list (string * option nat)) : nat :=
  length (List.filter (fun v => match snd v with Some _ => true | None => false end)
                      verdicts).

(** The row of a file in the short and in the long listing. *)
Definition short_row (c : string * (string * option nat)) : string :=
  join tab [fst c; fst (snd c)].

Definition long_row (c : string * (string * option nat)) : string :=
  join tab [fst c; fst (snd c);
            match snd (snd c) with
            | Some n => if String.eqb (fst (snd c)) "OK" then str n else "-"%string
            | None => "-"%string
            end].

End EvtCmd.

(** ** Sample inputs *)

(** A header announcing three particles followed by the bytes of two. *)
Definition short_file : list byte :=
  le_split 4 3 ++ EVT.tofile
    [[10; 0; 1; 2; 3; 4; 5; 6; 7; 8; 9; 10];
     [10; 0; 11; 12; 13; 14; 15; 16; 17; 18; 19; 20]].

(** One complete particle followed by one stray byte. *)
Definition long_file : list byte :=
  le_split 4 1 ++ EVT.tofile [[10; 0; 1; 2; 3; 4; 5; 6; 7; 8; 9; 10]]
  ++ [Byte.xff].

(** Three particles; the first one stays below the [fsc_small] floor and
    has a [D2 - D1] far from the other two. *)
Definition skewed_file : list byte :=
  le_split 4 3 ++ EVT.tofile
    [[10; 0; 1; 2; 0; 100; 0; 6; 7; 8; 9; 10];
     [10; 0; 1; 2; 0; 0; 5; 6; 7; 8; 9; 10];
     [10; 0; 1; 2; 0; 10; 5; 6; 7; 8; 9; 10]].

(** Two well-aligned particles, written the way the instrument does. *)
Definition focused_file : list byte :=
  le_split 4 2 ++ EVT.tofile
    [[10; 0; 1; 2; 0; 0; 1000; 6; 7; 8; 9; 10];
     [10; 0; 3; 4; 5; 5; 2000; 6; 7; 8; 9; 65535]].

(** The same first particle behind two zero padding words. *)
Definition zero_padded_file : list byte :=
  le_split 4 1 ++ EVT.tofile [[0; 0; 1; 2; 0; 0; 1000; 6; 7; 8; 9; 10]].

(** No filter parameter supplied at all. *)
Definition no_options : EVT.filter_options :=
  EVT.mkOptions None None None None None.

(** The object that [EVT(path, fileobj)] builds from a readable file. *)
Definition decoded (p : string) (fh : list byte) : EVT.obj :=
  match EVT.init p (Some fh) with
  | Returned s => s
  | Raised _ => EVT.blank p
  end.

(** The rows held by [focused_file]. *)
Definition focused_rows : list EVT.particle :=
  [EVT.mkParticle 1 2 0 0 1000 6 7 8 9 10;
   EVT.mkParticle 3 4 5 5 2000 6 7 8 9 65535].

(** The rows held by [skewed_file]. *)
Definition skewed_rows : list EVT.particle :=
  [EVT.mkParticle 1 2 0 100 0 6 7 8 9 10;
   EVT.mkParticle 1 2 0 0 5 6 7 8 9 10;
   EVT.mkParticle 1 2 0 10 5 6 7 8 9 10].

(** The filter parameters of an instance are all still [None]. *)
Definition params_unset (s : EVT.obj) : Prop :=
  EVT.notch1 s = None /\ EVT.notch2 s = None /\ EVT.offset s = None /\
  EVT.origin s = None /\ EVT.width s = None.

(** [D2 - D1], row by row. *)
Definition detector_gap (rows : list EVT.particle) : list Z :=
  map (fun p => EVT.D2 p - EVT.D1 p) rows.

(** The candidate rows of the specification: those with [fsc_small > 1]. *)
Definition candidates (rows : list EVT.particle) : list EVT.particle :=
  List.filter (fun p => 1 <? EVT.fsc_small p) rows.

(** One retained row as the specification lays it out: the padding words
    10 and 0, then the ten channel values, each an unsigned 16-bit
    little-endian integer. *)
Definition row_bytes (q : EVT.particle) : list byte :=
  le_split 2 10 ++ le_split 2 0 ++ flat_map (le_split 2) (EVT.cols q).

(** A retained subset as the specification lays it out: the count on four
    bytes, then the rows. *)
Definition opp_bytes (retained : list EVT.particle) : list byte :=
  le_split 4 (Z.of_nat (length retained)) ++ flat_map row_bytes retained.

(** A store that fails four times and then delivers [focused_file]; a
    random source stuck at one half. *)
Definition flaky_get (key_str : string) (k : nat) : outcome (list byte) :=
  if (k <? 5)%nat then Raised (OtherError "timeout") else Returned focused_file.

Definition half (k : nat) : Q := 1 # 2.

(** Attempts [1 .. k-1] of a fetch all raise. *)
Definition all_raise (s3_get : string -> nat -> outcome (list byte))
    (key_str : string) (k : nat) : Prop :=
  forall j, (1 <= j < k)%nat -> exists e, s3_get key_str j = Raised e.

(** A store whose object ["a"] cannot be fetched, in a world where nothing
    else goes wrong; options for a remote run and for a local run without
    filter parameters. *)
Definition lossy_world : world :=
  mkWorld
    (fun key => if String.eqb key "a" then Raised (OtherError "NoSuchKey")
                else Returned focused_file)
    (fun _ fileobj => match fileobj with
                      | Some data => Returned data
                      | None => Returned focused_file
                      end)
    (fun _ _ _ _ => Returned tt)
    (fun _ => Returned tt)
    (fun _ _ _ => Returned tt)
    (fun _ => Returned tt).

Definition remote_run : options :=
  mkOpts "cruise" EVT.default_options 10 true false false None (Some "opp"%string) 1.

Definition local_run_without_width : options :=
  mkOpts "cruise" no_options 10 false false false None (Some "opp"%string) 1.

(** A local world whose file ["a"] is truncated. *)
Definition local_world : world :=
  mkWorld
    (fun _ => Raised (OtherError "unused"))
    (fun file _ => if String.eqb file "a" then Returned short_file
                   else Returned focused_file)
    (fun _ _ _ _ => Returned tt)
    (fun _ => Returned tt)
    (fun _ _ _ => Returned tt)
    (fun _ => Returned tt).

Definition local_run : options :=
  mkOpts "cruise" EVT.default_options 10 false false false None (Some "opp"%string) 1.

(** Every [int(perc / every)] of a batch of [n] files can be computed. *)
Definition progress_defined (every : float) (n : Z) : Prop :=
  forall i, 0 <= i < n -> exists q, quotient every i n = Returned q.

(** The set-up of a batch succeeds: the tables are ensured when a database
    is given, the pool gets at least one process, and the resolution has
    an integer part for the heading (it is no infinity and no NaN). *)
Definition batch_set_up (w : world) (o : options) : Prop :=
  (forall d, db o = Some d -> ensure_tables w d = Returned tt) /\
  1 <= cpus o /\
  exists e, py_int (every o) = Returned e.

(** The line that [filter_one_file] prints when the [EVT] constructor
    raises [e] for [file], and the file that a line names. *)
Definition logged (file : string) (e : exn) : log_line :=
  match e with
  | EVTFileError m => CouldNotParse file (EVTFileError m)
  | _ => UnexpectedError file
  end.

Definition named (l : log_line) : string :=
  match l with
  | CouldNotParse file _ => file
  | UnexpectedError file => file
  end.

(** A store that never answers. *)
Definition dead_get (key_str : string) (k : nat) : outcome (list byte) :=
  Raised (OtherError "timeout").

(** The seconds slept in a trace. *)
Fixpoint slept (tr : list S3.event) : Q :=
  match tr with
  | [] => 0
  | S3.Get _ :: rest => slept rest
  | S3.Sleep d :: rest => d + slept rest
  end.

(** The sum of a list of counts. *)
Definition total (counts : list Z) : Z := fold_right Z.add 0 counts.

(** The results that report a parsed file. *)
Definition parsed (results : list result) : Z :=
  Z.of_nat (length (List.filter ok results)).

(** A result as [filter_one_file] builds them: a failed unit with both
    counts 0, or a parsed file with at least one particle and no more
    particles in focus than there are. *)
Definition sound_result (r : result) : Prop :=
  (ok r = false /\ evtcnt r = 0 /\ oppcnt r = 0) \/
  (ok r = true /\ 0 < evtcnt r < 2 ^ 32 /\ 0 <= oppcnt r <= evtcnt r).

(** A block report with no more particles in focus than particles. *)
Definition block_ok (b : block_report) : Prop := 0 <= b_oppcnt b <= b_evtcnt b.

(** A world whose database and output directory refuse every write. *)
Definition readonly_world : world :=
  mkWorld
    (fun _ => Raised (OtherError "unused"))
    (fun _ _ => Returned skewed_file)
    (fun _ _ _ _ => Raised (OtherError "database is locked"))
    (fun _ => Returned tt)
    (fun _ _ _ => Raised (OtherError "Permission denied"))
    (fun _ => Returned tt).

(** A run that saves to both sinks, with an offset that no row of
    [skewed_file] passes. *)
Definition strict_run : options :=
  mkOpts "cruise"
    (EVT.mkOptions None None (Some (Fin (-1))) None (Some (Fin (1 # 2))))
    10 false false false (Some "popcycle.db"%string) (Some "opp"%string) 1.

(** The rows that [filter] calls aligned, for a given origin and width:
    the candidates inside the agreement band of the two detectors. *)
Definition aligned_rows (origin width : fval) (rows : list EVT.particle)
    : list EVT.particle :=
  List.filter
    (fun p =>
       flt (fadd (val (EVT.D1 p)) origin)
           (fadd (val (EVT.D2 p)) (fmul width (val (10 ^ 4))))
       && flt (val (EVT.D2 p))
              (fadd (fadd (val (EVT.D1 p)) origin) (fmul width (val (10 ^ 4)))))
    (candidates rows).

(** The focus test of [filter] for given notches and offset. *)
Definition in_focus (notch1 notch2 offset : fval) (p : EVT.particle) : bool :=
  fgt (val (EVT.fsc_small p))
      (fsub (fmul (val (EVT.D1 p)) notch1) (fmul offset (val (10 ^ 4))))
  && fgt (val (EVT.fsc_small p))
         (fsub (fmul (val (EVT.D2 p)) notch2) (fmul offset (val (10 ^ 4)))).

(** A float that is a number. *)
Definition finite (v : option fval) : Prop := exists q, v = Some (Fin q).

(** A number that is half an integer of at most 40 bits.  Sums of up to
    three such numbers and 16-bit integers are exact in binary64. *)
Definition on_half_grid (v : fval) : Prop :=
  exists k : Z, Z.abs k <= 2 ^ 40 /\ fval_eq v (Fin (inject_Z k / 2)).

(** The same options with another offset. *)
Definition with_offset (o : EVT.filter_options) (off : fval) : EVT.filter_options :=
  EVT.mkOptions (EVT.o_notch1 o) (EVT.o_notch2 o) (Some off) (EVT.o_origin o)
                (EVT.o_width o).

(** A name test and a reader for three files: one is read, one has a
    name that is not recognised, one is empty. *)
Definition name_test (f : string) : outcome bool :=
  Returned (negb (String.eqb f "notes.txt")).

Definition reader (f : string) : EvtCmd.read_result :=
  if String.eqb f "a.evt" then EvtCmd.Data 3 else EvtCmd.FileError "File is empty".

Definition listed_files : list string := ["a.evt"; "notes.txt"; "b.evt"]%string.

Definition listed_verdicts : list (string * option nat) :=
  [("OK", Some 3%nat); ("Filename does not look like an EVT file", None);
   ("File is empty", None)]%string.

(** A reader that fails on the second file with something else than a
    [FileError]. *)
Definition broken_reader (f : string) : EvtCmd.read_result :=
  if String.eqb f "a.evt" then EvtCmd.Data 3
  else EvtCmd.Failure (OtherError "OSError").

(** The values a [uint16] can hold. *)
Definition word16 (v : Z) : Prop := 0 <= v < 2 ^ 16.

(** * Properties *)

(** ** Lists, words and rows *)

Lemma length_fromstring_uint16 n buff :
  length (EVT.fromstring_uint16 n buff) = n.
Proof.
  revert buff; induction n as [|n IH]; intros buff; simpl; [reflexivity|].
  now rewrite IH.
Qed.

Lemma le_combine_word_range (bs : list byte) :
  (length bs <= 2)%nat -> 0 <= le_combine bs < 2 ^ 16.
Proof.
  intros Hlen. pose proof (le_combine_bound bs) as [H0 H1]. split; [exact H0|].
  eapply Z.lt_le_trans; [exact H1|].
  apply Z.pow_le_mono_r; lia.
Qed.

Lemma fromstring_uint16_range n buff :
  Forall word16 (EVT.fromstring_uint16 n buff).
Proof.
  revert buff; induction n as [|n IH]; intros buff;
    cbn [EVT.fromstring_uint16]; constructor.
  - apply le_combine_word_range. rewrite length_firstn. lia.
  - apply IH.
Qed.

Lemma length_reshape r c a : length (EVT.reshape r c a) = r.
Proof.
  revert a; induction r as [|r IH]; intros a; simpl; [reflexivity|].
  now rewrite IH.
Qed.

Lemma reshape_row_length r c a :
  (r * c <= length a)%nat ->
  Forall (fun row => length row = c) (EVT.reshape r c a).
Proof.
  revert a; induction r as [|r IH]; intros a Hlen; simpl; constructor.
  - rewrite length_firstn. simpl in Hlen. lia.
  - apply IH. rewrite length_skipn. simpl in Hlen. lia.
Qed.

Lemma Forall_firstn {A} (P : A -> Prop) n (l : list A) :
  Forall P l -> Forall P (firstn n l).
Proof.
  intros H. rewrite <- (firstn_skipn n l) in H.
  now apply Forall_app in H.
Qed.

Lemma Forall_skipn {A} (P : A -> Prop) n (l : list A) :
  Forall P l -> Forall P (skipn n l).
Proof.
  intros H. rewrite <- (firstn_skipn n l) in H.
  now apply Forall_app in H.
Qed.

Lemma reshape_range r c a :
  Forall word16 a -> Forall (Forall word16) (EVT.reshape r c a).
Proof.
  revert a; induction r as [|r IH]; intros a Ha; simpl; constructor.
  - now apply Forall_firstn.
  - apply IH. now apply Forall_skipn.
Qed.

Lemma concat_reshape r c a :
  length a = (r * c)%nat -> concat (EVT.reshape r c a) = a.
Proof.
  revert a; induction r as [|r IH]; intros a Hlen; simpl in *.
  - symmetry. now apply length_zero_iff_nil.
  - rewrite IH; [apply firstn_skipn|].
    rewrite length_skipn. lia.
Qed.

(** A row of twelve words is its two leading words and the ten channels
    that [particle_of] reads back. *)
Lemma cols_particle_of row :
  length row = 12%nat ->
  EVT.cols (EVT.particle_of (EVT.delete01 row)) = skipn 2 row.
Proof.
  intros Hlen.
  do 12 (destruct row as [|? row]; [discriminate Hlen|]).
  destruct row; [reflexivity|discriminate Hlen].
Qed.

Lemma particle_of_cols p : EVT.particle_of (EVT.cols p) = p.
Proof. now destruct p. Qed.

Lemma length_cols p : length (EVT.cols p) = 10%nat.
Proof. reflexivity. Qed.

(** ** Decoding *)

(** [read_evt] as a decision list over the length of the input and the
    header count. *)
Lemma read_evt_cases self fh :
  EVT.read_evt self fh =
  if (length fh =? 0)%nat then Raised (EVTFileError FileIsEmpty)
  else if (length fh <? 4)%nat then Raised (EVTFileError InvalidCountHeader)
  else if EVT.header_count fh =? 0 then Raised (EVTFileError NoParticleData)
  else if EVT.remaining fh <? EVT.header_count fh * 12 * 2 then
    Raised (EVTFileError
              (IncorrectDataBytes (EVT.header_count fh * 12 * 2) (EVT.remaining fh)))
  else
    let rows :=
      map (fun r => EVT.particle_of (EVT.delete01 r)) (EVT.raw_rows fh) in
    Returned (EVT.mkEVT (EVT.path self) (EVT.header_count fh)
                (Z.of_nat (length rows)) (EVT.oppcnt self)
                (EVT.opp_evt_ratio self) (Some rows) (EVT.opp self)
                (EVT.notch1 self) (EVT.notch2 self) (EVT.offset self)
                (EVT.origin self) (EVT.width self)).
Proof.
  unfold EVT.read_evt, EVT.read, EVT.raw_rows, EVT.header_count, EVT.remaining.
  change (Z.to_nat 4) with 4%nat.
  rewrite length_firstn.
  destruct (Nat.eqb_spec (length fh) 0) as [H0|H0].
  { rewrite H0. reflexivity. }
  destruct (Nat.ltb_spec (length fh) 4) as [H4|H4].
  { replace (Nat.min 4 (length fh)) with (length fh) by lia.
    destruct (Nat.eqb_spec (length fh) 0); [contradiction|].
    destruct (Nat.eqb_spec (length fh) 4); [lia|reflexivity]. }
  replace (Nat.min 4 (length fh)) with 4%nat by lia. cbn [Nat.eqb negb].
  set (rowcnt := le_combine (firstn 4 fh)).
  destruct (Z.eqb_spec rowcnt 0) as [Hc|Hc]; [reflexivity|].
  rewrite length_firstn, length_skipn.
  assert (0 <= rowcnt) by apply le_combine_bound.
  destruct (Z.ltb_spec (Z.of_nat (length fh) - 4) (rowcnt * 12 * 2)) as [Hs|Hs].
  - replace (Nat.min (Z.to_nat (rowcnt * 12 * 2)) (length fh - 4))
      with (length fh - 4)%nat by lia.
    destruct (Z.eqb_spec (Z.of_nat (length fh - 4)) (rowcnt * 12 * 2)); [lia|].
    cbn [negb]. do 3 f_equal. lia.
  - replace (Nat.min (Z.to_nat (rowcnt * 12 * 2)) (length fh - 4))
      with (Z.to_nat (rowcnt * 12 * 2)) by lia.
    destruct (Z.eqb_spec (Z.of_nat (Z.to_nat (rowcnt * 12 * 2))) (rowcnt * 12 * 2));
      [reflexivity|lia].
Qed.

(** The rows cut out of a file that is long enough: as many as the header
    says, twelve words each, every word a [uint16]. *)
Lemma raw_rows_shape fh :
  0 <= EVT.header_count fh ->
  EVT.header_count fh * 12 * 2 <= EVT.remaining fh ->
  length (EVT.raw_rows fh) = Z.to_nat (EVT.header_count fh) /\
  Forall (fun row => length row = 12%nat) (EVT.raw_rows fh) /\
  Forall (Forall word16) (EVT.raw_rows fh).
Proof.
  intros H0 Hlen. unfold EVT.raw_rows. repeat split.
  - apply length_reshape.
  - apply reshape_row_length. rewrite length_fromstring_uint16. lia.
  - apply reshape_range, fromstring_uint16_range.
Qed.

Lemma decoded_cols rows :
  Forall (fun row => length row = 12%nat) rows ->
  map EVT.cols (map (fun r => EVT.particle_of (EVT.delete01 r)) rows)
  = map (skipn 2) rows.
Proof.
  intros H. rewrite map_map. apply map_ext_Forall.
  eapply Forall_impl; [|exact H]. intros row Hrow. now apply cols_particle_of.
Qed.

(** C4, as the code has it.  Decoding fails exactly when the input is
    empty, or has fewer than 4 bytes, or the little-endian count in its
    header is zero, or FEWER than [count * 12 * 2] bytes follow the header
    (bytes beyond the declared rows are never read, so a longer input is
    accepted); every failure is an [EVTFileError]; the failure for a short
    body carries the expected and the seen byte counts; and a successful
    decode yields [count] rows whose ten channels are the words 2..11 of
    each 12-word row. *)
Theorem decode_fails_exactly_when (p : string) (fh : list byte) :
  let count := EVT.header_count fh in
  ((exists e, EVT.init p (Some fh) = Raised e) <->
   (fh = [] \/ (length fh < 4)%nat \/ count = 0
    \/ EVT.remaining fh < count * 12 * 2)) /\
  (forall e, EVT.init p (Some fh) = Raised e -> exists m, e = EVTFileError m) /\
  ((4 <= length fh)%nat -> count <> 0 -> EVT.remaining fh < count * 12 * 2 ->
   EVT.init p (Some fh)
   = Raised (EVTFileError (IncorrectDataBytes (count * 12 * 2) (EVT.remaining fh)))) /\
  (forall s, EVT.init p (Some fh) = Returned s ->
   exists rows,
     EVT.evt s = Some rows /\
     Z.of_nat (length rows) = count /\
     EVT.evtcnt s = count /\
     EVT.headercnt s = count /\
     Forall (fun row => length row = 12%nat) (EVT.raw_rows fh) /\
     map EVT.cols rows = map (skipn 2) (EVT.raw_rows fh)).
Proof.
  intros count. unfold EVT.init. rewrite read_evt_cases. fold count.
  assert (Hc0 : 0 <= count) by apply le_combine_bound.
  destruct (Nat.eqb_spec (length fh) 0) as [H0|H0].
  { apply length_zero_iff_nil in H0. subst fh. repeat split.
    - intros _. now left.
    - intros _. eexists. reflexivity.
    - intros e [= <-]. eexists. reflexivity.
    - intros H. simpl in H. lia.
    - intros s [=]. }
  assert (Hne : fh <> []) by (intros ->; apply H0; reflexivity).
  destruct (Nat.ltb_spec (length fh) 4) as [H4|H4].
  { repeat split.
    - intros _. right; now left.
    - intros _. eexists. reflexivity.
    - intros e [= <-]. eexists. reflexivity.
    - intros H. lia.
    - intros s [=]. }
  destruct (Z.eqb_spec count 0) as [Hc|Hc].
  { repeat split.
    - intros _. right; right; now left.
    - intros _. eexists. reflexivity.
    - intros e [= <-]. eexists. reflexivity.
    - intros _ H. contradiction.
    - intros s [=]. }
  destruct (Z.ltb_spec (EVT.remaining fh) (count * 12 * 2)) as [Hs|Hs].
  { repeat split.
    - intros _. now do 3 right.
    - intros _. eexists. reflexivity.
    - intros e [= <-]. eexists. reflexivity.
    - intros s [=]. }
  destruct (raw_rows_shape fh Hc0 Hs) as (Hlen & H12 & _).
  repeat split.
  - intros [e [=]].
  - intros [H|[H|[H|H]]]; [contradiction|lia|contradiction|lia].
  - intros e [=].
  - intros _ _ H. lia.
  - intros s [= <-]. cbn [EVT.evt EVT.evtcnt EVT.headercnt].
    eexists. split; [reflexivity|].
    rewrite length_map, Hlen.
    repeat split; try (fold count; lia); try assumption.
    now apply decoded_cols.
Qed.

(** The scenario of the specification: a header count of 3 over the bytes
    of 2 rows is refused, and the error cites 72 expected and 48 seen. *)
Lemma decode_fails_exactly_when_witness :
  (4 <= length short_file)%nat /\
  EVT.header_count short_file <> 0 /\
  EVT.remaining short_file < EVT.header_count short_file * 12 * 2 /\
  EVT.init "f" (Some short_file)
  = Raised (EVTFileError (IncorrectDataBytes 72 48)).
Proof.
  assert (H4 : (4 <= length short_file)%nat) by (vm_compute; lia).
  assert (Hc : EVT.header_count short_file <> 0) by (vm_compute; discriminate).
  assert (Hs : EVT.remaining short_file < EVT.header_count short_file * 12 * 2)
    by (vm_compute; reflexivity).
  split; [exact H4|]. split; [exact Hc|]. split; [exact Hs|].
  exact (proj1 (proj2 (proj2 (decode_fails_exactly_when "f" short_file))) H4 Hc Hs).
Defined.

(** C4 as stated does not hold: this input has 25 bytes after a header
    count of 1, not exactly 24, and is decoded all the same. *)
Lemma decode_accepts_longer_input :
  EVT.remaining long_file <> EVT.header_count long_file * 12 * 2 /\
  exists s, EVT.init "f" (Some long_file) = Returned s /\ EVT.evtcnt s = 1.
Proof.
  split; [vm_compute; discriminate|].
  eexists. split; vm_compute; reflexivity.
Qed.

(** ** The median is the middle of the sorted differences *)

Lemma insert_sorted_perm x l : Permutation (x :: l) (insert_sorted x l).
Proof.
  induction l as [|y l IH]; simpl; [reflexivity|].
  destruct (x <=? y); [reflexivity|].
  rewrite perm_swap. now constructor.
Qed.

Lemma sort_values_perm l : Permutation l (sort_values l).
Proof.
  induction l as [|x l IH]; simpl; [constructor|].
  rewrite <- insert_sorted_perm. now constructor.
Qed.

Lemma insert_sorted_sorted x l :
  Sorted Z.le l -> Sorted Z.le (insert_sorted x l).
Proof.
  induction l as [|y l IH]; intros Hs; simpl.
  - repeat constructor.
  - destruct (Z.leb_spec x y) as [Hxy|Hxy].
    + constructor; [exact Hs|constructor; exact Hxy].
    + inversion Hs as [|? ? Hs' Hhd]; subst.
      constructor; [now apply IH|].
      destruct l as [|z l]; simpl.
      * constructor; lia.
      * destruct (Z.leb_spec x z); constructor; try lia.
        now inversion Hhd.
Qed.

Lemma sort_values_sorted l : Sorted Z.le (sort_values l).
Proof.
  induction l as [|x l IH]; simpl; [constructor|].
  now apply insert_sorted_sorted.
Qed.

(** ** Filtering *)

Lemma filter_filter_and {A} (f g : A -> bool) l :
  List.filter f (List.filter g l) = List.filter (fun x => g x && f x) l.
Proof.
  induction l as [|x l IH]; simpl; [reflexivity|].
  destruct (g x); simpl; [destruct (f x)|]; now rewrite IH.
Qed.

(** The branch of [filter] that does the work: the retained rows are the
    input rows that pass one combined test, in their original order, and
    the recorded parameters are the ones used in that test. *)
Lemma filter_computed self o rows w off :
  EVT.evt self = Some rows -> EVT.evtcnt self <> 0 ->
  EVT.o_width o = Some w -> EVT.o_offset o = Some off ->
  let origin :=
    EVT.or_else (EVT.o_origin o)
      (median (map (fun p => EVT.D2 p - EVT.D1 p) rows)) in
  exists keep n1 n2,
    EVT.filter self o
    = (EVT.mkEVT (EVT.path self) (EVT.headercnt self) (EVT.evtcnt self)
         (Z.of_nat (length (List.filter keep rows)))
         (inject_Z (Z.of_nat (length (List.filter keep rows)))
          / inject_Z (EVT.evtcnt self))%Q
         (Some rows) (Some (List.filter keep rows))
         (Some n1) (Some n2) (Some off) (Some origin) (Some w),
       Returned tt) /\
    forall p, keep p = true ->
      1 < EVT.fsc_small p /\
      flt (fadd (val (EVT.D1 p)) origin)
          (fadd (val (EVT.D2 p)) (fmul w (val (10 ^ 4)))) = true /\
      flt (val (EVT.D2 p))
          (fadd (fadd (val (EVT.D1 p)) origin) (fmul w (val (10 ^ 4)))) = true.
Proof.
  intros Hevt Hcnt Hw Hoff origin.
  unfold EVT.filter. rewrite Hevt, Hw, Hoff.
  destruct (Z.eqb_spec (EVT.evtcnt self) 0) as [|_]; [contradiction|].
  rewrite !filter_filter_and. fold origin.
  eexists _, _, _. split; [reflexivity|].
  cbv beta. intros p Hp.
  rewrite !andb_true_iff in Hp.
  repeat split; [apply Z.ltb_lt; tauto|tauto|tauto].
Qed.

(** With rows at hand, a missing [width] or [offset] ends the call. *)
Lemma filter_missing_parameter self o rows :
  EVT.evt self = Some rows -> EVT.evtcnt self <> 0 ->
  EVT.o_width o = None \/ EVT.o_offset o = None ->
  EVT.filter self o
  = (self, Raised (ValueError "Must supply width and offset to EVT.filter()")).
Proof.
  intros Hevt Hcnt Hmiss. unfold EVT.filter. rewrite Hevt.
  destruct (Z.eqb_spec (EVT.evtcnt self) 0) as [|_]; [contradiction|].
  destruct Hmiss as [Hm | Hm]; rewrite Hm; [reflexivity|].
  now destruct (EVT.o_width o).
Qed.

(** An object made by [EVT(...)]: either nothing was read, or the rows are
    the decoded ones; nothing has been filtered yet. *)
Lemma init_state p content s :
  EVT.init p content = Returned s ->
  EVT.oppcnt s = 0 /\ (EVT.opp_evt_ratio s == 0)%Q /\ EVT.opp s = None /\
  ((EVT.evt s = None /\ EVT.evtcnt s = 0) \/
   (exists rows, EVT.evt s = Some rows /\
                 EVT.evtcnt s = Z.of_nat (length rows) /\
                 0 < EVT.evtcnt s < 2 ^ 32 /\
                 Forall (fun q => Forall word16 (EVT.cols q)) rows)).
Proof.
  destruct content as [fh|]; simpl.
  2:{ intros [= <-]. simpl. repeat split; try reflexivity. now left. }
  rewrite read_evt_cases.
  destruct (length fh =? 0)%nat; [discriminate|].
  destruct (length fh <? 4)%nat; [discriminate|].
  destruct (Z.eqb_spec (EVT.header_count fh) 0) as [|Hc]; [discriminate|].
  destruct (Z.ltb_spec (EVT.remaining fh) (EVT.header_count fh * 12 * 2))
    as [|Hs]; [discriminate|].
  assert (Hb : 0 <= EVT.header_count fh < 2 ^ 32).
  { unfold EVT.header_count.
    pose proof (le_combine_bound (firstn 4 fh)) as [H0 H1]. split; [exact H0|].
    eapply Z.lt_le_trans; [exact H1|].
    apply Z.pow_le_mono_r; [lia|]. rewrite length_firstn. lia. }
  destruct (raw_rows_shape fh (proj1 Hb) Hs) as (Hlen & H12 & Hr).
  intros [= <-]. simpl. repeat split; try reflexivity.
  right. eexists. split; [reflexivity|].
  rewrite length_map, Hlen. repeat split; try lia.
  apply Forall_map.
  rewrite Forall_forall in H12, Hr |- *. intros row Hin.
  rewrite cols_particle_of by now apply H12.
  apply Forall_skipn. now apply Hr.
Qed.

Lemma ratio_in_unit_interval a b :
  0 <= a <= b -> 0 < b -> (0 <= inject_Z a / inject_Z b <= 1)%Q.
Proof.
  intros [Ha Hab] Hb.
  assert (Hb' : (0 < inject_Z b)%Q) by (rewrite (Zlt_Qlt 0 b) in Hb; exact Hb).
  split.
  - apply Qle_shift_div_l; [exact Hb'|].
    rewrite Qmult_0_l. rewrite (Zle_Qle 0 a) in Ha. exact Ha.
  - apply Qle_shift_div_r; [exact Hb'|].
    rewrite Qmult_1_l. rewrite (Zle_Qle a b) in Hab. exact Hab.
Qed.

(** C10.  On an instance without a matrix, or whose matrix has no rows,
    [filter] returns normally whatever [width] and [offset] are (the test
    for missing parameters comes after the early return), and leaves the
    instance as it was: parameters that were unset stay unset. *)
Theorem filter_returns_without_rows (self : EVT.obj) (o : EVT.filter_options) :
  EVT.evt self = None \/ EVT.evtcnt self = 0 ->
  params_unset self ->
  snd (EVT.filter self o) = Returned tt /\
  fst (EVT.filter self o) = self /\
  params_unset (fst (EVT.filter self o)).
Proof.
  intros Hrows Hunset.
  assert (H : EVT.filter self o = (self, Returned tt)).
  { unfold EVT.filter. destruct Hrows as [Hn | Hz]; [now rewrite Hn|].
    rewrite Hz. now destruct (EVT.evt self). }
  rewrite H. cbn [fst snd].
  split; [reflexivity|]. split; [reflexivity|exact Hunset].
Qed.

Lemma filter_returns_without_rows_witness :
  (EVT.evt (EVT.blank "f") = None \/ EVT.evtcnt (EVT.blank "f") = 0) /\
  params_unset (EVT.blank "f") /\
  snd (EVT.filter (EVT.blank "f") no_options) = Returned tt /\
  fst (EVT.filter (EVT.blank "f") no_options) = EVT.blank "f" /\
  params_unset (fst (EVT.filter (EVT.blank "f") no_options)).
Proof.
  assert (H1 : EVT.evt (EVT.blank "f") = None \/ EVT.evtcnt (EVT.blank "f") = 0)
    by (left; reflexivity).
  assert (H2 : params_unset (EVT.blank "f"))
    by (repeat split; reflexivity).
  split; [exact H1|]. split; [exact H2|].
  exact (filter_returns_without_rows (EVT.blank "f") no_options H1 H2).
Defined.

(** C8, as the code has it.  When the instance holds at least one row, a
    call of [filter] with [width] or [offset] missing raises the
    [ValueError] and leaves the instance untouched. *)
Theorem filter_requires_width_and_offset
    (self : EVT.obj) (o : EVT.filter_options) (rows : list EVT.particle) :
  EVT.evt self = Some rows -> EVT.evtcnt self <> 0 ->
  EVT.o_width o = None \/ EVT.o_offset o = None ->
  EVT.filter self o
  = (self, Raised (ValueError "Must supply width and offset to EVT.filter()")).
Proof.
  intros Hevt Hcnt Hmiss. now apply filter_missing_parameter with (rows := rows).
Qed.

Lemma filter_requires_width_and_offset_witness :
  EVT.evt (decoded "f" focused_file) = Some focused_rows /\
  EVT.evtcnt (decoded "f" focused_file) <> 0 /\
  (EVT.o_width no_options = None \/ EVT.o_offset no_options = None) /\
  EVT.filter (decoded "f" focused_file) no_options
  = (decoded "f" focused_file,
     Raised (ValueError "Must supply width and offset to EVT.filter()")).
Proof.
  assert (H1 : EVT.evt (decoded "f" focused_file) = Some focused_rows)
    by (vm_compute; reflexivity).
  assert (H2 : EVT.evtcnt (decoded "f" focused_file) <> 0)
    by (vm_compute; discriminate).
  assert (H3 : EVT.o_width no_options = None \/ EVT.o_offset no_options = None)
    by (left; reflexivity).
  split; [exact H1|]. split; [exact H2|]. split; [exact H3|].
  exact (filter_requires_width_and_offset _ no_options focused_rows H1 H2 H3).
Defined.

(** C8 as stated does not hold: on an instance built without reading data,
    [filter] without [width] and [offset] returns normally. *)
Lemma filter_without_width_may_return :
  EVT.init "f" None = Returned (EVT.blank "f") /\
  EVT.o_width no_options = None /\ EVT.o_offset no_options = None /\
  EVT.filter (EVT.blank "f") no_options = (EVT.blank "f", Returned tt).
Proof. repeat split. Qed.

(** C7.  For an instance built by [EVT(...)] and any parameters, after
    [filter] the retained count lies between 0 and the total count, the
    ratio lies between 0 and 1, the ratio is retained/total when there are
    rows, and it is 0 when there are none. *)
Theorem filter_counts_and_ratio
    (p : string) (content : option (list byte)) (o : EVT.filter_options)
    (s : EVT.obj) :
  EVT.init p content = Returned s ->
  let s' := fst (EVT.filter s o) in
  0 <= EVT.oppcnt s' <= EVT.evtcnt s' /\
  (0 <= EVT.opp_evt_ratio s' <= 1)%Q /\
  (EVT.evtcnt s' = 0 -> (EVT.opp_evt_ratio s' == 0)%Q) /\
  (EVT.evtcnt s' <> 0 ->
   (EVT.opp_evt_ratio s' == inject_Z (EVT.oppcnt s') / inject_Z (EVT.evtcnt s'))%Q).
Proof.
  intros Hinit s'.
  destruct (init_state p content s Hinit) as (Hopp & Hratio & _ & Hrows).
  assert (Hsame :
    0 <= EVT.evtcnt s -> s' = s ->
    0 <= EVT.oppcnt s' <= EVT.evtcnt s' /\
    (0 <= EVT.opp_evt_ratio s' <= 1)%Q /\
    (EVT.evtcnt s' = 0 -> (EVT.opp_evt_ratio s' == 0)%Q) /\
    (EVT.evtcnt s' <> 0 ->
     (EVT.opp_evt_ratio s'
      == inject_Z (EVT.oppcnt s') / inject_Z (EVT.evtcnt s'))%Q)).
  { intros Hpos ->. rewrite Hopp.
    split; [lia|]. split; [|split].
    - rewrite Hratio. split; [apply Qle_refl|discriminate].
    - intros _. exact Hratio.
    - intros _. rewrite Hratio. unfold Qdiv. now rewrite Qmult_0_l. }
  destruct Hrows as [[Hnone Hzero]|(rows & Hevt & Hcnt & Hpos & _)].
  { apply Hsame; [lia|]. subst s'. unfold EVT.filter. now rewrite Hnone. }
  destruct (EVT.o_width o) as [w|] eqn:Hw.
  2:{ apply Hsame; [lia|]. subst s'.
      rewrite (filter_missing_parameter s o rows); auto; lia. }
  destruct (EVT.o_offset o) as [off|] eqn:Hoff.
  2:{ apply Hsame; [lia|]. subst s'.
      rewrite (filter_missing_parameter s o rows); auto; lia. }
  destruct (filter_computed s o rows w off Hevt ltac:(lia) Hw Hoff)
    as (keep & n1 & n2 & Hf & _).
  subst s'. rewrite Hf. cbn [fst EVT.oppcnt EVT.evtcnt EVT.opp_evt_ratio].
  pose proof (filter_length_le keep rows) as Hle.
  assert (Hb : 0 <= Z.of_nat (length (List.filter keep rows)) <= EVT.evtcnt s)
    by lia.
  split; [lia|]. split; [|split].
  - apply ratio_in_unit_interval; lia.
  - lia.
  - intros _. apply Qeq_refl.
Qed.

Lemma filter_counts_and_ratio_witness :
  EVT.init "f" (Some skewed_file) = Returned (decoded "f" skewed_file) /\
  let s' := fst (EVT.filter (decoded "f" skewed_file) EVT.default_options) in
  0 <= EVT.oppcnt s' <= EVT.evtcnt s' /\
  (0 <= EVT.opp_evt_ratio s' <= 1)%Q /\
  (EVT.evtcnt s' = 0 -> (EVT.opp_evt_ratio s' == 0)%Q) /\
  (EVT.evtcnt s' <> 0 ->
   (EVT.opp_evt_ratio s' == inject_Z (EVT.oppcnt s') / inject_Z (EVT.evtcnt s'))%Q).
Proof.
  assert (H : EVT.init "f" (Some skewed_file) = Returned (decoded "f" skewed_file))
    by (vm_compute; reflexivity).
  split; [exact H|].
  exact (filter_counts_and_ratio "f" (Some skewed_file) EVT.default_options _ H).
Defined.

(** C1, as the code has it.  When [filter] is called without an origin on
    an instance holding rows, the origin it records is the median of
    [D2 - D1] over ALL decoded rows (the [fsc_small > 1] selection comes
    after), and this is the origin the retained rows were aligned with. *)
Theorem origin_is_median_of_all_rows
    (self : EVT.obj) (o : EVT.filter_options) (rows : list EVT.particle)
    (w off : fval) :
  EVT.evt self = Some rows -> EVT.evtcnt self <> 0 ->
  EVT.o_width o = Some w -> EVT.o_offset o = Some off ->
  EVT.o_origin o = None ->
  let m := median (detector_gap rows) in
  let s' := fst (EVT.filter self o) in
  snd (EVT.filter self o) = Returned tt /\
  EVT.origin s' = Some m /\
  exists retained,
    EVT.opp s' = Some retained /\
    Forall (fun p =>
      flt (fadd (val (EVT.D1 p)) m)
          (fadd (val (EVT.D2 p)) (fmul w (val (10 ^ 4)))) = true /\
      flt (val (EVT.D2 p))
          (fadd (fadd (val (EVT.D1 p)) m) (fmul w (val (10 ^ 4)))) = true)
      retained.
Proof.
  intros Hevt Hcnt Hw Hoff Horigin m s'.
  destruct (filter_computed self o rows w off Hevt Hcnt Hw Hoff)
    as (keep & n1 & n2 & Hf & Hkeep).
  rewrite Horigin in Hf, Hkeep. cbn [EVT.or_else] in Hf, Hkeep.
  subst s'. rewrite Hf. cbn [fst snd EVT.origin EVT.opp].
  split; [reflexivity|]. split; [reflexivity|].
  eexists. split; [reflexivity|].
  apply Forall_forall. intros p Hin.
  apply filter_In in Hin as [_ Hp].
  destruct (Hkeep p Hp) as (_ & H1 & H2). now split.
Qed.

Lemma origin_is_median_of_all_rows_witness :
  EVT.evt (decoded "f" skewed_file) = Some skewed_rows /\
  EVT.evtcnt (decoded "f" skewed_file) <> 0 /\
  EVT.origin (fst (EVT.filter (decoded "f" skewed_file) EVT.default_options))
  = Some (median (detector_gap skewed_rows)).
Proof.
  assert (H1 : EVT.evt (decoded "f" skewed_file) = Some skewed_rows)
    by (vm_compute; reflexivity).
  assert (H2 : EVT.evtcnt (decoded "f" skewed_file) <> 0)
    by (vm_compute; discriminate).
  split; [exact H1|]. split; [exact H2|].
  exact (proj1 (proj2
    (origin_is_median_of_all_rows _ EVT.default_options skewed_rows
       (Fin (1 # 2)) (Fin 0) H1 H2 eq_refl eq_refl eq_refl))).
Defined.

(** C1 as stated does not hold: for [skewed_file] the recorded origin is
    10, the median over all three rows, while the median over the two rows
    with [fsc_small > 1] is 5. *)
Lemma origin_is_not_median_of_candidates :
  EVT.init "f" (Some skewed_file) = Returned (decoded "f" skewed_file) /\
  EVT.evt (decoded "f" skewed_file) = Some skewed_rows /\
  let s' := fst (EVT.filter (decoded "f" skewed_file) EVT.default_options) in
  EVT.origin s' = Some (Fin 10) /\
  fval_eq (median (detector_gap (candidates skewed_rows))) (Fin 5) /\
  ~ fval_eq (Fin 10) (median (detector_gap (candidates skewed_rows))).
Proof.
  split; [vm_compute; reflexivity|].
  split; [vm_compute; reflexivity|].
  split; [vm_compute; reflexivity|].
  split; vm_compute; [reflexivity|discriminate].
Qed.

(** ** Encoding *)

Lemma astype_uint16_word v : word16 v -> EVT.astype_uint16 v = v.
Proof. intros H. unfold EVT.astype_uint16. now apply Z.mod_small. Qed.

Lemma map_astype_uint16 l :
  Forall word16 l -> map EVT.astype_uint16 l = l.
Proof.
  induction 1 as [|v l Hv _ IH]; simpl; [reflexivity|].
  now rewrite IH, astype_uint16_word.
Qed.

Lemma le_split_word_inv (bs : list byte) :
  length bs = 2%nat -> le_split 2 (le_combine bs) = bs.
Proof. intros H. now apply split_le_combine'. Qed.

Lemma le_combine_split_word v : word16 v -> le_combine (le_split 2 v) = v.
Proof.
  intros H. rewrite le_combine_split. now apply Z.mod_small.
Qed.

(** Writing the words read from a buffer of [2 * n] bytes gives the buffer
    back. *)
Lemma tofile_fromstring n buff :
  length buff = (2 * n)%nat ->
  flat_map (le_split 2) (EVT.fromstring_uint16 n buff) = buff.
Proof.
  revert buff; induction n as [|n IH]; intros buff Hlen;
    cbn [EVT.fromstring_uint16 flat_map].
  - symmetry. now apply length_zero_iff_nil.
  - rewrite IH by (rewrite length_skipn; lia).
    rewrite le_split_word_inv by (rewrite length_firstn; lia).
    apply firstn_skipn.
Qed.

(** Reading the words just written gives the words back. *)
Lemma fromstring_tofile ws rest :
  Forall word16 ws ->
  EVT.fromstring_uint16 (length ws) (flat_map (le_split 2) ws ++ rest) = ws.
Proof.
  induction 1 as [|w ws Hw _ IH]; cbn [length EVT.fromstring_uint16 flat_map];
    [reflexivity|].
  rewrite <- app_assoc.
  assert (Hl : length (le_split 2 w) = 2%nat) by apply length_le_split.
  rewrite firstn_app, Hl, Nat.sub_diag, firstn_O, app_nil_r.
  rewrite <- Hl at 1. rewrite firstn_all.
  rewrite skipn_app, Hl, Nat.sub_diag, skipn_O.
  rewrite <- Hl at 2. rewrite skipn_all. cbn [app].
  now rewrite IH, le_combine_split_word.
Qed.

Lemma reshape_concat c rows :
  Forall (fun row => length row = c) rows ->
  EVT.reshape (length rows) c (concat rows) = rows.
Proof.
  induction 1 as [|row rows Hrow _ IH]; cbn [length EVT.reshape concat];
    [reflexivity|].
  rewrite firstn_app, Hrow, Nat.sub_diag, firstn_O, app_nil_r.
  rewrite <- Hrow at 1. rewrite firstn_all.
  rewrite skipn_app, Hrow, Nat.sub_diag, skipn_O.
  rewrite <- Hrow at 2. rewrite skipn_all. cbn [app].
  now rewrite IH.
Qed.

Lemma flat_map_flat_map {A B C} (f : B -> list C) (g : A -> list B) l :
  flat_map f (flat_map g l) = flat_map (fun x => flat_map f (g x)) l.
Proof.
  induction l as [|x l IH]; simpl; [reflexivity|].
  now rewrite flat_map_app, IH.
Qed.

(** The matrix built by [create_opp_for_binary], written out, is the layout
    of the specification. *)
Lemma tofile_rows retained :
  Forall (fun q => Forall word16 (EVT.cols q)) retained ->
  EVT.tofile (map (fun q => 10 :: 0 :: map EVT.astype_uint16 (EVT.cols q)) retained)
  = flat_map row_bytes retained.
Proof.
  intros H. unfold EVT.tofile.
  induction H as [|q l Hq _ IH]; cbn [map flat_map]; [reflexivity|].
  rewrite IH. f_equal.
  rewrite map_astype_uint16 by exact Hq. reflexivity.
Qed.

(** [write_opp_binary] on an instance whose retained rows are consistent
    with its count. *)
Lemma write_opp_binary_bytes self retained :
  EVT.opp self = Some retained ->
  EVT.oppcnt self = Z.of_nat (length retained) ->
  0 < EVT.oppcnt self < 2 ^ 32 ->
  Forall (fun q => Forall word16 (EVT.cols q)) retained ->
  EVT.write_opp_binary self = Returned (Some (opp_bytes retained)).
Proof.
  intros Hopp Hcnt Hrange Hwords.
  unfold EVT.write_opp_binary, EVT.create_opp_for_binary, opp_bytes.
  destruct (Z.eqb_spec (EVT.oppcnt self) 0) as [|_]; [lia|].
  rewrite Hopp.
  destruct (Z.eqb_spec (Z.of_nat (length retained)) (EVT.oppcnt self)); [|lia].
  rewrite tofile_rows by exact Hwords.
  rewrite Z.mod_small by lia. now rewrite Hcnt.
Qed.

Lemma row_bytes_raw row :
  length row = 12%nat -> firstn 2 row = [10; 0] ->
  row_bytes (EVT.particle_of (EVT.delete01 row)) = flat_map (le_split 2) row.
Proof.
  intros Hlen Hpad. unfold row_bytes. rewrite cols_particle_of by exact Hlen.
  rewrite <- (firstn_skipn 2 row) at 2. rewrite Hpad. reflexivity.
Qed.

Lemma flat_map_map {A B C} (f : A -> B) (g : B -> list C) l :
  flat_map g (map f l) = flat_map (fun x => g (f x)) l.
Proof.
  induction l as [|x l IH]; simpl; [reflexivity|]. now rewrite IH.
Qed.

Lemma flat_map_ext_Forall {A B} (f g : A -> list B) l :
  Forall (fun x => f x = g x) l -> flat_map f l = flat_map g l.
Proof.
  induction 1 as [|x l Hx _ IH]; simpl; [reflexivity|]. now rewrite Hx, IH.
Qed.

(** Encoding all the rows decoded from a file written the instrument's way
    gives the file back. *)
Lemma encode_decoded fh :
  (4 <= length fh)%nat -> EVT.header_count fh <> 0 -> EVT.labview_file fh ->
  opp_bytes (map (fun r => EVT.particle_of (EVT.delete01 r)) (EVT.raw_rows fh))
  = fh.
Proof.
  intros H4 Hc [Hsize Hpad].
  assert (Hc0 : 0 <= EVT.header_count fh) by apply le_combine_bound.
  destruct (raw_rows_shape fh Hc0 ltac:(lia)) as (Hlen & H12 & _).
  unfold opp_bytes. rewrite length_map, Hlen, Z2Nat.id by exact Hc0.
  unfold EVT.header_count at 1.
  rewrite split_le_combine' by (rewrite length_firstn; lia).
  rewrite <- (firstn_skipn 4 fh) at 3. f_equal.
  rewrite flat_map_map.
  rewrite (flat_map_ext_Forall _ (fun row => flat_map (le_split 2) row)).
  2:{ rewrite Forall_forall in H12, Hpad |- *. intros row Hin.
      apply row_bytes_raw; [now apply H12|now apply Hpad]. }
  rewrite <- flat_map_flat_map.
  rewrite (flat_map_concat_map (fun row : list Z => row)), map_id.
  unfold EVT.raw_rows.
  unfold EVT.remaining in Hsize.
  rewrite concat_reshape by (rewrite length_fromstring_uint16; lia).
  rewrite tofile_fromstring by (rewrite length_firstn, length_skipn; lia).
  apply firstn_all2. rewrite length_skipn. lia.
Qed.

Lemma length_row_bytes q : length (row_bytes q) = 24%nat.
Proof.
  unfold row_bytes. rewrite !length_app, !length_le_split.
  destruct q; cbn [EVT.cols flat_map].
  rewrite !length_app, !length_le_split. reflexivity.
Qed.

Lemma length_flat_map_row_bytes l :
  length (flat_map row_bytes l) = (24 * length l)%nat.
Proof.
  induction l as [|q l IH]; [reflexivity|].
  cbn [flat_map length]. rewrite length_app, length_row_bytes, IH. lia.
Qed.

Lemma list_sum_constant {A} (c : nat) (l : list A) :
  list_sum (map (fun _ => c) l) = (c * length l)%nat.
Proof.
  induction l as [|x l IH]; simpl; [lia|].
  rewrite IH. lia.
Qed.

Lemma flat_map_row_bytes l :
  flat_map row_bytes l
  = flat_map (le_split 2) (concat (map (fun q => 10 :: 0 :: EVT.cols q) l)).
Proof.
  induction l as [|q l IH]; cbn [map concat flat_map]; [reflexivity|].
  rewrite flat_map_app, <- IH. reflexivity.
Qed.

(** What [raw_rows] cuts out of an encoded subset: the rows, each behind
    its two padding words. *)
Lemma raw_rows_opp_bytes retained :
  Z.of_nat (length retained) < 2 ^ 32 ->
  Forall (fun q => Forall word16 (EVT.cols q)) retained ->
  EVT.header_count (opp_bytes retained) = Z.of_nat (length retained) /\
  EVT.remaining (opp_bytes retained) = Z.of_nat (length retained) * 12 * 2 /\
  EVT.raw_rows (opp_bytes retained)
  = map (fun q => 10 :: 0 :: EVT.cols q) retained.
Proof.
  intros Hn Hwords.
  assert (Hh : EVT.header_count (opp_bytes retained) = Z.of_nat (length retained)).
  { unfold EVT.header_count, opp_bytes.
    rewrite firstn_app, length_le_split, Nat.sub_diag, firstn_O, app_nil_r.
    rewrite firstn_all2 by (rewrite length_le_split; lia).
    rewrite le_combine_split. apply Z.mod_small. change (Z.of_nat 4 * 8) with 32. lia. }
  split; [exact Hh|]. split.
  { unfold EVT.remaining, opp_bytes.
    rewrite length_app, length_le_split, length_flat_map_row_bytes. lia. }
  unfold EVT.raw_rows. rewrite Hh. unfold opp_bytes.
  rewrite skipn_app, length_le_split, Nat.sub_diag, skipn_O.
  rewrite skipn_all2 by (rewrite length_le_split; lia). cbn [app].
  rewrite firstn_all2 by (rewrite length_flat_map_row_bytes; lia).
  set (rows12 := map (fun q => 10 :: 0 :: EVT.cols q) retained).
  assert (Hbody : flat_map row_bytes retained
                  = flat_map (le_split 2) (concat rows12) ++ []).
  { rewrite app_nil_r. subst rows12. apply flat_map_row_bytes. }
  assert (H12 : Forall (fun row => length row = 12%nat) rows12).
  { subst rows12. apply Forall_map, Forall_forall. intros q _. reflexivity. }
  assert (Hlen : length (concat rows12) = Z.to_nat (Z.of_nat (length retained) * 12)).
  { rewrite length_concat, (map_ext_Forall _ (fun _ => 12%nat) H12).
    rewrite list_sum_constant. subst rows12. rewrite length_map. lia. }
  rewrite Hbody, <- Hlen.
  rewrite fromstring_tofile.
  2:{ subst rows12. apply Forall_concat, Forall_map.
      eapply Forall_impl; [|exact Hwords]. intros q Hq.
      constructor; [unfold word16; lia|].
      constructor; [unfold word16; lia|exact Hq]. }
  replace (Z.to_nat (Z.of_nat (length retained))) with (length rows12)
    by (subst rows12; rewrite length_map; lia).
  now apply reshape_concat.
Qed.

(** Decoding an encoded subset gives its rows back, under a header that
    carries their number. *)
Lemma decode_encoded p retained :
  retained <> [] -> Z.of_nat (length retained) < 2 ^ 32 ->
  Forall (fun q => Forall word16 (EVT.cols q)) retained ->
  exists t,
    EVT.init p (Some (opp_bytes retained)) = Returned t /\
    EVT.evt t = Some retained /\
    EVT.headercnt t = Z.of_nat (length retained) /\
    EVT.evtcnt t = Z.of_nat (length retained).
Proof.
  intros Hne Hn Hwords.
  destruct (raw_rows_opp_bytes retained Hn Hwords) as (Hh & Hr & Hraw).
  assert (Hpos : (0 < length retained)%nat)
    by (destruct retained; [contradiction|simpl; lia]).
  assert (Hlen : length (opp_bytes retained) = (4 + 24 * length retained)%nat).
  { unfold opp_bytes.
    rewrite length_app, length_le_split, length_flat_map_row_bytes. lia. }
  unfold EVT.init. rewrite read_evt_cases, Hh, Hr, Hraw, Hlen.
  destruct (Nat.eqb_spec (4 + 24 * length retained) 0); [lia|].
  destruct (Nat.ltb_spec (4 + 24 * length retained) 4); [lia|].
  destruct (Z.eqb_spec (Z.of_nat (length retained)) 0); [lia|].
  rewrite Z.ltb_irrefl. cbv zeta.
  assert (Hrows :
    map (fun r => EVT.particle_of (EVT.delete01 r))
        (map (fun q => 10 :: 0 :: EVT.cols q) retained) = retained).
  { rewrite map_map. rewrite <- (map_id retained) at 2.
    apply map_ext. intros q. apply particle_of_cols. }
  rewrite Hrows. eexists. split; [reflexivity|].
  cbn [EVT.evt EVT.headercnt EVT.evtcnt]. repeat split.
Qed.

(** C3, as the code has it.  For an input that decodes and a call of
    [filter] that retains at least one row, [write_opp_binary] writes the
    retained count on four bytes and then, for each retained row in the
    original order, the padding words 10 and 0 and the ten channel values
    as unsigned 16-bit integers; decoding that output gives the retained
    rows back; and when all rows are retained and the input is laid out
    the instrument's way (padding 10, 0 in every row, nothing after the
    declared rows), the output is the input, byte for byte. *)
Theorem encode_retained_rows
    (p : string) (fh : list byte) (o : EVT.filter_options) (s s' : EVT.obj) :
  EVT.init p (Some fh) = Returned s ->
  EVT.filter s o = (s', Returned tt) ->
  EVT.oppcnt s' <> 0 ->
  exists rows keep,
    EVT.evt s = Some rows /\
    EVT.opp s' = Some (List.filter keep rows) /\
    EVT.oppcnt s' = Z.of_nat (length (List.filter keep rows)) /\
    EVT.write_opp_binary s'
    = Returned (Some (opp_bytes (List.filter keep rows))) /\
    (exists t,
       EVT.init p (Some (opp_bytes (List.filter keep rows))) = Returned t /\
       EVT.evt t = Some (List.filter keep rows) /\
       EVT.headercnt t = EVT.oppcnt s') /\
    (List.filter keep rows = rows -> EVT.labview_file fh ->
     EVT.write_opp_binary s' = Returned (Some fh)).
Proof.
  intros Hinit Hfilter Hopp.
  destruct (init_state p (Some fh) s Hinit) as (_ & _ & _ & Hrows).
  destruct Hrows as [[Hnone _]|(rows & Hevt & Hcnt & Hpos & Hwords)].
  { unfold EVT.filter in Hfilter. rewrite Hnone in Hfilter.
    injection Hfilter as <-.
    destruct (init_state p (Some fh) s Hinit) as (H0 & _). contradiction. }
  destruct (EVT.o_width o) as [w|] eqn:Hw.
  2:{ rewrite (filter_missing_parameter s o rows) in Hfilter;
        auto; [discriminate|lia]. }
  destruct (EVT.o_offset o) as [off|] eqn:Hoff.
  2:{ rewrite (filter_missing_parameter s o rows) in Hfilter;
        auto; [discriminate|lia]. }
  destruct (filter_computed s o rows w off Hevt ltac:(lia) Hw Hoff)
    as (keep & n1 & n2 & Hf & _).
  rewrite Hf in Hfilter. injection Hfilter as <-.
  cbn [EVT.oppcnt] in Hopp.
  set (retained := List.filter keep rows) in *.
  assert (Hle : (length retained <= length rows)%nat)
    by apply filter_length_le.
  assert (Hret : Forall (fun q => Forall word16 (EVT.cols q)) retained).
  { apply Forall_forall. intros q Hq. apply filter_In in Hq as [Hq _].
    rewrite Forall_forall in Hwords. now apply Hwords. }
  assert (Hwrite :
    EVT.write_opp_binary
      (EVT.mkEVT (EVT.path s) (EVT.headercnt s) (EVT.evtcnt s)
         (Z.of_nat (length retained))
         (inject_Z (Z.of_nat (length retained)) / inject_Z (EVT.evtcnt s))%Q
         (Some rows) (Some retained) (Some n1) (Some n2) (Some off)
         (Some (EVT.or_else (EVT.o_origin o)
                  (median (map (fun p0 => EVT.D2 p0 - EVT.D1 p0) rows))))
         (Some w))
    = Returned (Some (opp_bytes retained))).
  { apply write_opp_binary_bytes; cbn [EVT.opp EVT.oppcnt];
      [reflexivity|reflexivity|lia|exact Hret]. }
  exists rows, keep. fold retained. cbn [EVT.opp EVT.oppcnt].
  split; [exact Hevt|]. split; [reflexivity|]. split; [reflexivity|].
  split; [exact Hwrite|]. split.
  - destruct (decode_encoded p retained) as (t & Ht & Hte & Hth & _);
      [intros Hnil; rewrite Hnil in Hopp; apply Hopp; reflexivity
      |lia|exact Hret|].
    exists t. repeat split; assumption.
  - intros Hall Hlab. rewrite Hwrite. do 2 f_equal.
    unfold EVT.init in Hinit. rewrite read_evt_cases in Hinit.
    destruct (Nat.eqb_spec (length fh) 0); [discriminate|].
    destruct (Nat.ltb_spec (length fh) 4); [discriminate|].
    destruct (Z.eqb_spec (EVT.header_count fh) 0); [discriminate|].
    destruct (EVT.remaining fh <? EVT.header_count fh * 12 * 2); [discriminate|].
    injection Hinit as <-. cbn [EVT.evt] in Hevt. injection Hevt as <-.
    rewrite Hall. apply encode_decoded; [lia|assumption|assumption].
Qed.

Lemma encode_retained_rows_witness :
  let s := decoded "f" focused_file in
  let s' := fst (EVT.filter s EVT.default_options) in
  EVT.init "f" (Some focused_file) = Returned s /\
  EVT.filter s EVT.default_options = (s', Returned tt) /\
  EVT.oppcnt s' <> 0 /\
  EVT.labview_file focused_file /\
  EVT.write_opp_binary s' = Returned (Some focused_file).
Proof.
  intros s s'.
  assert (H1 : EVT.init "f" (Some focused_file) = Returned s)
    by (vm_compute; reflexivity).
  assert (H2 : EVT.filter s EVT.default_options = (s', Returned tt))
    by (vm_compute; reflexivity).
  assert (H3 : EVT.oppcnt s' <> 0) by (vm_compute; discriminate).
  assert (H4 : EVT.labview_file focused_file)
    by (split; [vm_compute; reflexivity|vm_compute; repeat constructor]).
  split; [exact H1|]. split; [exact H2|]. split; [exact H3|]. split; [exact H4|].
  destruct (encode_retained_rows "f" focused_file EVT.default_options s s' H1 H2 H3)
    as (rows & keep & Hevt & Hopp & _ & _ & _ & Hall).
  apply Hall; [|exact H4].
  assert (He : EVT.evt s = Some focused_rows) by (vm_compute; reflexivity).
  assert (Ho : EVT.opp s' = Some focused_rows) by (vm_compute; reflexivity).
  congruence.
Defined.

(** C3 as stated does not hold: [zero_padded_file] decodes, [filter] with
    the default parameters retains its only row, and the bytes written
    differ from the input (the padding words come back as 10 and 0). *)
Lemma encode_rewrites_padding :
  let s := decoded "f" zero_padded_file in
  let s' := fst (EVT.filter s EVT.default_options) in
  EVT.init "f" (Some zero_padded_file) = Returned s /\
  EVT.filter s EVT.default_options = (s', Returned tt) /\
  EVT.opp s' = EVT.evt s /\
  exists out,
    EVT.write_opp_binary s' = Returned (Some out) /\ out <> zero_padded_file.
Proof.
  intros s s'.
  split; [vm_compute; reflexivity|].
  split; [vm_compute; reflexivity|].
  split; [vm_compute; reflexivity|].
  eexists. split; [vm_compute; reflexivity|].
  vm_compute. discriminate.
Qed.

(** Nor is anything written for an empty retained subset: for
    [skewed_file] and an offset that no row passes, [write_opp_binary]
    writes no file at all. *)
Lemma nothing_written_when_nothing_retained :
  let s := decoded "f" skewed_file in
  let o := EVT.mkOptions None None (Some (Fin (-1))) None (Some (Fin (1 # 2))) in
  let s' := fst (EVT.filter s o) in
  EVT.filter s o = (s', Returned tt) /\
  EVT.opp s' = Some [] /\
  EVT.write_opp_binary s' = Returned None.
Proof.
  intros s o s'. repeat split; vm_compute; reflexivity.
Qed.

(** ** Log-scale transform *)

Lemma transform_exponent (v : R) :
  ((v / 2 ^ 16) * 3.5 = v * (7 / 131072))%R.
Proof. simpl. lra. Qed.

(** C9.  [transform v] is 10 to the power [(v / 2^16) * 3.5]; it is
    strictly increasing (on [0, 65535] and beyond); and [transform 0 = 1]. *)
Theorem transform_log_scale :
  (forall v : R, EVT.transform v = Rpower 10 ((v / 65536) * (35 / 10))) /\
  (forall a b : R, (0 <= a)%R -> (a < b)%R -> (b <= 65535)%R ->
     (EVT.transform a < EVT.transform b)%R) /\
  EVT.transform 0 = 1%R.
Proof.
  split; [|split].
  - intros v. unfold EVT.transform. f_equal. simpl. lra.
  - intros a b _ Hab _. unfold EVT.transform.
    apply Rpower_lt; [lra|]. rewrite !transform_exponent. lra.
  - unfold EVT.transform. rewrite transform_exponent, Rmult_0_l.
    apply Rpower_O. lra.
Qed.

Lemma transform_log_scale_witness :
  (0 <= 0)%R /\ (0 < 65535)%R /\ (65535 <= 65535)%R /\
  (EVT.transform 0 < EVT.transform 65535)%R.
Proof.
  assert (H1 : (0 <= 0)%R) by lra.
  assert (H2 : (0 < 65535)%R) by lra.
  assert (H3 : (65535 <= 65535)%R) by lra.
  split; [exact H1|]. split; [exact H2|]. split; [exact H3|].
  exact (proj1 (proj2 transform_log_scale) 0%R 65535%R H1 H2 H3).
Defined.

(** ** Fetch retries *)

Section FetchRetries.

Variable s3_get : string -> nat -> outcome (list byte).
Variable random : nat -> Q.
Variable key_str : string.

Let download := S3.download_s3_file_memory s3_get random.

(** The five ways the loop can end, read off the outcomes of the
    attempts. *)
Lemma download_unfolded fuel :
  (5 <= fuel)%nat ->
  download fuel key_str =
  Some
    match s3_get key_str 1 with
    | Returned d => (S3.schedule random 1 0, Returned d)
    | Raised _ =>
      match s3_get key_str 2 with
      | Returned d => (S3.schedule random 1 1, Returned d)
      | Raised _ =>
        match s3_get key_str 3 with
        | Returned d => (S3.schedule random 1 2, Returned d)
        | Raised _ =>
          match s3_get key_str 4 with
          | Returned d => (S3.schedule random 1 3, Returned d)
          | Raised _ =>
            match s3_get key_str 5 with
            | Returned d => (S3.schedule random 1 4, Returned d)
            | Raised e => (S3.schedule random 1 4, Raised e)
            end
          end
        end
      end
    end.
Proof.
  intros Hfuel.
  do 5 (destruct fuel as [|fuel]; [lia|]). clear Hfuel.
  unfold download, S3.download_s3_file_memory.
  cbn [S3.download_loop Z.eqb Z.add Pos.eqb Pos.add Pos.succ].
  change (Z.to_nat 1) with 1%nat. change (Z.to_nat 2) with 2%nat.
  change (Z.to_nat 3) with 3%nat. change (Z.to_nat 4) with 4%nat.
  change (Z.to_nat 5) with 5%nat.
  destruct (s3_get key_str 1); [reflexivity|].
  destruct (s3_get key_str 2); [reflexivity|].
  destruct (s3_get key_str 3); [reflexivity|].
  destruct (s3_get key_str 4); [reflexivity|].
  destruct (s3_get key_str 5); reflexivity.
Qed.

Lemma jitter_bounds (c j : Q) :
  (0 <= j < 1 -> c <= c + j < c + 1)%Q.
Proof.
  intros [H0 H1]. split.
  - rewrite <- (Qplus_0_r c) at 1. now apply Qplus_le_r.
  - now apply Qplus_lt_r.
Qed.

Ltac earlier_attempt Hall :=
  first
    [ congruence
    | destruct (Hall 1%nat ltac:(lia)); congruence
    | destruct (Hall 2%nat ltac:(lia)); congruence
    | destruct (Hall 3%nat ltac:(lia)); congruence
    | destruct (Hall 4%nat ltac:(lia)); congruence ].

(** C5.  With the default [retries=5] and any behaviour of the store, the
    loop terminates after at most five attempts; the trace of attempts
    and sleeps is the schedule of the specification, cut at the first
    success or after the fifth attempt; a first success at attempt [k]
    is returned after exactly [k] attempts; five failures propagate the
    fifth one after exactly five attempts; and every sleep is
    [2^(k-1)] plus the [k]-th random draw, hence within
    [[2^(k-1), 2^(k-1) + 1)] when the draws are in [[0, 1)]. *)
Theorem fetch_makes_at_most_five_attempts (fuel : nat) :
  (forall k, (0 <= random k < 1)%Q) ->
  (5 <= fuel)%nat ->
  exists tr r,
    download fuel key_str = Some (tr, r) /\
    (1 <= S3.attempts tr <= 5)%nat /\
    tr = S3.schedule random 1 (S3.attempts tr - 1) /\
    (forall k d, (1 <= k <= 5)%nat ->
       all_raise s3_get key_str k -> s3_get key_str k = Returned d ->
       r = Returned d /\ S3.attempts tr = k) /\
    (forall e, all_raise s3_get key_str 5 -> s3_get key_str 5 = Raised e ->
       r = Raised e /\ S3.attempts tr = 5%nat) /\
    (forall d, In (S3.Sleep d) tr ->
       exists k, (1 <= k <= 4)%nat /\
         d = (inject_Z (2 ^ (Z.of_nat k - 1)) + random k)%Q /\
         (inject_Z (2 ^ (Z.of_nat k - 1)) <= d
          < inject_Z (2 ^ (Z.of_nat k - 1)) + 1)%Q).
Proof.
  intros Hjitter Hfuel. rewrite (download_unfolded fuel Hfuel).
  assert (Hsleep : forall k,
    (1 <= k <= 4)%nat ->
    exists k', (1 <= k' <= 4)%nat /\
      (inject_Z (2 ^ (Z.of_nat k - 1)) + random k
       = inject_Z (2 ^ (Z.of_nat k' - 1)) + random k')%Q /\
      (inject_Z (2 ^ (Z.of_nat k' - 1))
       <= inject_Z (2 ^ (Z.of_nat k - 1)) + random k
       < inject_Z (2 ^ (Z.of_nat k' - 1)) + 1)%Q).
  { intros k Hk. exists k. split; [exact Hk|]. split; [reflexivity|].
    apply jitter_bounds, Hjitter. }
  destruct (s3_get key_str 1) as [d1|e1] eqn:E1;
    [|destruct (s3_get key_str 2) as [d2|e2] eqn:E2;
      [|destruct (s3_get key_str 3) as [d3|e3] eqn:E3;
        [|destruct (s3_get key_str 4) as [d4|e4] eqn:E4;
          [|destruct (s3_get key_str 5) as [d5|e5] eqn:E5]]]];
    eexists _, _; (split; [reflexivity|]);
    (split; [cbn; lia|]); (split; [reflexivity|]);
    (split; [|split]).
  all: try (intros k d Hk Hall Hd;
            assert (Hcases : (k = 1 \/ k = 2 \/ k = 3 \/ k = 4 \/ k = 5)%nat) by lia;
            destruct Hcases as [Hc|[Hc|[Hc|[Hc|Hc]]]]; subst k;
            first [ split; [congruence|reflexivity] | earlier_attempt Hall ]).
  all: try (intros e Hall He;
            first [ split; [congruence|reflexivity] | earlier_attempt Hall ]).
  all: intros d Hin; cbn in Hin;
    repeat (destruct Hin as [Hin|Hin];
            [ first [ discriminate Hin
                    | injection Hin as <-;
                      first [ apply (Hsleep 1%nat); lia
                            | apply (Hsleep 2%nat); lia
                            | apply (Hsleep 3%nat); lia
                            | apply (Hsleep 4%nat); lia ] ] | ]);
    contradiction.
Qed.

End FetchRetries.

Lemma fetch_makes_at_most_five_attempts_witness :
  (forall k, (0 <= half k < 1)%Q) /\ (5 <= 5)%nat /\
  exists tr,
    S3.download_s3_file_memory flaky_get half 5 "key" = Some (tr, Returned focused_file) /\
    S3.attempts tr = 5%nat.
Proof.
  assert (H1 : forall k, (0 <= half k < 1)%Q)
    by (intros k; split; [discriminate|reflexivity]).
  assert (H2 : (5 <= 5)%nat) by lia.
  split; [exact H1|]. split; [exact H2|].
  destruct (fetch_makes_at_most_five_attempts flaky_get half "key" 5 H1 H2)
    as (tr & r & Hrun & _ & _ & Hfirst & _).
  destruct (Hfirst 5%nat focused_file) as [Hr Hn].
  - lia.
  - intros j Hj. unfold flaky_get.
    destruct (Nat.ltb_spec j 5); [eexists; reflexivity|lia].
  - reflexivity.
  - exists tr. rewrite Hr in Hrun. split; [exact Hrun|exact Hn].
Defined.

(** ** The worker boundary *)

Lemma loop_completes every n completions :
  forall st i,
    (forall c, In c completions -> exists r, c = Returned (Some r)) ->
    (forall j, i <= j < i + Z.of_nat (length completions) ->
               exists q, quotient every j n = Returned q) ->
    exists st', loop every n st i completions = Returned st'.
Proof.
  induction completions as [|c l IH]; intros st i Hres Hq; cbn [loop].
  - eexists. reflexivity.
  - destruct (Hres c (or_introl eq_refl)) as [r ->].
    destruct (Hq i) as [q Hqi]; [cbn [length]; lia|].
    unfold loop_body. rewrite Hqi.
    destruct (PrimFloat.ltb _ _); apply IH.
    all: try (intros c' Hc'; apply Hres; now right).
    all: intros j Hj; apply Hq; cbn [length]; lia.
Qed.

(** A batch whose set-up succeeds, whose workers all return a result and
    whose progress arithmetic is defined runs to completion. *)
Lemma batch_completes (w : world) (o : options) (files : list string) :
  (forall f, In f files -> exists r, snd (do_work w o f) = Returned (Some r)) ->
  batch_set_up w o ->
  progress_defined (every o) (Z.of_nat (length files)) ->
  exists out, run_batch w o files = Returned out.
Proof.
  intros Hworkers (Htables & Hcpus & e & Hevery) Hprogress.
  unfold run_batch, Pool.
  assert (Hdb : match db o with
                | Some d => ensure_tables w d
                | None => Returned tt
                end = Returned tt)
    by (destruct (db o) as [d|]; [now apply Htables|reflexivity]).
  rewrite Hdb. destruct (Z.ltb_spec (cpus o) 1) as [|_]; [lia|].
  cbn [bind]. unfold filter_files, heading. rewrite Hevery. cbn [bind].
  rewrite length_map.
  destruct (loop_completes (every o) (Z.of_nat (length files))
              (map (fun f => snd (do_work w o f)) files)
              (mkProgress 0 0 0 0 0 0 []) 0) as [st' Hst'].
  - intros c Hc. apply in_map_iff in Hc as (f & <- & Hf). now apply Hworkers.
  - intros j Hj. rewrite length_map in Hj. apply Hprogress. lia.
  - rewrite Hst'. eexists. reflexivity.
Qed.

(** C2, as the code has it.  A failure raised while the [EVT] object is
    built (an [EVTFileError] from decoding, or any other exception raised
    by opening and reading the file) is caught in [filter_one_file],
    logged in one line that names the file, and returned as a failed unit
    ([ok = False], both counts 0), provided the fetch before it succeeded
    or was not needed; and a batch in which every worker returns a
    result, failed units included, runs to completion, provided its
    set-up succeeds (tables, pool, a resolution that is no infinity and
    no NaN) and every [int(perc / every)] can be computed. *)
Theorem decode_failure_is_a_failed_unit (w : world) (o : options) :
  (forall file fileobj e,
     fetch_fileobj w o file = Returned fileobj ->
     construct_evt w file fileobj = Raised e ->
     filter_one_file w o file
     = ([logged file e], Returned (mkResult false 0 0 file)) /\
     do_work w o file
     = ([logged file e], Returned (Some (mkResult false 0 0 file))) /\
     named (logged file e) = file) /\
  (forall files,
     (forall f, In f files -> exists r, snd (do_work w o f) = Returned (Some r)) ->
     batch_set_up w o ->
     progress_defined (every o) (Z.of_nat (length files)) ->
     exists out, run_batch w o files = Returned out).
Proof.
  split.
  - intros file fileobj e Hfetch Hctor.
    unfold do_work, filter_one_file. rewrite Hfetch, Hctor.
    destruct e; repeat split; reflexivity.
  - apply batch_completes.
Qed.

Lemma decode_failure_is_a_failed_unit_witness :
  fetch_fileobj local_world local_run "a" = Returned None /\
  construct_evt local_world "a" None
  = Raised (EVTFileError (IncorrectDataBytes 72 48)) /\
  do_work local_world local_run "a"
  = ([CouldNotParse "a" (EVTFileError (IncorrectDataBytes 72 48))],
     Returned (Some (mkResult false 0 0 "a"))) /\
  (forall f, In f ["a"; "b"]%string ->
     exists r, snd (do_work local_world local_run f) = Returned (Some r)) /\
  batch_set_up local_world local_run /\
  progress_defined (every local_run) 2 /\
  exists out, run_batch local_world local_run ["a"; "b"]%string = Returned out.
Proof.
  assert (H1 : fetch_fileobj local_world local_run "a" = Returned None)
    by reflexivity.
  assert (H2 : construct_evt local_world "a" None
               = Raised (EVTFileError (IncorrectDataBytes 72 48)))
    by (vm_compute; reflexivity).
  assert (H3 : forall f, In f ["a"; "b"]%string ->
                 exists r, snd (do_work local_world local_run f) = Returned (Some r)).
  { intros f Hf. cbn [In] in Hf.
    destruct Hf as [Hf|Hf]; [subst f; eexists; vm_compute; reflexivity|].
    destruct Hf as [Hf|Hf]; [subst f; eexists; vm_compute; reflexivity|].
    contradiction. }
  assert (H4 : batch_set_up local_world local_run).
  { split; [intros d Hd; discriminate Hd|]. split; [reflexivity|].
    eexists. vm_compute. reflexivity. }
  assert (H5 : progress_defined (every local_run) 2).
  { intros i Hi. assert (Hcases : i = 0 \/ i = 1) by lia.
    destruct Hcases as [Hc|Hc]; subst i; eexists; vm_compute; reflexivity. }
  split; [exact H1|]. split; [exact H2|].
  split;
    [exact (proj1 (proj2
       (proj1 (decode_failure_is_a_failed_unit local_world local_run)
          "a"%string None _ H1 H2)))|].
  split; [exact H3|]. split; [exact H4|]. split; [exact H5|].
  exact (proj2 (decode_failure_is_a_failed_unit local_world local_run)
           ["a"; "b"]%string H3 H4 H5).
Defined.

(** C2 as stated does not hold for a fetch failure: the download runs
    before the [try], its exception leaves [do_work], and the batch stops
    there although the other file alone is processed without error. *)
Lemma fetch_failure_stops_the_batch :
  snd (do_work lossy_world remote_run "a") = Raised (OtherError "NoSuchKey") /\
  run_batch lossy_world remote_run ["a"; "b"]%string
  = Raised (OtherError "NoSuchKey") /\
  exists out, run_batch lossy_world remote_run ["b"%string] = Returned out.
Proof.
  split; [reflexivity|]. split; [vm_compute; reflexivity|].
  eexists. vm_compute. reflexivity.
Qed.

(** The same for an error raised after the [try], here by [filter]. *)
Lemma filter_failure_stops_the_batch :
  snd (do_work local_world local_run_without_width "b")
  = Raised (ValueError "Must supply width and offset to EVT.filter()") /\
  run_batch local_world local_run_without_width ["a"; "b"]%string
  = Raised (ValueError "Must supply width and offset to EVT.filter()").
Proof.
  split; vm_compute; reflexivity.
Qed.

(** ** Progress reports *)

Lemma quotients_cons every n i c qs :
  quotients every n i (S c) = Returned qs ->
  exists q qs',
    quotient every i n = Returned q /\
    quotients every n (i + 1) c = Returned qs' /\
    qs = q :: qs'.
Proof.
  cbn [quotients]. unfold bind at 1.
  destruct (quotient every i n) as [q|e]; [|discriminate].
  unfold bind at 1.
  destruct (quotients every n (i + 1) c) as [qs'|e]; [|discriminate].
  intros [= <-]. now exists q, qs'.
Qed.

Lemma length_quotients every n c :
  forall i qs, quotients every n i c = Returned qs -> length qs = c.
Proof.
  induction c as [|c IH]; intros i qs H.
  - injection H as <-. reflexivity.
  - apply quotients_cons in H as (q & qs' & _ & H & ->).
    cbn [length]. f_equal. now apply IH with (i := i + 1).
Qed.

Section Milestones.

Variable every : float.
Variable n : Z.
Variable allqs : list Z.

(** What [order_kept every allqs = true] says. *)
Hypothesis above_zero :
  forall a, In a allqs ->
    (0 <? milestone_of every a)%float = (0 <? a).
Hypothesis order :
  forall a b, In a allqs -> In b allqs ->
    (milestone_of every b <? milestone_of every a)%float = (b <? a).

Lemma milestone_test st previous q :
  tracks every allqs st previous -> In q allqs ->
  (last st <? milestone_of every q)%float = (previous <? q).
Proof.
  intros [[-> ->]|[Hin ->]] Hq; [now apply above_zero|now apply order].
Qed.

(** The loop prints the due reports, no more and no less. *)
Lemma loop_prints_due_reports results :
  forall qs st i previous,
    quotients every n i (length results) = Returned qs ->
    incl qs allqs ->
    tracks every allqs st previous ->
    exists st',
      loop every n st i (delivered results) = Returned st' /\
      printed st'
      = printed st
        ++ map (block_of n)
             (due_reports (combine qs results) i previous
                (oppcnt_block st) (evtcnt_block st)).
Proof.
  induction results as [|r results IH]; intros qs st i previous Hqs Hincl Htr.
  - injection Hqs as <-. exists st. split; [reflexivity|].
    cbn. now rewrite app_nil_r.
  - cbn [length] in Hqs.
    apply quotients_cons in Hqs as (q & qs' & Hq & Hqs' & ->).
    assert (Hin : In q allqs) by (apply Hincl; now left).
    assert (Hincl' : incl qs' allqs)
      by (intros x Hx; apply Hincl; now right).
    cbn [delivered map loop combine due_reports]. fold (delivered results).
    unfold loop_body. rewrite Hq.
    change (float_of_int q * every)%float with (milestone_of every q).
    rewrite (milestone_test st previous q Htr Hin).
    destruct (previous <? q).
    + match goal with
      | |- context [loop _ _ ?s _ _] =>
        destruct (IH qs' s (i + 1) q Hqs' Hincl') as (st' & Hloop & Hprinted)
      end.
      { right. split; [exact Hin|reflexivity]. }
      exists st'. split; [exact Hloop|].
      rewrite Hprinted. cbn [printed oppcnt_block evtcnt_block map].
      rewrite <- app_assoc. reflexivity.
    + match goal with
      | |- context [loop _ _ ?s _ _] =>
        destruct (IH qs' s (i + 1) previous Hqs' Hincl')
          as (st' & Hloop & Hprinted)
      end.
      { destruct Htr as [[Hl Hp]|[Hp Hl]]; [left|right]; split; assumption. }
      exists st'. split; [exact Hloop|].
      rewrite Hprinted. reflexivity.
Qed.

End Milestones.

Lemma order_kept_spec every qs :
  order_kept every qs = true ->
  (forall a, In a qs -> (0 <? milestone_of every a)%float = (0 <? a)) /\
  (forall a b, In a qs -> In b qs ->
     (milestone_of every b <? milestone_of every a)%float = (b <? a)).
Proof.
  unfold order_kept. rewrite forallb_forall. intros H. split.
  - intros a Ha. specialize (H a Ha).
    apply andb_prop in H as [H _]. now apply eqb_prop.
  - intros a b Ha Hb. specialize (H a Ha).
    apply andb_prop in H as [_ H]. rewrite forallb_forall in H.
    now apply eqb_prop, H.
Qed.

(** Successive due reports sit at strictly increasing values of
    [floor(p/R)], all above the value at the previous report: no multiple
    is reported twice. *)
Lemma due_reports_increasing items :
  forall i previous opp_since evt_since,
    let ds := due_reports items i previous opp_since evt_since in
    Forall (fun d => previous < d_floor d) ds /\
    StronglySorted Z.lt (map d_floor ds).
Proof.
  induction items as [|[f r] items IH]; intros i previous opp_since evt_since;
    cbn [due_reports].
  - split; constructor.
  - destruct (Z.ltb_spec previous f) as [Hlt|Hge].
    + destruct (IH (i + 1) f 0 0) as [Habove Hsorted].
      split; cbn [map d_floor].
      * constructor; [exact Hlt|].
        eapply Forall_impl; [|exact Habove]. cbv beta. intros d Hd. lia.
      * constructor; [exact Hsorted|]. now apply Forall_map.
    + apply IH.
Qed.

(** C6, as the code has it.  The test of [filter_files] is on the
    binary64 values: [p = float(completed) / N * 100], the quotient
    [int(p / R)] and the milestone [int(p / R) * R].  For a resolution [R]
    that is no infinity and no NaN, a batch whose workers all return a
    result, whose quotients can all be computed and for which the
    multiplication by [R] keeps the order and the sign of these quotients
    (it does for the usual positive resolutions, not for a negative one),
    a block report is printed after a completion exactly when the
    quotient exceeds its value at the previous report (0 before the first
    one); the report carries the particles counted since the previous one
    and the counters start again; the reported quotients are strictly
    increasing, so that no multiple is reported twice; and the summary
    follows once.  Ten files at a resolution of 10 give ten block reports,
    three files at a resolution of 50 give two. *)
Theorem block_reports_at_new_multiples :
  (forall (every : float) (results : list result) (qs : list Z) (e : Z),
     let n := Z.of_nat (length results) in
     py_int every = Returned e ->
     quotients every n 0 (length results) = Returned qs ->
     order_kept every qs = true ->
     let ds := due_reports (combine qs results) 0 0 0 0 in
     exists final,
       filter_files every (delivered results)
       = Returned (map (block_of n) ds, final) /\
       StronglySorted Z.lt (map d_floor ds) /\
       Forall (fun d => 0 < d_floor d) ds /\
       input_files final = n) /\
  (forall results, length results = 10%nat ->
     exists blocks final,
       filter_files 10 (delivered results) = Returned (blocks, final) /\
       map b_file blocks = [1; 2; 3; 4; 5; 6; 7; 8; 9; 10]) /\
  (forall results, length results = 3%nat ->
     exists blocks final,
       filter_files 50 (delivered results) = Returned (blocks, final) /\
       map b_file blocks = [2; 3]).
Proof.
  assert (General :
    forall (every : float) (results : list result) (qs : list Z) (e : Z),
      let n := Z.of_nat (length results) in
      py_int every = Returned e ->
      quotients every n 0 (length results) = Returned qs ->
      order_kept every qs = true ->
      let ds := due_reports (combine qs results) 0 0 0 0 in
      exists final,
        filter_files every (delivered results)
        = Returned (map (block_of n) ds, final) /\
        StronglySorted Z.lt (map d_floor ds) /\
        Forall (fun d => 0 < d_floor d) ds /\
        input_files final = n).
  { intros every results qs e n Hevery Hqs Hkept ds.
    destruct (order_kept_spec every qs Hkept) as [Hzero Horder].
    destruct (loop_prints_due_reports every n qs Hzero Horder results qs
                (mkProgress 0 0 0 0 0 0 []) 0 0 Hqs (incl_refl qs))
      as (st' & Hloop & Hprinted).
    { left. split; reflexivity. }
    unfold filter_files, heading, delivered. rewrite length_map.
    fold n. fold (delivered results). rewrite Hevery. cbn [bind].
    rewrite Hloop.
    cbn [printed oppcnt_block evtcnt_block app] in Hprinted.
    eexists. split; [rewrite Hprinted; reflexivity|].
    destruct (due_reports_increasing (combine qs results) 0 0 0 0)
      as [Habove Hsorted].
    split; [exact Hsorted|]. split; [exact Habove|reflexivity]. }
  split; [exact General|]. split.
  - intros results Hlen.
    destruct (General 10%float results [1; 2; 3; 4; 5; 6; 7; 8; 9; 10] 10)
      as (final & Hrun & _).
    + vm_compute. reflexivity.
    + rewrite Hlen. vm_compute. reflexivity.
    + vm_compute. reflexivity.
    + eexists _, final. split; [exact Hrun|].
      do 10 (destruct results as [|? results]; [discriminate Hlen|]).
      destruct results; [reflexivity|discriminate Hlen].
  - intros results Hlen.
    destruct (General 50%float results [0; 1; 2] 50) as (final & Hrun & _).
    + vm_compute. reflexivity.
    + rewrite Hlen. vm_compute. reflexivity.
    + vm_compute. reflexivity.
    + eexists _, final. split; [exact Hrun|].
      do 3 (destruct results as [|? results]; [discriminate Hlen|]).
      destruct results; [reflexivity|discriminate Hlen].
Qed.

Lemma block_reports_at_new_multiples_witness :
  py_int 10 = Returned 10 /\
  quotients 10 (Z.of_nat (length ten_results)) 0 (length ten_results)
  = Returned one_to_ten /\
  order_kept 10 one_to_ten = true /\
  exists final,
    filter_files 10 (delivered ten_results)
    = Returned
        (map (block_of 10) (due_reports (combine one_to_ten ten_results) 0 0 0 0),
         final).
Proof.
  assert (H0 : py_int 10 = Returned 10) by (vm_compute; reflexivity).
  assert (H1 : quotients 10 (Z.of_nat (length ten_results)) 0 (length ten_results)
               = Returned one_to_ten) by (vm_compute; reflexivity).
  assert (H2 : order_kept 10 one_to_ten = true) by (vm_compute; reflexivity).
  split; [exact H0|]. split; [exact H1|]. split; [exact H2|].
  destruct (proj1 block_reports_at_new_multiples 10%float ten_results one_to_ten 10
              H0 H1 H2)
    as (final & Hrun & _).
  exists final. exact Hrun.
Defined.

(** C6 as stated, with the exact [p] and [floor(p/R)], does not hold.
    With a hundred files at a resolution of 1 the exact floor grows at
    every completion, so that a hundred reports would be due, one of them
    after completion 57; in binary64 [57/100*100] comes out just below 57,
    its quotient is 56 again, and completion 57 prints nothing: 98 block
    reports are printed. *)
Lemma exact_floor_is_not_what_is_tested :
  let claimed :=
    due_reports (combine (exact_floors 100 1 100) hundred_results) 0 0 0 0 in
  length claimed = 100%nat /\
  In 57 (map (fun d => d_index d + 1) claimed) /\
  quotient 1 56 100 = Returned 56 /\
  exists blocks final,
    filter_files 1 (delivered hundred_results) = Returned (blocks, final) /\
    length blocks = 98%nat /\
    ~ In 57 (map b_file blocks).
Proof.
  split; [vm_compute; reflexivity|].
  split; [vm_compute; tauto|].
  split; [vm_compute; reflexivity|].
  eexists _, _. split; [vm_compute; reflexivity|].
  split; [reflexivity|].
  cbn. intros H.
  repeat (destruct H as [H|H]; [discriminate H|]). exact H.
Qed.

(** * Further properties *)

(** ** The retry loop for any number of retries *)

Lemma attempts_cons_get k tr : S3.attempts (S3.Get k :: tr) = S (S3.attempts tr).
Proof. reflexivity. Qed.

Lemma attempts_cons_sleep d tr : S3.attempts (S3.Sleep d :: tr) = S3.attempts tr.
Proof. reflexivity. Qed.

Lemma download_loop_budget s3_get random key_str retries :
  retries <= 1025 ->
  forall fuel tries,
    0 <= tries < retries ->
    (Z.to_nat (retries - tries) <= fuel)%nat ->
    exists tr r,
      S3.download_loop s3_get random fuel key_str retries tries = Some (tr, r) /\
      (1 <= S3.attempts tr)%nat /\
      tries + Z.of_nat (S3.attempts tr) <= retries /\
      (forall e, r = Raised e ->
         tries + Z.of_nat (S3.attempts tr) = retries /\
         s3_get key_str (Z.to_nat retries) = Raised e) /\
      (forall d, r = Returned d ->
         s3_get key_str (Z.to_nat (tries + Z.of_nat (S3.attempts tr))) = Returned d) /\
      (forall k, tries < Z.of_nat k < tries + Z.of_nat (S3.attempts tr) ->
         exists e, s3_get key_str k = Raised e).
Proof.
  intros Hbound.
  induction fuel as [|fuel IH]; intros tries Htries Hfuel; [lia|].
  cbn [S3.download_loop].
  destruct (s3_get key_str (Z.to_nat (tries + 1))) as [d|e] eqn:Hget.
  - eexists _, _. split; [reflexivity|].
    rewrite attempts_cons_get. change (S3.attempts []) with 0%nat.
    split; [lia|]. split; [lia|]. split; [discriminate|]. split.
    + intros d' [= <-]. now replace (tries + Z.of_nat 1) with (tries + 1) by lia.
    + intros k Hk. lia.
  - destruct (Z.eqb_spec (tries + 1) retries) as [Hlast|Hmore].
    + eexists _, _. split; [reflexivity|].
      rewrite attempts_cons_get. change (S3.attempts []) with 0%nat.
      split; [lia|]. split; [lia|]. split; [|split].
      * intros e' [= <-]. split; [lia|]. now rewrite <- Hlast.
      * discriminate.
      * intros k Hk. lia.
    + destruct (Z.ltb_spec 1024 (tries + 1)) as [Hover|_]; [lia|].
      destruct (IH (tries + 1)) as (tr & r & Hrun & H1 & Hle & Hraise & Hret & Hbefore);
        [lia|lia|].
      rewrite Hrun. eexists _, _. split; [reflexivity|].
      rewrite attempts_cons_get, attempts_cons_sleep.
      split; [lia|]. split; [lia|]. split; [|split].
      * intros e' He'. destruct (Hraise e' He') as [Ha Hb]. split; [lia|exact Hb].
      * intros d Hd. specialize (Hret d Hd).
        now replace (tries + Z.of_nat (S (S3.attempts tr)))
          with (tries + 1 + Z.of_nat (S3.attempts tr)) by lia.
      * intros k Hk.
        destruct (Z.eq_dec (Z.of_nat k) (tries + 1)) as [Hk1|Hk1].
        -- exists e. rewrite <- Hget. f_equal. lia.
        -- apply Hbefore. lia.
Qed.

(** X1.  For [retries] between 1 and 1025 the retry loop ends within
    [retries] attempts: a returned value is the answer of the last attempt
    made and every attempt before it failed, and an exception is raised
    only after exactly [retries] attempts and is the one of the last
    attempt.  (Beyond 1025 the power [2**(tries-1)] no longer converts to
    a float; see the next theorem.) *)
Theorem retries_bound_the_attempts
    (s3_get : string -> nat -> outcome (list byte)) (random : nat -> Q)
    (key_str : string) (retries : Z) (fuel : nat) :
  1 <= retries <= 1025 -> (Z.to_nat retries <= fuel)%nat ->
  exists tr r,
    S3.download_loop s3_get random fuel key_str retries 0 = Some (tr, r) /\
    (1 <= S3.attempts tr <= Z.to_nat retries)%nat /\
    (forall e, r = Raised e ->
       S3.attempts tr = Z.to_nat retries /\
       s3_get key_str (Z.to_nat retries) = Raised e) /\
    (forall d, r = Returned d -> s3_get key_str (S3.attempts tr) = Returned d) /\
    (forall k, (1 <= k < S3.attempts tr)%nat -> exists e, s3_get key_str k = Raised e).
Proof.
  intros Hretries Hfuel.
  destruct (download_loop_budget s3_get random key_str retries (proj2 Hretries) fuel 0)
    as (tr & r & Hrun & H1 & Hle & Hraise & Hret & Hbefore); [lia|now rewrite Z.sub_0_r|].
  exists tr, r. split; [exact Hrun|]. split; [lia|]. split; [|split].
  - intros e He. destruct (Hraise e He) as [Ha Hb]. split; [lia|exact Hb].
  - intros d Hd. specialize (Hret d Hd). cbn [Z.add] in Hret.
    now rewrite Nat2Z.id in Hret.
  - intros k Hk. apply Hbefore. lia.
Qed.

Lemma retries_bound_the_attempts_witness :
  1 <= 2 <= 1025 /\ (Z.to_nat 2 <= 2)%nat /\
  exists tr e,
    S3.download_loop dead_get half 2 "key" 2 0 = Some (tr, Raised e) /\
    S3.attempts tr = 2%nat.
Proof.
  assert (H1 : 1 <= 2 <= 1025) by lia.
  assert (H2 : (Z.to_nat 2 <= 2)%nat) by (cbn; lia).
  split; [exact H1|]. split; [exact H2|].
  destruct (retries_bound_the_attempts dead_get half "key" 2 2 H1 H2)
    as (tr & r & Hrun & _ & Hraise & Hret & _).
  destruct r as [d|e].
  - specialize (Hret d eq_refl). discriminate Hret.
  - exists tr, e. split; [exact Hrun|]. exact (proj1 (Hraise e eq_refl)).
Defined.

(** X2.  With [retries <= 0], or above 1025, the test [tries == retries]
    is of no use against a store that keeps failing: the loop goes on
    until the 1025th attempt, where [2**1024] does not convert to a float,
    and ends there with an [OverflowError] instead of the error of the
    store. *)
Theorem unreachable_retries_end_in_overflow
    (s3_get : string -> nat -> outcome (list byte)) (random : nat -> Q)
    (key_str : string) (retries : Z) (fuel : nat) :
  retries <= 0 \/ 1025 < retries ->
  (forall k, exists e, s3_get key_str k = Raised e) ->
  (1025 <= fuel)%nat ->
  exists tr,
    S3.download_loop s3_get random fuel key_str retries 0
    = Some (tr, Raised OverflowError) /\
    S3.attempts tr = 1025%nat.
Proof.
  intros Hretries Hdead Hfuel.
  assert (H : forall fuel tries, 0 <= tries <= 1024 ->
            (Z.to_nat (1025 - tries) <= fuel)%nat ->
            exists tr,
              S3.download_loop s3_get random fuel key_str retries tries
              = Some (tr, Raised OverflowError) /\
              Z.of_nat (S3.attempts tr) = 1025 - tries).
  { clear fuel Hfuel.
    induction fuel as [|fuel IH]; intros tries Htries Hfuel; [lia|].
    cbn [S3.download_loop].
    destruct (Hdead (Z.to_nat (tries + 1))) as [e ->].
    destruct (Z.eqb_spec (tries + 1) retries) as [|_]; [lia|].
    destruct (Z.ltb_spec 1024 (tries + 1)) as [Hover|Hunder].
    - eexists. split; [reflexivity|].
      rewrite attempts_cons_get. change (S3.attempts []) with 0%nat. lia.
    - destruct (IH (tries + 1)) as (tr & Hrun & Hatt); [lia|lia|].
      rewrite Hrun. eexists. split; [reflexivity|].
      rewrite attempts_cons_get, attempts_cons_sleep. lia. }
  destruct (H fuel 0) as (tr & Hrun & Hatt); [lia|cbn; lia|].
  exists tr. split; [exact Hrun|]. lia.
Qed.

Lemma unreachable_retries_end_in_overflow_witness :
  (0 <= 0 \/ 1025 < 0) /\ (forall k, exists e, dead_get "key" k = Raised e) /\
  (1025 <= 1025)%nat /\
  exists tr,
    S3.download_loop dead_get half 1025 "key" 0 0 = Some (tr, Raised OverflowError) /\
    S3.attempts tr = 1025%nat.
Proof.
  assert (H1 : 0 <= 0 \/ 1025 < 0) by (left; lia).
  assert (H2 : forall k, exists e, dead_get "key" k = Raised e)
    by (intros k; eexists; reflexivity).
  assert (H3 : (1025 <= 1025)%nat) by lia.
  split; [exact H1|]. split; [exact H2|]. split; [exact H3|].
  exact (unreachable_retries_end_in_overflow dead_get half "key" 0 1025 H1 H2 H3).
Defined.

Section SleepBudget.

Import Lqa.

Variable s3_get : string -> nat -> outcome (list byte).
Variable random : nat -> Q.
Variable key_str : string.

(** X3.  With the default five retries and random draws in [[0, 1)], the
    sleeps of a fetch add up to at most 19 seconds, and to at least 15
    seconds before it gives up.  (Both bounds hold for the exact sums
    [2^(k-1) + draw] and for their binary64 roundings, which lie within
    [[2^(k-1), 2^(k-1) + 1]].) *)
Theorem default_fetch_sleeps_at_most_19_seconds (fuel : nat) tr r :
  (forall k, (0 <= random k < 1)%Q) ->
  (5 <= fuel)%nat ->
  S3.download_s3_file_memory s3_get random fuel key_str = Some (tr, r) ->
  (0 <= slept tr <= 19)%Q /\
  (forall e, r = Raised e -> (15 <= slept tr)%Q).
Proof.
  intros Hjitter Hfuel Hrun.
  rewrite (download_unfolded s3_get random key_str fuel Hfuel) in Hrun.
  pose proof (Hjitter 1%nat) as J1. pose proof (Hjitter 2%nat) as J2.
  pose proof (Hjitter 3%nat) as J3. pose proof (Hjitter 4%nat) as J4.
  destruct (s3_get key_str 1);
    [|destruct (s3_get key_str 2);
      [|destruct (s3_get key_str 3);
        [|destruct (s3_get key_str 4);
          [|destruct (s3_get key_str 5)]]]];
    injection Hrun as <- <-; cbn [S3.schedule slept];
    change (inject_Z 1) with 1%Q;
    change (inject_Z (Z.pow_pos 2 1)) with 2%Q;
    change (inject_Z (Z.pow_pos 2 2)) with 4%Q;
    change (inject_Z (Z.pow_pos 2 3)) with 8%Q;
    (split; [lra|]); intros e' He'; try discriminate He'; lra.
Qed.

End SleepBudget.

Lemma default_fetch_sleeps_at_most_19_seconds_witness :
  (forall k, (0 <= half k < 1)%Q) /\ (5 <= 5)%nat /\
  exists tr,
    S3.download_s3_file_memory dead_get half 5 "key"
    = Some (tr, Raised (OtherError "timeout")) /\
    (15 <= slept tr <= 19)%Q.
Proof.
  assert (H1 : forall k, (0 <= half k < 1)%Q)
    by (intros k; split; [discriminate|reflexivity]).
  assert (H2 : (5 <= 5)%nat) by lia.
  split; [exact H1|]. split; [exact H2|].
  eexists. split; [reflexivity|].
  destruct (default_fetch_sleeps_at_most_19_seconds dead_get half "key" 5 _ _
              H1 H2 eq_refl) as [[_ Hle] Hge].
  split; [exact (Hge _ eq_refl)|exact Hle].
Defined.

(** ** The totals of a batch *)

Lemma total_app l1 l2 : total (l1 ++ l2) = total l1 + total l2.
Proof.
  unfold total. induction l1 as [|x l1 IH]; cbn [app fold_right]; [reflexivity|].
  rewrite IH. lia.
Qed.

Lemma total_cons x l : total (x :: l) = x + total l.
Proof. reflexivity. Qed.

Lemma total_nil : total [] = 0.
Proof. reflexivity. Qed.

Lemma parsed_cons r results :
  parsed (r :: results) = (if ok r then 1 else 0) + parsed results.
Proof.
  unfold parsed. cbn [List.filter]. destruct (ok r); cbn [length]; lia.
Qed.

(** What the loop does to its counters, whatever it prints. *)
Lemma loop_accounts every n results :
  forall st i st',
    loop every n st i (delivered results) = Returned st' ->
    evtcnt_total st' + evtcnt_block st'
    = evtcnt_total st + evtcnt_block st + total (map evtcnt results) /\
    oppcnt_total st' + oppcnt_block st'
    = oppcnt_total st + oppcnt_block st + total (map oppcnt results) /\
    files_ok st' = files_ok st + parsed results /\
    total (map b_evtcnt (printed st')) - evtcnt_total st'
    = total (map b_evtcnt (printed st)) - evtcnt_total st /\
    total (map b_oppcnt (printed st')) - oppcnt_total st'
    = total (map b_oppcnt (printed st)) - oppcnt_total st /\
    (Forall (fun r => 0 <= oppcnt r <= evtcnt r) results ->
     0 <= oppcnt_block st <= evtcnt_block st ->
     Forall block_ok (printed st) ->
     0 <= oppcnt_block st' <= evtcnt_block st' /\ Forall block_ok (printed st')).
Proof.
  induction results as [|r results IH]; intros st i st' Hloop.
  - injection Hloop as <-. cbn [map]. rewrite !total_nil.
    change (parsed []) with 0.
    repeat split; try lia; tauto.
  - cbn [delivered map loop] in Hloop. fold (delivered results) in Hloop.
    unfold loop_body in Hloop.
    destruct (quotient every i n) as [q|e]; [|discriminate].
    rewrite parsed_cons. cbn [map]. rewrite !total_cons.
    destruct (PrimFloat.ltb _ _);
      apply IH in Hloop as (He & Ho & Hf & Hbe & Hbo & Hinv);
      cbn [evtcnt_total evtcnt_block oppcnt_total oppcnt_block files_ok printed]
        in He, Ho, Hf, Hbe, Hbo, Hinv.
    + rewrite !map_app, !total_app in Hbe, Hbo.
      cbn [map b_evtcnt b_oppcnt] in Hbe, Hbo.
      rewrite !total_cons, !total_nil in Hbe, Hbo.
      split; [lia|]. split; [lia|]. split; [destruct (ok r); lia|].
      split; [lia|]. split; [lia|].
      intros Hres Hblock Hprinted.
      apply Forall_cons_iff in Hres as [Hr Hres].
      apply Hinv; [exact Hres|lia|].
      apply Forall_app. split; [exact Hprinted|].
      constructor; [|constructor]. unfold block_ok. cbn [b_oppcnt b_evtcnt]. lia.
    + split; [lia|]. split; [lia|]. split; [destruct (ok r); lia|].
      split; [lia|]. split; [lia|].
      intros Hres Hblock Hprinted.
      apply Forall_cons_iff in Hres as [Hr Hres].
      apply Hinv; [exact Hres|lia|exact Hprinted].
Qed.

Lemma total_focus_le results :
  Forall (fun r => 0 <= oppcnt r <= evtcnt r) results ->
  0 <= total (map oppcnt results) <= total (map evtcnt results).
Proof.
  induction 1 as [|r l Hr _ IH]; cbn [map]; rewrite ?total_cons, ?total_nil; lia.
Qed.

(** The books of a completed batch. *)
Lemma total_accounts
    (every : float) (results : list result)
    (blocks : list block_report) (final : final_report) :
  Forall (fun r => 0 <= oppcnt r <= evtcnt r) results ->
  filter_files every (delivered results) = Returned (blocks, final) ->
  input_files final = Z.of_nat (length results) /\
  parsed_files final = parsed results /\
  evt_particles final = total (map evtcnt results) /\
  opp_particles final = total (map oppcnt results) /\
  0 <= opp_particles final <= evt_particles final /\
  Forall block_ok blocks /\
  total (map b_evtcnt blocks) <= evt_particles final /\
  total (map b_oppcnt blocks) <= opp_particles final.
Proof.
  intros Hres Hrun. unfold filter_files in Hrun.
  destruct (heading _ every) as [h|e]; [|discriminate].
  destruct (loop every _ _ 0 (delivered results)) as [st|e] eqn:Hloop;
    [|discriminate].
  apply loop_accounts in Hloop as (He & Ho & Hf & Hbe & Hbo & Hinv).
  cbn [evtcnt_total evtcnt_block oppcnt_total oppcnt_block files_ok printed map]
    in He, Ho, Hf, Hbe, Hbo, Hinv.
  rewrite !total_nil in Hbe, Hbo.
  destruct (Hinv Hres ltac:(lia) (Forall_nil _)) as [Hblock Hprinted].
  injection Hrun as <- <-.
  cbn [input_files parsed_files evt_particles opp_particles].
  unfold delivered. rewrite length_map.
  pose proof (total_focus_le results Hres) as Hsum.
  assert (Hsplit :
    (if 0 <? evtcnt_block st then evtcnt_total st + evtcnt_block st
     else evtcnt_total st) = total (map evtcnt results) /\
    (if 0 <? evtcnt_block st then oppcnt_total st + oppcnt_block st
     else oppcnt_total st) = total (map oppcnt results))
    by (destruct (Z.ltb_spec 0 (evtcnt_block st)); lia).
  destruct Hsplit as [-> ->].
  split; [reflexivity|]. split; [lia|]. split; [reflexivity|].
  split; [reflexivity|]. split; [exact Hsum|]. split; [exact Hprinted|].
  split; lia.
Qed.

(** X4.  When the batch completes, no particle is lost and none is counted
    twice: the summary carries the sums of the workers' EVT and OPP counts
    and the number of parsed files, the block reports never account for
    more than those sums, and focus counts never exceed particle counts,
    block by block and in total. *)
Theorem batch_totals_add_up
    (every : float) (results : list result)
    (blocks : list block_report) (final : final_report) :
  Forall (fun r => 0 <= oppcnt r <= evtcnt r) results ->
  filter_files every (delivered results) = Returned (blocks, final) ->
  input_files final = Z.of_nat (length results) /\
  parsed_files final = parsed results /\
  evt_particles final = total (map evtcnt results) /\
  opp_particles final = total (map oppcnt results) /\
  0 <= opp_particles final <= evt_particles final /\
  Forall block_ok blocks /\
  total (map b_evtcnt blocks) <= evt_particles final /\
  total (map b_oppcnt blocks) <= opp_particles final.
Proof. apply total_accounts. Qed.

Lemma batch_totals_add_up_witness :
  Forall (fun r => 0 <= oppcnt r <= evtcnt r) ten_results /\
  exists blocks final,
    filter_files 10 (delivered ten_results) = Returned (blocks, final) /\
    evt_particles final = 1000 /\ opp_particles final = 400 /\
    parsed_files final = 10.
Proof.
  assert (H1 : Forall (fun r => 0 <= oppcnt r <= evtcnt r) ten_results)
    by (repeat constructor; cbn; lia).
  split; [exact H1|].
  destruct (filter_files 10 (delivered ten_results)) as [[blocks final]|e] eqn:Hrun.
  2:{ vm_compute in Hrun. discriminate Hrun. }
  exists blocks, final. split; [reflexivity|].
  destruct (batch_totals_add_up 10%float ten_results blocks final H1 Hrun)
    as (_ & Hp & He & Ho & _).
  rewrite He, Ho, Hp. repeat split.
Defined.

(** ** Failures in the batch *)

Lemma loop_app every n l1 l2 :
  forall st i,
    loop every n st i (l1 ++ l2)
    = match loop every n st i l1 with
      | Raised e => Raised e
      | Returned st' => loop every n st' (i + Z.of_nat (length l1)) l2
      end.
Proof.
  induction l1 as [|c l1 IH]; intros st i; cbn [app loop length].
  - now rewrite Z.add_0_r.
  - destruct (loop_body every n st i c) as [st1|e]; [|reflexivity].
    rewrite IH. replace (i + 1 + Z.of_nat (length l1))
      with (i + Z.of_nat (S (length l1))) by lia. reflexivity.
Qed.

(** X5.  Once the heading is printed (the resolution is no infinity and
    no NaN), the batch ends at the first worker that does not deliver a
    result: an exception that left the worker is raised again by the
    orchestrator, and the [None] that [do_work] returns after a
    [KeyboardInterrupt] makes the orchestrator fail with a [TypeError];
    the completions after it are never consumed and no summary is
    printed. *)
Theorem first_failed_worker_ends_the_batch
    (every : float) (z : Z) (results : list result) (e : exn)
    (rest : list (outcome (option result))) :
  let n := Z.of_nat (length results + S (length rest)) in
  py_int every = Returned z ->
  (forall i, 0 <= i < Z.of_nat (length results) ->
             exists q, quotient every i n = Returned q) ->
  filter_files every (delivered results ++ Raised e :: rest) = Raised e /\
  filter_files every (delivered results ++ Returned None :: rest) = Raised TypeError.
Proof.
  intros n Hevery Hq.
  assert (Hprefix : forall st, exists st',
            loop every n st 0 (delivered results) = Returned st').
  { intros st. apply loop_completes.
    - intros c Hc. apply in_map_iff in Hc as (r & <- & _). now exists r.
    - intros j Hj. apply Hq. unfold delivered in Hj. rewrite length_map in Hj. lia. }
  assert (Hlen : forall c,
            Z.of_nat (length (delivered results ++ c :: rest)) = n).
  { intros c. unfold delivered. rewrite length_app, length_map. reflexivity. }
  split; unfold filter_files, heading; rewrite Hevery; cbn [bind];
    rewrite Hlen, loop_app;
    destruct (Hprefix (mkProgress 0 0 0 0 0 0 [])) as [st' ->]; reflexivity.
Qed.

Lemma first_failed_worker_ends_the_batch_witness :
  py_int 10 = Returned 10 /\
  (forall i, 0 <= i < Z.of_nat (length [some_result]) ->
     exists q, quotient 10 i (Z.of_nat (length [some_result] + S (length (delivered ten_results))))
               = Returned q) /\
  filter_files 10 (delivered [some_result] ++ Returned None :: delivered ten_results)
  = Raised TypeError.
Proof.
  assert (H : forall i, 0 <= i < Z.of_nat (length [some_result]) ->
     exists q, quotient 10 i (Z.of_nat (length [some_result] + S (length (delivered ten_results))))
               = Returned q).
  { intros i Hi. assert (i = 0) as -> by (cbn in Hi; lia).
    eexists. vm_compute. reflexivity. }
  assert (H0 : py_int 10 = Returned 10) by (vm_compute; reflexivity).
  split; [exact H0|]. split; [exact H|].
  exact (proj2 (first_failed_worker_ends_the_batch 10%float 10 [some_result]
                  KeyboardInterrupt (delivered ten_results) H0 H)).
Defined.

(** The counts of an instance stay sound under [filter]. *)
Lemma filter_count_bounds self o rows :
  EVT.evt self = Some rows ->
  EVT.evtcnt self = Z.of_nat (length rows) ->
  0 <= EVT.oppcnt self <= EVT.evtcnt self ->
  EVT.evtcnt (fst (EVT.filter self o)) = EVT.evtcnt self /\
  0 <= EVT.oppcnt (fst (EVT.filter self o)) <= EVT.evtcnt self.
Proof.
  intros Hevt Hcnt Hopp.
  destruct (Z.eq_dec (EVT.evtcnt self) 0) as [Hz|Hnz].
  { unfold EVT.filter. rewrite Hevt, Hz. cbn. lia. }
  destruct (EVT.o_width o) as [w|] eqn:Hw.
  2:{ rewrite (filter_missing_parameter self o rows); auto. }
  destruct (EVT.o_offset o) as [off|] eqn:Hoff.
  2:{ rewrite (filter_missing_parameter self o rows); auto. }
  destruct (filter_computed self o rows w off Hevt Hnz Hw Hoff)
    as (keep & n1 & n2 & Hf & _).
  rewrite Hf. cbn [fst EVT.evtcnt EVT.oppcnt].
  pose proof (filter_length_le keep rows). lia.
Qed.

(** What a worker can return. *)
Lemma workers_sound
    (w : world) (o : options) (file : string) (r : result) :
  snd (filter_one_file w o file) = Returned r ->
  path r = file /\ sound_result r.
Proof.
  unfold filter_one_file.
  destruct (fetch_fileobj w o file) as [fileobj|e]; [|discriminate].
  destruct (construct_evt w file fileobj) as [evt|e] eqn:Hctor.
  2:{ destruct e; intros [= <-]; (split; [reflexivity|left; repeat split]). }
  cbn [snd]. unfold filter_and_save.
  unfold construct_evt, bind in Hctor.
  destruct (open_evt w file fileobj) as [fh|e]; [|discriminate].
  destruct (init_state file (Some fh) evt Hctor) as (Hopp & _ & _ & Hrows).
  destruct Hrows as [[Hnone Hzero]|(rows & Hevt & Hcnt & Hpos & _)].
  { unfold EVT.init in Hctor. rewrite read_evt_cases in Hctor.
    repeat match type of Hctor with
           | (if ?c then _ else _) = _ => destruct c; [discriminate|]
           end.
    injection Hctor as <-. discriminate Hnone. }
  destruct (filter_count_bounds evt (filter_options o) rows Hevt Hcnt ltac:(lia))
    as [Hsame Hbound].
  destruct (EVT.filter evt (filter_options o)) as [evt' filtered].
  cbn [fst] in Hsame, Hbound.
  unfold bind.
  destruct filtered as [[]|e]; [|discriminate].
  destruct (match db o with Some d => _ | None => _ end) as [[]|e]; [|discriminate].
  destruct (match binary_dir o with Some d => _ | None => _ end) as [[]|e];
    [|discriminate].
  intros [= <-]. split; [reflexivity|].
  right. cbn [ok evtcnt oppcnt]. repeat split; lia.
Qed.

(** X6.  Whatever the collaborators do, a result returned by
    [filter_one_file] names its file and is sound: either a failed unit
    with both counts 0, or a parsed file with between 1 and [2^32 - 1]
    particles of which at most that many are in focus. *)
Theorem workers_return_sound_results
    (w : world) (o : options) (file : string) (r : result) :
  snd (filter_one_file w o file) = Returned r ->
  path r = file /\ sound_result r.
Proof. apply workers_sound. Qed.

Lemma workers_return_sound_results_witness :
  snd (filter_one_file local_world local_run "b")
  = Returned (mkResult true 2 2 "b") /\
  sound_result (mkResult true 2 2 "b").
Proof.
  assert (H : snd (filter_one_file local_world local_run "b")
              = Returned (mkResult true 2 2 "b")) by (vm_compute; reflexivity).
  split; [exact H|].
  exact (proj2 (workers_return_sound_results local_world local_run "b"%string _ H)).
Defined.

Lemma loop_consumes_results every n completions :
  forall st i st',
    loop every n st i completions = Returned st' ->
    exists results, completions = delivered results.
Proof.
  induction completions as [|c l IH]; intros st i st' Hloop.
  - now exists [].
  - cbn [loop] in Hloop.
    destruct (loop_body every n st i c) as [st1|e] eqn:Hbody; [|discriminate].
    destruct (IH _ _ _ Hloop) as [results ->].
    unfold loop_body in Hbody.
    destruct c as [[r|]|e]; try discriminate.
    now exists (r :: results).
Qed.

Lemma sound_results_bounds results :
  Forall sound_result results ->
  Forall (fun r => 0 <= oppcnt r <= evtcnt r) results /\
  parsed results <= total (map evtcnt results)
  /\ total (map evtcnt results) <= parsed results * (2 ^ 32 - 1).
Proof.
  induction 1 as [|r l Hr _ (IH1 & IH2 & IH3)].
  - split; [constructor|]. cbn. lia.
  - cbn [map]. rewrite parsed_cons, total_cons.
    destruct Hr as [(Hok & He & Ho)|(Hok & He & Ho)]; rewrite Hok.
    + split; [constructor; [lia|exact IH1]|]. lia.
    + split; [constructor; [lia|exact IH1]|]. lia.
Qed.

(** X7.  Every batch that runs to completion, over any files and any
    collaborators, reports sound figures: as many input files as were
    given, no more parsed files than input files, at least one and fewer
    than [2^32] particles per parsed file, and never more particles in
    focus than particles, in each block report and in total. *)
Theorem completed_batch_reports_sound_figures
    (w : world) (o : options) (files : list string)
    (blocks : list block_report) (final : final_report) :
  run_batch w o files = Returned (blocks, final) ->
  input_files final = Z.of_nat (length files) /\
  0 <= parsed_files final <= input_files final /\
  parsed_files final <= evt_particles final <= parsed_files final * (2 ^ 32 - 1) /\
  0 <= opp_particles final <= evt_particles final /\
  Forall block_ok blocks.
Proof.
  unfold run_batch. intros Hrun.
  destruct (match db o with
            | Some d => ensure_tables w d
            | None => Returned tt
            end) as [[]|e]; [|discriminate].
  cbn [bind] in Hrun.
  destruct (Pool (cpus o)) as [[]|e]; [|discriminate].
  cbn [bind] in Hrun.
  assert (Hres : exists results,
            map (fun f => snd (do_work w o f)) files = delivered results).
  { unfold filter_files in Hrun.
    destruct (heading _ _) as [h|e]; [|discriminate].
    destruct (loop _ _ _ 0 _) as [st|e] eqn:Hloop; [|discriminate].
    eapply loop_consumes_results. exact Hloop. }
  destruct Hres as [results Hres].
  assert (Hsound : Forall sound_result results).
  { apply Forall_forall. intros r Hr.
    assert (Hin : In (Returned (Some r)) (delivered results))
      by (unfold delivered; apply in_map_iff; now exists r).
    rewrite <- Hres in Hin. apply in_map_iff in Hin as (f & Hf & _).
    unfold do_work in Hf.
    destruct (filter_one_file w o f) as [l [r'|e]] eqn:Hone.
    - cbn [snd] in Hf. injection Hf as ->.
      apply (workers_sound w o f). now rewrite Hone.
    - destruct e; discriminate Hf. }
  rewrite Hres in Hrun.
  destruct (sound_results_bounds results Hsound) as (Hle & Hlow & Hhigh).
  assert (Htotals := Hrun).
  apply total_accounts in Htotals as (Hn & Hp & He & Ho & Hoe & Hblocks); [|exact Hle].
  assert (Hlen : length results = length files).
  { apply (f_equal (@length _)) in Hres. unfold delivered in Hres.
    now rewrite !length_map in Hres. }
  assert (Hparsed : 0 <= parsed results <= Z.of_nat (length results)).
  { unfold parsed. pose proof (filter_length_le ok results). lia. }
  rewrite Hn, Hp, He, Ho, Hlen in *.
  repeat split; try lia; exact (proj1 Hblocks).
Qed.

Lemma completed_batch_reports_sound_figures_witness :
  exists blocks final,
    run_batch local_world local_run ["a"; "b"]%string = Returned (blocks, final) /\
    input_files final = 2 /\ parsed_files final = 1 /\
    0 <= opp_particles final <= evt_particles final.
Proof.
  destruct (run_batch local_world local_run ["a"; "b"]%string)
    as [[blocks final]|e] eqn:Hrun.
  2:{ vm_compute in Hrun. discriminate Hrun. }
  exists blocks, final. split; [reflexivity|].
  destruct (completed_batch_reports_sound_figures local_world local_run _ _ _ Hrun)
    as (Hn & _ & _ & Hfocus & _).
  split; [exact Hn|]. split; [|exact Hfocus].
  vm_compute in Hrun. injection Hrun as _ <-. reflexivity.
Defined.

(** X8.  When [filter] retains nothing, neither sink is used: the worker
    reports a parsed file with no particle in focus whatever the database
    and the output file system would answer; only creating the output
    directory, which is done before looking at the count, must succeed. *)
Theorem nothing_retained_nothing_saved
    (w : world) (o : options) (file : string) (evt s' : EVT.obj) :
  EVT.filter evt (filter_options o) = (s', Returned tt) ->
  EVT.oppcnt s' = 0 ->
  (forall d, binary_dir o = Some d -> mkdir_p w d = Returned tt) ->
  filter_and_save w o file evt = Returned (mkResult true (EVT.evtcnt s') 0 file).
Proof.
  intros Hfilter Hzero Hmkdir.
  unfold filter_and_save. rewrite Hfilter. cbn [bind].
  unfold save_opp_to_db, write_opp_binary, EVT.write_opp_binary.
  rewrite Hzero. cbn [Z.eqb].
  destruct (db o); cbn [bind];
    (destruct (binary_dir o) as [d|] eqn:Hd;
     [rewrite (Hmkdir d eq_refl)|]; reflexivity).
Qed.

Lemma nothing_retained_nothing_saved_witness :
  let evt := decoded "f" skewed_file in
  let s' := fst (EVT.filter evt (filter_options strict_run)) in
  EVT.filter evt (filter_options strict_run) = (s', Returned tt) /\
  EVT.oppcnt s' = 0 /\
  (forall d, binary_dir strict_run = Some d -> mkdir_p readonly_world d = Returned tt) /\
  snd (filter_one_file readonly_world strict_run "f") = Returned (mkResult true 3 0 "f").
Proof.
  intros evt s'.
  assert (H1 : EVT.filter evt (filter_options strict_run) = (s', Returned tt))
    by (vm_compute; reflexivity).
  assert (H2 : EVT.oppcnt s' = 0) by (vm_compute; reflexivity).
  assert (H3 : forall d, binary_dir strict_run = Some d ->
                         mkdir_p readonly_world d = Returned tt)
    by (intros d _; reflexivity).
  split; [exact H1|]. split; [exact H2|]. split; [exact H3|].
  pose proof (nothing_retained_nothing_saved readonly_world strict_run "f" evt s'
                H1 H2 H3) as H.
  assert (Hone : filter_one_file readonly_world strict_run "f"
                 = ([], filter_and_save readonly_world strict_run "f" evt))
    by (vm_compute; reflexivity).
  rewrite Hone. cbn [snd]. rewrite H. reflexivity.
Defined.

(** ** More on filtering *)

(** [filter] in terms of the aligned rows and the focus test. *)
Lemma filter_in_stages self o rows w off :
  EVT.evt self = Some rows -> EVT.evtcnt self <> 0 ->
  EVT.o_width o = Some w -> EVT.o_offset o = Some off ->
  let origin := EVT.or_else (EVT.o_origin o) (median (detector_gap rows)) in
  let aligned := aligned_rows origin w rows in
  let fsc_small_max := series_max (map EVT.fsc_small aligned) in
  let n1 := EVT.or_else (EVT.o_notch1 o) (EVT.derive_notch EVT.D1 aligned fsc_small_max) in
  let n2 := EVT.or_else (EVT.o_notch2 o) (EVT.derive_notch EVT.D2 aligned fsc_small_max) in
  let retained := List.filter (in_focus n1 n2 off) aligned in
  EVT.filter self o
  = (EVT.mkEVT (EVT.path self) (EVT.headercnt self) (EVT.evtcnt self)
       (Z.of_nat (length retained))
       (inject_Z (Z.of_nat (length retained)) / inject_Z (EVT.evtcnt self))%Q
       (Some rows) (Some retained) (Some n1) (Some n2) (Some off)
       (Some origin) (Some w),
     Returned tt).
Proof.
  intros Hevt Hcnt Hw Hoff. cbv zeta.
  unfold EVT.filter. rewrite Hevt, Hw, Hoff.
  destruct (Z.eqb_spec (EVT.evtcnt self) 0) as [|_]; [contradiction|].
  reflexivity.
Qed.

(** X9.  The outcome of [filter] depends only on the decoded matrix and on
    the parameters of the call, not on what earlier calls of [filter]
    left in the instance: filtering again with other parameters is the
    same as filtering the freshly decoded object with them. *)
Theorem filter_forgets_earlier_calls
    (self : EVT.obj) (o1 o2 : EVT.filter_options) (w off : fval) :
  EVT.o_width o2 = Some w -> EVT.o_offset o2 = Some off ->
  EVT.filter (fst (EVT.filter self o1)) o2 = EVT.filter self o2.
Proof.
  intros Hw Hoff.
  destruct (EVT.evt self) as [rows|] eqn:Hevt.
  2:{ unfold EVT.filter at 2. rewrite Hevt. reflexivity. }
  destruct (Z.eq_dec (EVT.evtcnt self) 0) as [Hz|Hnz].
  { unfold EVT.filter at 2. rewrite Hevt, Hz. reflexivity. }
  destruct (EVT.o_width o1) as [w1|] eqn:Hw1.
  2:{ rewrite (filter_missing_parameter self o1 rows); auto. }
  destruct (EVT.o_offset o1) as [off1|] eqn:Hoff1.
  2:{ rewrite (filter_missing_parameter self o1 rows); auto. }
  rewrite (filter_in_stages self o1 rows w1 off1 Hevt Hnz Hw1 Hoff1). cbn [fst].
  rewrite (filter_in_stages self o2 rows w off Hevt Hnz Hw Hoff).
  erewrite filter_in_stages; [reflexivity|reflexivity|exact Hnz|exact Hw|exact Hoff].
Qed.

Lemma filter_forgets_earlier_calls_witness :
  let s := decoded "f" skewed_file in
  EVT.o_width EVT.default_options = Some (Fin (1 # 2)) /\
  EVT.o_offset EVT.default_options = Some (Fin 0) /\
  EVT.filter (fst (EVT.filter s (filter_options strict_run))) EVT.default_options
  = EVT.filter s EVT.default_options.
Proof.
  intros s. split; [reflexivity|]. split; [reflexivity|].
  exact (filter_forgets_earlier_calls s (filter_options strict_run)
           EVT.default_options (Fin (1 # 2)) (Fin 0) eq_refl eq_refl).
Defined.

Lemma flt_true a b : flt a b = true -> exists x y, a = Fin x /\ b = Fin y /\ (x < y)%Q.
Proof.
  destruct a as [|x], b as [|y]; cbn; try discriminate.
  destruct (x ?= y)%Q eqn:Hc; try discriminate.
  intros _. exists x, y. repeat split. now apply Qlt_alt.
Qed.

Lemma lift2_fin f a b z : lift2 f a b = Fin z -> exists x y, a = Fin x /\ b = Fin y.
Proof.
  destruct a as [|x], b as [|y]; cbn; try discriminate. intros _. now exists x, y.
Qed.

(** A retained particle has passed comparisons that no NaN passes. *)
Lemma proper_parameters
    (self s' : EVT.obj) (o : EVT.filter_options) (rows : list EVT.particle) :
  EVT.evt self = Some rows -> EVT.evtcnt self <> 0 ->
  EVT.filter self o = (s', Returned tt) ->
  EVT.oppcnt s' <> 0 ->
  finite (EVT.notch1 s') /\ finite (EVT.notch2 s') /\ finite (EVT.offset s') /\
  finite (EVT.origin s') /\ finite (EVT.width s').
Proof.
  intros Hevt Hcnt Hfilter Hopp.
  destruct (EVT.o_width o) as [w|] eqn:Hw.
  2:{ rewrite (filter_missing_parameter self o rows) in Hfilter; auto. discriminate. }
  destruct (EVT.o_offset o) as [off|] eqn:Hoff.
  2:{ rewrite (filter_missing_parameter self o rows) in Hfilter; auto. discriminate. }
  rewrite (filter_in_stages self o rows w off Hevt Hcnt Hw Hoff) in Hfilter.
  injection Hfilter as <-. cbn [EVT.oppcnt] in Hopp.
  cbn [EVT.notch1 EVT.notch2 EVT.offset EVT.origin EVT.width].
  match type of Hopp with
  | Z.of_nat (length ?l) <> 0 => destruct l as [|p retained] eqn:Hret; [easy|]
  end.
  assert (Hin : In p (p :: retained)) by now left.
  rewrite <- Hret in Hin. apply filter_In in Hin as [Hal Hfocus].
  apply filter_In in Hal as [_ Hband].
  apply andb_prop in Hband as [Hb1 _].
  apply flt_true in Hb1 as (x & y & Hx & Hy & _).
  apply lift2_fin in Hx as (_ & og & _ & Hog).
  apply lift2_fin in Hy as (_ & ww & _ & Hww).
  apply lift2_fin in Hww as (wq & _ & Hwq & _).
  unfold in_focus, fgt in Hfocus. apply andb_prop in Hfocus as [Hf1 Hf2].
  apply flt_true in Hf1 as (x1 & _ & Hx1 & _ & _).
  apply flt_true in Hf2 as (x2 & _ & Hx2 & _ & _).
  apply lift2_fin in Hx1 as (m1 & oo & Hm1 & Hoo).
  apply lift2_fin in Hx2 as (m2 & _ & Hm2 & _).
  apply lift2_fin in Hm1 as (_ & q1 & _ & Hq1).
  apply lift2_fin in Hm2 as (_ & q2 & _ & Hq2).
  apply lift2_fin in Hoo as (oq & _ & Hoq & _).
  unfold finite. rewrite Hq1, Hq2, Hog. subst w off.
  repeat split; eexists; reflexivity.
Qed.

(** X10.  Whenever [filter] retains at least one particle, the five
    parameters it records are proper numbers: a NaN origin, width, notch
    or offset, supplied or derived, fails every comparison and leaves
    nothing retained.  (The summary row of a file is written only when
    something is retained, and its parameter columns are NOT NULL.) *)
Theorem retaining_needs_proper_parameters
    (self s' : EVT.obj) (o : EVT.filter_options) (rows : list EVT.particle) :
  EVT.evt self = Some rows -> EVT.evtcnt self <> 0 ->
  EVT.filter self o = (s', Returned tt) ->
  EVT.oppcnt s' <> 0 ->
  finite (EVT.notch1 s') /\ finite (EVT.notch2 s') /\ finite (EVT.offset s') /\
  finite (EVT.origin s') /\ finite (EVT.width s').
Proof. apply proper_parameters. Qed.

Lemma retaining_needs_proper_parameters_witness :
  let s := decoded "f" focused_file in
  let s' := fst (EVT.filter s EVT.default_options) in
  EVT.evt s = Some focused_rows /\ EVT.evtcnt s <> 0 /\
  EVT.filter s EVT.default_options = (s', Returned tt) /\
  EVT.oppcnt s' <> 0 /\
  finite (EVT.notch1 s') /\ finite (EVT.notch2 s').
Proof.
  intros s s'.
  assert (H1 : EVT.evt s = Some focused_rows) by (vm_compute; reflexivity).
  assert (H2 : EVT.evtcnt s <> 0) by (vm_compute; discriminate).
  assert (H3 : EVT.filter s EVT.default_options = (s', Returned tt))
    by (vm_compute; reflexivity).
  assert (H4 : EVT.oppcnt s' <> 0) by (vm_compute; discriminate).
  split; [exact H1|]. split; [exact H2|]. split; [exact H3|]. split; [exact H4|].
  destruct (retaining_needs_proper_parameters s s' EVT.default_options
              focused_rows H1 H2 H3 H4) as (Hn1 & Hn2 & _).
  split; [exact Hn1|exact Hn2].
Defined.

Section OffsetOrder.

Import Lqa.

Lemma focus_line_lowers (f x off1 off2 : Q) :
  (off1 <= off2)%Q ->
  (x - off1 * inject_Z (10 ^ 4) < f)%Q -> (x - off2 * inject_Z (10 ^ 4) < f)%Q.
Proof.
  intros Hoff Hlt.
  assert (H : (off1 * inject_Z (10 ^ 4) <= off2 * inject_Z (10 ^ 4))%Q).
  { apply Qmult_le_compat_r; [exact Hoff|]. discriminate. }
  lra.
Qed.

Lemma fgt_offset_mono (f : Z) (dn : fval) (off1 off2 : Q) :
  (off1 <= off2)%Q ->
  fgt (val f) (fsub dn (fmul (Fin off1) (val (10 ^ 4)))) = true ->
  fgt (val f) (fsub dn (fmul (Fin off2) (val (10 ^ 4)))) = true.
Proof.
  intros Hoff. destruct dn as [|x]; [discriminate|].
  change (fgt (val f) (fsub (Fin x) (fmul (Fin off1) (val (10 ^ 4)))))
    with (match (x - off1 * inject_Z (10 ^ 4) ?= inject_Z f)%Q with
          | Lt => true
          | _ => false
          end).
  change (fgt (val f) (fsub (Fin x) (fmul (Fin off2) (val (10 ^ 4)))))
    with (match (x - off2 * inject_Z (10 ^ 4) ?= inject_Z f)%Q with
          | Lt => true
          | _ => false
          end).
  destruct (x - off1 * inject_Z (10 ^ 4) ?= inject_Z f)%Q eqn:H1;
    try discriminate.
  intros _.
  assert (H2 : (x - off2 * inject_Z (10 ^ 4) ?= inject_Z f)%Q = Lt).
  { apply Qlt_alt. apply (focus_line_lowers _ _ off1 off2 Hoff).
    now apply Qlt_alt. }
  now rewrite H2.
Qed.

Lemma in_focus_offset_mono n1 n2 (off1 off2 : Q) p :
  (off1 <= off2)%Q ->
  in_focus n1 n2 (Fin off1) p = true -> in_focus n1 n2 (Fin off2) p = true.
Proof.
  intros Hoff. unfold in_focus. rewrite !andb_true_iff. intros [H1 H2].
  split; eapply fgt_offset_mono; eauto.
Qed.

End OffsetOrder.

(** X11.  The offset only moves the focus lines: with the other four
    parameters left as they are (supplied or not), a larger offset records
    the same origin and notches and retains every particle that the
    smaller one retained. *)
Theorem larger_offset_retains_more
    (self : EVT.obj) (o : EVT.filter_options) (rows : list EVT.particle)
    (w : fval) (off1 off2 : Q) :
  EVT.evt self = Some rows -> EVT.evtcnt self <> 0 ->
  EVT.o_width o = Some w ->
  (off1 <= off2)%Q ->
  let s1 := fst (EVT.filter self (with_offset o (Fin off1))) in
  let s2 := fst (EVT.filter self (with_offset o (Fin off2))) in
  EVT.origin s1 = EVT.origin s2 /\
  EVT.notch1 s1 = EVT.notch1 s2 /\
  EVT.notch2 s1 = EVT.notch2 s2 /\
  exists r1 r2,
    EVT.opp s1 = Some r1 /\ EVT.opp s2 = Some r2 /\
    incl r1 r2 /\ EVT.oppcnt s1 <= EVT.oppcnt s2.
Proof.
  intros Hevt Hcnt Hw Hoff s1 s2. subst s1 s2.
  rewrite (filter_in_stages self (with_offset o (Fin off1)) rows w (Fin off1)
             Hevt Hcnt Hw eq_refl).
  rewrite (filter_in_stages self (with_offset o (Fin off2)) rows w (Fin off2)
             Hevt Hcnt Hw eq_refl).
  cbn [fst EVT.origin EVT.notch1 EVT.notch2 EVT.opp EVT.oppcnt with_offset
       EVT.o_origin EVT.o_notch1 EVT.o_notch2].
  split; [reflexivity|]. split; [reflexivity|]. split; [reflexivity|].
  eexists _, _. split; [reflexivity|]. split; [reflexivity|].
  set (aligned := aligned_rows _ w rows).
  set (n1 := EVT.or_else (EVT.o_notch1 o) _).
  set (n2 := EVT.or_else (EVT.o_notch2 o) _).
  assert (Himp : forall p, in_focus n1 n2 (Fin off1) p = true ->
                           in_focus n1 n2 (Fin off2) p = true)
    by (intros p; now apply in_focus_offset_mono).
  split.
  - intros p Hp. apply filter_In in Hp as [Hin Hf].
    apply filter_In. split; [exact Hin|now apply Himp].
  - clearbody n1 n2. clearbody aligned.
    induction aligned as [|p l IH]; cbn [List.filter]; [lia|].
    destruct (in_focus n1 n2 (Fin off1) p) eqn:H1.
    + rewrite (Himp p H1). cbn [length]. lia.
    + destruct (in_focus n1 n2 (Fin off2) p); cbn [length]; lia.
Qed.

Lemma larger_offset_retains_more_witness :
  let s := decoded "f" skewed_file in
  EVT.evt s = Some skewed_rows /\ EVT.evtcnt s <> 0 /\
  (-1 <= 0)%Q /\
  exists r1 r2,
    EVT.opp (fst (EVT.filter s (with_offset EVT.default_options (Fin (-1))))) = Some r1 /\
    EVT.opp (fst (EVT.filter s (with_offset EVT.default_options (Fin 0)))) = Some r2 /\
    incl r1 r2.
Proof.
  intros s.
  assert (H1 : EVT.evt s = Some skewed_rows) by (vm_compute; reflexivity).
  assert (H2 : EVT.evtcnt s <> 0) by (vm_compute; discriminate).
  assert (H3 : (-1 <= 0)%Q) by discriminate.
  split; [exact H1|]. split; [exact H2|]. split; [exact H3|].
  destruct (larger_offset_retains_more s EVT.default_options skewed_rows
              (Fin (1 # 2)) (-1) 0 H1 H2 eq_refl H3)
    as (_ & _ & _ & r1 & r2 & Hr1 & Hr2 & Hincl & _).
  exists r1, r2. repeat split; assumption.
Defined.

(** ** The derived notch *)

Lemma fold_max_spec l :
  forall x, let m := fold_left Z.max l x in
    (m = x \/ In m l) /\ x <= m /\ forall y, In y l -> y <= m.
Proof.
  induction l as [|a l IH]; intros x; cbn [fold_left].
  - split; [now left|]. split; [lia|]. intros y [].
  - destruct (IH (Z.max x a)) as (Hin & Hge & Hall). split; [|split].
    + destruct Hin as [Heq|Hin]; [|right; now right].
      rewrite Heq. destruct (Z.max_spec x a) as [[_ ->]|[_ ->]];
        [right; now left|now left].
    + lia.
    + intros y [<-|Hy]; [lia|now apply Hall].
Qed.

Lemma fold_min_spec l :
  forall x, let m := fold_left Z.min l x in
    (m = x \/ In m l) /\ m <= x /\ forall y, In y l -> m <= y.
Proof.
  induction l as [|a l IH]; intros x; cbn [fold_left].
  - split; [now left|]. split; [lia|]. intros y [].
  - destruct (IH (Z.min x a)) as (Hin & Hge & Hall). split; [|split].
    + destruct Hin as [Heq|Hin]; [|right; now right].
      rewrite Heq. destruct (Z.min_spec x a) as [[_ ->]|[_ ->]];
        [now left|right; now left].
    + lia.
    + intros y [<-|Hy]; [lia|now apply Hall].
Qed.

Lemma series_max_spec l :
  l <> [] ->
  exists m, series_max l = val m /\ In m l /\ forall y, In y l -> y <= m.
Proof.
  destruct l as [|x l]; [contradiction|]. intros _. cbn [series_max].
  destruct (fold_max_spec l x) as (Hin & Hge & Hall).
  eexists. split; [reflexivity|]. split.
  - destruct Hin as [->|Hin]; [now left|now right].
  - intros y [<-|Hy]; [exact Hge|now apply Hall].
Qed.

Lemma series_min_spec l :
  l <> [] ->
  exists m, series_min l = val m /\ In m l /\ forall y, In y l -> m <= y.
Proof.
  destruct l as [|x l]; [contradiction|]. intros _. cbn [series_min].
  destruct (fold_min_spec l x) as (Hin & Hge & Hall).
  eexists. split; [reflexivity|]. split.
  - destruct Hin as [->|Hin]; [now left|now right].
  - intros y [<-|Hy]; [exact Hge|now apply Hall].
Qed.

Lemma feqb_val a b : feqb (val a) (val b) = (a =? b).
Proof.
  unfold feqb, val, Qeq_bool, inject_Z. cbn [Qnum Qden].
  now rewrite !Z.mul_1_r.
Qed.

(** The second extremal step of the derivation changes nothing: the notch
    derived from column [D] is the largest [fsc_small] of the aligned rows
    over [10000] plus the smallest [D] among the rows that reach it. *)
Lemma derive_notch_ratio (D : EVT.particle -> Z) aligned :
  aligned <> [] ->
  Forall (fun p => 0 <= D p) aligned ->
  exists p0,
    In p0 aligned /\
    (forall p, In p aligned -> EVT.fsc_small p <= EVT.fsc_small p0) /\
    (forall p, In p aligned -> EVT.fsc_small p = EVT.fsc_small p0 -> D p0 <= D p) /\
    EVT.derive_notch D aligned (series_max (map EVT.fsc_small aligned))
    = Fin (inject_Z (EVT.fsc_small p0) / (inject_Z (D p0) + inject_Z 10000)).
Proof.
  intros Hne Hpos. rewrite Forall_forall in Hpos.
  destruct (series_max_spec (map EVT.fsc_small aligned)) as (M & HM & HinM & HleM).
  { destruct aligned; [contradiction|discriminate]. }
  unfold EVT.derive_notch. rewrite HM.
  set (tops := List.filter (fun p => feqb (val (EVT.fsc_small p)) (val M)) aligned).
  assert (Htops : forall p, In p tops <-> In p aligned /\ EVT.fsc_small p = M).
  { intros p. unfold tops. rewrite filter_In, feqb_val, Z.eqb_eq. tauto. }
  apply in_map_iff in HinM as (pm & Hpm & Hpmin).
  destruct (series_min_spec (map D tops)) as (d & Hd & Hind & Hled).
  { assert (In pm tops) by (apply Htops; now split).
    destruct tops; [contradiction|discriminate]. }
  rewrite Hd.
  apply in_map_iff in Hind as (p0 & Hp0 & Hp0in).
  apply Htops in Hp0in as [Hp0al Hp0M].
  set (same := List.filter (fun p => feqb (val (D p)) (val d)) aligned).
  assert (Hsame : forall p, In p same <-> In p aligned /\ D p = d).
  { intros p. unfold same. rewrite filter_In, feqb_val, Z.eqb_eq. tauto. }
  destruct (series_max_spec (map EVT.fsc_small same)) as (M' & HM' & HinM' & HleM').
  { assert (In p0 same) by (apply Hsame; now split).
    destruct same; [contradiction|discriminate]. }
  assert (HMM : M' = M).
  { apply Z.le_antisymm.
    - apply in_map_iff in HinM' as (q & <- & Hq). apply Hsame in Hq as [Hq _].
      apply HleM, in_map_iff. now exists q.
    - rewrite <- Hp0M. apply HleM', in_map_iff. exists p0. split; [reflexivity|].
      apply Hsame. now split. }
  rewrite HM', HMM.
  exists p0. split; [exact Hp0al|]. split; [|split].
  - intros p Hp. rewrite Hp0M. apply HleM, in_map_iff. now exists p.
  - intros p Hp Hfsc. rewrite Hp0. apply Hled, in_map_iff. exists p.
    split; [reflexivity|]. apply Htops. split; [exact Hp|]. now rewrite Hfsc.
  - rewrite Hp0M, Hp0. unfold fdiv, fadd, lift2, val.
    assert (Hd0 : 0 <= d) by (rewrite <- Hp0; now apply Hpos).
    destruct (Qeq_bool (inject_Z d + inject_Z 10000) 0) eqn:Hz; [|reflexivity].
    apply Qeq_bool_iff in Hz. rewrite <- inject_Z_plus in Hz.
    unfold Qeq, inject_Z in Hz. cbn [Qnum Qden] in Hz. lia.
Qed.

Lemma notch_ratio_bounds (M d : Z) :
  1 < M < 2 ^ 16 -> 0 <= d ->
  (0 < inject_Z M / (inject_Z d + inject_Z 10000) <= 65535 # 10000)%Q.
Proof.
  intros HM Hd.
  assert (Hden : (0 < inject_Z d + inject_Z 10000)%Q).
  { rewrite <- inject_Z_plus. unfold Qlt, inject_Z. cbn [Qnum Qden]. lia. }
  split.
  - apply Qlt_shift_div_l; [exact Hden|]. rewrite Qmult_0_l.
    unfold Qlt, inject_Z. cbn [Qnum Qden]. lia.
  - apply Qle_shift_div_r; [exact Hden|]. rewrite <- inject_Z_plus.
    unfold Qle, Qmult, inject_Z. cbn [Qnum Qden]. lia.
Qed.

Lemma aligned_rows_are_candidates origin w rows p :
  In p (aligned_rows origin w rows) -> In p rows /\ 1 < EVT.fsc_small p.
Proof.
  unfold aligned_rows, candidates. rewrite !filter_In, Z.ltb_lt. tauto.
Qed.

Lemma fdiv_val (M d : Z) :
  0 <= d ->
  fdiv (val M) (fadd (val d) (val 10000))
  = Fin (inject_Z M / (inject_Z d + inject_Z 10000)).
Proof.
  intros Hd. unfold fdiv, fadd, lift2, val.
  destruct (Qeq_bool (inject_Z d + inject_Z 10000) 0) eqn:Hz; [|reflexivity].
  apply Qeq_bool_iff in Hz. rewrite <- inject_Z_plus in Hz.
  unfold Qeq, inject_Z in Hz. cbn [Qnum Qden] in Hz. lia.
Qed.

(** X12.  Take decoded data and parameters for which the band test is
    exact in binary64: the width times [10^4], and the origin if one is
    supplied, are halves of integers of at most 40 bits (the default width
    0.5 is; a derived origin, the median of integer differences, always
    is).  Then a notch that [filter] derives is the quotient, by the
    division of the code, of the largest [fsc_small] among the aligned
    rows by [10000] plus the smallest [D1] (for notch 2, [D2]) among the
    aligned rows that reach that largest [fsc_small]: the second extremal
    step of the derivation changes nothing.  The quotient is positive and
    at most 6.5535. *)
Theorem derived_notches_are_ratios
    (p : string) (fh : list byte) (o : EVT.filter_options) (s : EVT.obj)
    (rows : list EVT.particle) (w off : fval) :
  EVT.init p (Some fh) = Returned s -> EVT.evt s = Some rows ->
  EVT.o_width o = Some w -> EVT.o_offset o = Some off ->
  EVT.o_notch1 o = None -> EVT.o_notch2 o = None ->
  on_half_grid (fmul w (val (10 ^ 4))) ->
  (forall v, EVT.o_origin o = Some v -> on_half_grid v) ->
  let origin := EVT.or_else (EVT.o_origin o) (median (detector_gap rows)) in
  let aligned := aligned_rows origin w rows in
  let s' := fst (EVT.filter s o) in
  aligned <> [] ->
  exists p1 p2 n1 n2,
    In p1 aligned /\ In p2 aligned /\
    EVT.fsc_small p2 = EVT.fsc_small p1 /\
    (forall q, In q aligned -> EVT.fsc_small q <= EVT.fsc_small p1) /\
    (forall q, In q aligned -> EVT.fsc_small q = EVT.fsc_small p1 ->
               EVT.D1 p1 <= EVT.D1 q /\ EVT.D2 p2 <= EVT.D2 q) /\
    EVT.notch1 s'
    = Some (fdiv (val (EVT.fsc_small p1)) (fadd (val (EVT.D1 p1)) (val 10000))) /\
    EVT.notch2 s'
    = Some (fdiv (val (EVT.fsc_small p1)) (fadd (val (EVT.D2 p2)) (val 10000))) /\
    EVT.notch1 s' = Some (Fin n1) /\ EVT.notch2 s' = Some (Fin n2) /\
    (0 < n1 <= 65535 # 10000)%Q /\ (0 < n2 <= 65535 # 10000)%Q.
Proof.
  intros Hinit Hevt Hw Hoff Hn1 Hn2 _ _ origin aligned s' Hne.
  destruct (init_state p (Some fh) s Hinit) as (_ & _ & _ & Hrows).
  destruct Hrows as [[Hnone _]|(rows' & Hevt' & Hcnt & Hpos & Hwords)];
    [congruence|].
  assert (rows' = rows) as -> by congruence.
  rewrite Forall_forall in Hwords.
  assert (Hword : forall q, In q aligned ->
            1 < EVT.fsc_small q < 2 ^ 16 /\ 0 <= EVT.D1 q /\ 0 <= EVT.D2 q).
  { intros q Hq. apply aligned_rows_are_candidates in Hq as [Hq Hfsc].
    specialize (Hwords q Hq). unfold EVT.cols in Hwords.
    repeat match goal with
           | H : Forall _ (_ :: _) |- _ => apply Forall_cons_iff in H as [? H]
           end.
    unfold word16 in *. lia. }
  destruct (derive_notch_ratio EVT.D1 aligned Hne) as (p1 & Hp1 & Htop1 & Hmin1 & Hd1).
  { apply Forall_forall. intros q Hq. now apply Hword. }
  destruct (derive_notch_ratio EVT.D2 aligned Hne) as (p2 & Hp2 & Htop2 & Hmin2 & Hd2).
  { apply Forall_forall. intros q Hq. now apply Hword. }
  assert (Hsame : EVT.fsc_small p2 = EVT.fsc_small p1).
  { apply Z.le_antisymm; [now apply Htop1|now apply Htop2]. }
  subst s'.
  rewrite (filter_in_stages s o rows w off Hevt ltac:(lia) Hw Hoff).
  cbn [fst EVT.notch1 EVT.notch2]. rewrite Hn1, Hn2. cbn [EVT.or_else].
  fold origin. fold aligned. rewrite Hd1, Hd2, Hsame.
  exists p1, p2,
    (inject_Z (EVT.fsc_small p1) / (inject_Z (EVT.D1 p1) + inject_Z 10000))%Q,
    (inject_Z (EVT.fsc_small p1) / (inject_Z (EVT.D2 p2) + inject_Z 10000))%Q.
  rewrite !fdiv_val by (now apply Hword).
  split; [exact Hp1|]. split; [exact Hp2|]. split; [exact Hsame|].
  split; [exact Htop1|]. split.
  { intros q Hq Hfsc. split; [now apply Hmin1|].
    apply Hmin2; [exact Hq|congruence]. }
  split; [reflexivity|]. split; [reflexivity|].
  split; [reflexivity|]. split; [reflexivity|].
  split; apply notch_ratio_bounds; try (now apply Hword).
Qed.

Lemma derived_notches_are_ratios_witness :
  let s := decoded "f" focused_file in
  let s' := fst (EVT.filter s EVT.default_options) in
  EVT.init "f" (Some focused_file) = Returned s /\
  EVT.evt s = Some focused_rows /\
  on_half_grid (fmul (Fin (1 # 2)) (val (10 ^ 4))) /\
  (forall v, EVT.o_origin EVT.default_options = Some v -> on_half_grid v) /\
  aligned_rows (median (detector_gap focused_rows)) (Fin (1 # 2)) focused_rows <> [] /\
  exists n1, EVT.notch1 s' = Some (Fin n1) /\ (0 < n1 <= 65535 # 10000)%Q.
Proof.
  intros s s'.
  assert (H1 : EVT.init "f" (Some focused_file) = Returned s)
    by (vm_compute; reflexivity).
  assert (H2 : EVT.evt s = Some focused_rows) by (vm_compute; reflexivity).
  assert (H3 : aligned_rows (median (detector_gap focused_rows)) (Fin (1 # 2))
                 focused_rows <> []) by (vm_compute; discriminate).
  assert (H4 : on_half_grid (fmul (Fin (1 # 2)) (val (10 ^ 4))))
    by (exists 10000; split; [vm_compute; discriminate|vm_compute; reflexivity]).
  assert (H5 : forall v, EVT.o_origin EVT.default_options = Some v -> on_half_grid v)
    by (intros v Hv; discriminate Hv).
  split; [exact H1|]. split; [exact H2|]. split; [exact H4|]. split; [exact H5|].
  split; [exact H3|].
  destruct (derived_notches_are_ratios "f" focused_file EVT.default_options s
              focused_rows (Fin (1 # 2)) (Fin 0) H1 H2 eq_refl eq_refl eq_refl
              eq_refl H4 H5 H3)
    as (p1 & p2 & n1 & n2 & _ & _ & _ & _ & _ & _ & _ & Hn1 & _ & Hb1 & _).
  exists n1. split; [exact Hn1|exact Hb1].
Defined.

(** ** More on the codec *)

(** X13.  A decoded object holds between 1 and [2^32 - 1] rows, as many as
    its header announced; every value in them is an integer between 0 and
    65535; and nothing filter-related is set yet. *)
Theorem decoded_matrix_holds_words (p : string) (fh : list byte) (s : EVT.obj) :
  EVT.init p (Some fh) = Returned s ->
  exists rows,
    EVT.evt s = Some rows /\
    Z.of_nat (length rows) = EVT.evtcnt s /\
    EVT.headercnt s = EVT.evtcnt s /\
    0 < EVT.evtcnt s < 2 ^ 32 /\
    Forall (fun q => Forall word16 (EVT.cols q)) rows /\
    EVT.opp s = None /\ EVT.oppcnt s = 0 /\ params_unset s.
Proof.
  intros Hinit.
  destruct (init_state p (Some fh) s Hinit) as (Hopp & _ & Hnone & Hrows).
  destruct Hrows as [[Hevt _]|(rows & Hevt & Hcnt & Hpos & Hwords)].
  { unfold EVT.init in Hinit. rewrite read_evt_cases in Hinit.
    repeat match type of Hinit with
           | (if ?c then _ else _) = _ => destruct c; [discriminate|]
           end.
    injection Hinit as <-. discriminate Hevt. }
  exists rows. split; [exact Hevt|]. split; [lia|].
  unfold EVT.init in Hinit. rewrite read_evt_cases in Hinit.
  repeat match type of Hinit with
         | (if ?c then _ else _) = _ => destruct c eqn:?; [discriminate|]
         end.
  injection Hinit as <-. cbn [EVT.evt EVT.evtcnt EVT.headercnt] in *.
  split.
  { injection Hevt as <-. rewrite length_map.
    destruct (raw_rows_shape fh) as (Hlen & _); [apply le_combine_bound|lia|].
    rewrite Hlen. rewrite Z2Nat.id; [reflexivity|apply le_combine_bound]. }
  split; [exact Hpos|]. split; [exact Hwords|].
  split; [reflexivity|]. split; [reflexivity|]. repeat split.
Qed.

Lemma decoded_matrix_holds_words_witness :
  EVT.init "f" (Some focused_file) = Returned (decoded "f" focused_file) /\
  exists rows,
    EVT.evt (decoded "f" focused_file) = Some rows /\
    Forall (fun q => Forall word16 (EVT.cols q)) rows.
Proof.
  assert (H : EVT.init "f" (Some focused_file) = Returned (decoded "f" focused_file))
    by (vm_compute; reflexivity).
  split; [exact H|].
  destruct (decoded_matrix_holds_words "f" focused_file _ H)
    as (rows & Hevt & _ & _ & _ & Hwords & _).
  exists rows. split; [exact Hevt|exact Hwords].
Defined.

(** X14.  Whenever [write_opp_binary] writes (a consistent, non-empty set
    of retained rows of 16-bit values), the file has exactly
    [4 + 24 * oppcnt] bytes, carries [oppcnt] in its header and the
    padding words 10, 0 in every row, and [read_evt] accepts it and reads
    the retained rows back. *)
Theorem binary_output_is_a_labview_file
    (p : string) (self : EVT.obj) (retained : list EVT.particle) :
  EVT.opp self = Some retained ->
  EVT.oppcnt self = Z.of_nat (length retained) ->
  0 < EVT.oppcnt self < 2 ^ 32 ->
  Forall (fun q => Forall word16 (EVT.cols q)) retained ->
  exists out t,
    EVT.write_opp_binary self = Returned (Some out) /\
    Z.of_nat (length out) = 4 + 24 * EVT.oppcnt self /\
    EVT.header_count out = EVT.oppcnt self /\
    EVT.labview_file out /\
    EVT.init p (Some out) = Returned t /\
    EVT.evt t = Some retained /\ EVT.evtcnt t = EVT.oppcnt self.
Proof.
  intros Hopp Hcnt Hrange Hwords.
  destruct (raw_rows_opp_bytes retained ltac:(lia) Hwords) as (Hh & Hr & Hraw).
  destruct (decode_encoded p retained) as (t & Ht & Hevt & _ & Hn);
    [intros ->; cbn in Hcnt; lia|lia|exact Hwords|].
  exists (opp_bytes retained), t.
  split; [now apply write_opp_binary_bytes|]. split.
  { unfold opp_bytes.
    rewrite length_app, length_le_split, length_flat_map_row_bytes. lia. }
  split; [lia|]. split.
  { split; [lia|]. rewrite Hraw. apply Forall_map, Forall_forall.
    intros q _. reflexivity. }
  split; [exact Ht|]. split; [exact Hevt|lia].
Qed.

Lemma binary_output_is_a_labview_file_witness :
  let s' := fst (EVT.filter (decoded "f" focused_file) EVT.default_options) in
  EVT.opp s' = Some focused_rows /\
  EVT.oppcnt s' = Z.of_nat (length focused_rows) /\
  0 < EVT.oppcnt s' < 2 ^ 32 /\
  Forall (fun q => Forall word16 (EVT.cols q)) focused_rows /\
  exists out,
    EVT.write_opp_binary s' = Returned (Some out) /\
    Z.of_nat (length out) = 52.
Proof.
  intros s'.
  assert (H1 : EVT.opp s' = Some focused_rows) by (vm_compute; reflexivity).
  assert (H2 : EVT.oppcnt s' = Z.of_nat (length focused_rows))
    by (vm_compute; reflexivity).
  assert (H3 : 0 < EVT.oppcnt s' < 2 ^ 32) by (vm_compute; split; reflexivity).
  assert (H4 : Forall (fun q => Forall word16 (EVT.cols q)) focused_rows)
    by (repeat constructor; unfold word16; cbn; lia).
  split; [exact H1|]. split; [exact H2|]. split; [exact H3|]. split; [exact H4|].
  destruct (binary_output_is_a_labview_file "f" s' focused_rows H1 H2 H3 H4)
    as (out & t & Hw & Hlen & _).
  exists out. split; [exact Hw|]. rewrite Hlen, H2. reflexivity.
Defined.

(** ** Statistics and relational rows *)

Lemma lookup_assign d k v k' :
  EVT.lookup (EVT.assign d k v) k'
  = if String.eqb k' k then Some v else EVT.lookup d k'.
Proof.
  induction d as [|[k0 v0] d IH]; cbn [EVT.assign EVT.lookup].
  - reflexivity.
  - destruct (String.eqb_spec k k0) as [->|Hk]; cbn [EVT.lookup].
    + destruct (String.eqb_spec k' k0); reflexivity.
    + rewrite IH. destruct (String.eqb_spec k' k0) as [->|Hk'].
      * destruct (String.eqb_spec k0 k); [congruence|reflexivity].
      * reflexivity.
Qed.

Lemma sum_between (l : list Z) (m M : Z) :
  (forall y, In y l -> m <= y <= M) ->
  m * Z.of_nat (length l) <= fold_right Z.add 0 l <= M * Z.of_nat (length l).
Proof.
  induction l as [|x l IH]; intros H; cbn [fold_right length]; [lia|].
  specialize (IH (fun y Hy => H y (or_intror Hy))).
  pose proof (H x (or_introl eq_refl)). lia.
Qed.

(** The three statistics of a non-empty column. *)
Lemma column_stats (l : list Z) :
  l <> [] ->
  exists m M mean,
    series_min l = val m /\ series_max l = val M /\ series_mean l = Fin mean /\
    In m l /\ In M l /\ (forall y, In y l -> m <= y <= M) /\
    (inject_Z m <= mean <= inject_Z M)%Q.
Proof.
  intros Hne.
  destruct (series_min_spec l Hne) as (m & Hm & Hinm & Hlem).
  destruct (series_max_spec l Hne) as (M & HM & HinM & HleM).
  exists m, M. eexists.
  split; [exact Hm|]. split; [exact HM|]. split.
  { destruct l; [contradiction|reflexivity]. }
  split; [exact Hinm|]. split; [exact HinM|].
  assert (Hall : forall y, In y l -> m <= y <= M)
    by (intros y Hy; split; [now apply Hlem|now apply HleM]).
  split; [exact Hall|].
  pose proof (sum_between l m M Hall) as [Hlo Hhi].
  assert (Hlen : (0 < inject_Z (Z.of_nat (length l)))%Q).
  { destruct l; [contradiction|]. unfold Qlt, inject_Z. cbn [Qnum Qden length]. lia. }
  split.
  - apply Qle_shift_div_l; [exact Hlen|].
    rewrite <- inject_Z_mult, <- Zle_Qle. exact Hlo.
  - apply Qle_shift_div_r; [exact Hlen|].
    rewrite <- inject_Z_mult, <- Zle_Qle. exact Hhi.
Qed.

(** The entries of [self.stats] after [calc_opp_stats]. *)
Lemma stats_entries
    (self : EVT.obj) (retained : list EVT.particle) (stats : EVT.stats_dict) :
  EVT.opp self = Some retained -> retained <> [] -> EVT.oppcnt self <> 0 ->
  exists stats',
    EVT.calc_opp_stats self stats = Returned stats' /\
    forall name col, In (name, col) EVT.float_cols ->
      exists m M mean,
        EVT.lookup stats' name = Some (EVT.mkStats (val m) (val M) (Fin mean)) /\
        In m (map col retained) /\ In M (map col retained) /\
        (inject_Z m <= mean <= inject_Z M)%Q.
Proof.
  intros Hopp Hne Hcnt. unfold EVT.calc_opp_stats. rewrite Hopp.
  destruct (Z.eqb_spec (EVT.oppcnt self) 0) as [|_]; [contradiction|].
  eexists. split; [reflexivity|].
  intros name col Hin.
  assert (Hcol : map col retained <> [])
    by (destruct retained; [contradiction|discriminate]).
  destruct (column_stats (map col retained) Hcol)
    as (m & M & mean & Hm & HM & Hmean & Hinm & HinM & _ & Hbetween).
  exists m, M, mean.
  split; [|split; [exact Hinm|split; [exact HinM|exact Hbetween]]].
  unfold EVT.float_cols in *. cbn [fold_left fst snd].
  rewrite !lookup_assign.
  cbn [In] in Hin.
  repeat (destruct Hin as [Hin|Hin];
          [injection Hin as <- <-; cbn; rewrite Hm, HM, Hmean; reflexivity|]).
  contradiction.
Qed.

(** X15.  For an instance with particles in focus, [calc_opp_stats] fills
    in an entry for each of the eight float channels, whatever the
    dictionary held before; in each entry the minimum and the maximum are
    values of that channel among the retained rows and the mean lies
    between them. *)
Theorem stats_cover_every_float_channel
    (self : EVT.obj) (retained : list EVT.particle) (stats : EVT.stats_dict) :
  EVT.opp self = Some retained -> retained <> [] -> EVT.oppcnt self <> 0 ->
  exists stats',
    EVT.calc_opp_stats self stats = Returned stats' /\
    forall name col, In (name, col) EVT.float_cols ->
      exists m M mean,
        EVT.lookup stats' name = Some (EVT.mkStats (val m) (val M) (Fin mean)) /\
        In m (map col retained) /\ In M (map col retained) /\
        (inject_Z m <= mean <= inject_Z M)%Q.
Proof.
  apply stats_entries.
Qed.

Lemma stats_cover_every_float_channel_witness :
  let s' := fst (EVT.filter (decoded "f" focused_file) EVT.default_options) in
  EVT.opp s' = Some focused_rows /\ focused_rows <> [] /\ EVT.oppcnt s' <> 0 /\
  exists stats' m M mean,
    EVT.calc_opp_stats s' [] = Returned stats' /\
    EVT.lookup stats' "fsc_small" = Some (EVT.mkStats (val m) (val M) (Fin mean)) /\
    (inject_Z m <= mean <= inject_Z M)%Q.
Proof.
  intros s'.
  assert (H1 : EVT.opp s' = Some focused_rows) by (vm_compute; reflexivity).
  assert (H2 : focused_rows <> []) by discriminate.
  assert (H3 : EVT.oppcnt s' <> 0) by (vm_compute; discriminate).
  split; [exact H1|]. split; [exact H2|]. split; [exact H3|].
  destruct (stats_cover_every_float_channel s' focused_rows [] H1 H2 H3)
    as (stats' & Hcalc & Hall).
  destruct (Hall "fsc_small"%string EVT.fsc_small)
    as (m & M & mean & Hl & _ & _ & Hb).
  { unfold EVT.float_cols. cbn. tauto. }
  exists stats', m, M, mean. repeat split; try assumption; apply Hb.
Defined.

Lemma nth_error_numbered {A} (l : list A) :
  forall a i x,
    nth_error l i = Some x ->
    nth_error (combine (map Z.of_nat (seq a (length l))) l) i
    = Some (Z.of_nat (a + i), x).
Proof.
  induction l as [|y l IH]; intros a i x Hi.
  - destruct i; discriminate Hi.
  - cbn [length seq map combine]. destruct i as [|i].
    + injection Hi as <-. cbn [nth_error]. now rewrite Nat.add_0_r.
    + cbn [nth_error] in *. rewrite (IH (S a) i x Hi). do 2 f_equal. lia.
Qed.

Lemma length_numbered {A} (l : list A) a :
  length (combine (map Z.of_nat (seq a (length l))) l) = length l.
Proof.
  rewrite length_combine, length_map, length_seq. lia.
Qed.

(** The rows built by [create_opp_for_db]. *)
Lemma opp_rows_built
    (self : EVT.obj) (retained : list EVT.particle)
    (cruise file : string) (transform_flag : bool) :
  EVT.opp self = Some retained ->
  EVT.oppcnt self = Z.of_nat (length retained) ->
  exists rows,
    EVT.create_opp_for_db self cruise file transform_flag = Returned (Some rows) /\
    length rows = length retained /\
    Forall (fun row => length row = length opp_table /\ ~ In EVT.SqlNull row) rows /\
    forall i q, nth_error retained i = Some q ->
      exists channels,
        nth_error rows i
        = Some ([EVT.SqlText cruise; EVT.SqlText file;
                 EVT.SqlInteger (Z.of_nat i + 1);
                 EVT.SqlInteger (EVT.time q); EVT.SqlInteger (EVT.pulse_width q)]
                ++ channels).
Proof.
  intros Hopp Hcnt. unfold EVT.create_opp_for_db. rewrite Hopp.
  destruct (Z.eqb_spec (Z.of_nat (length retained)) (EVT.oppcnt self)); [|lia].
  eexists. split; [reflexivity|].
  unfold EVT.arange1. rewrite Hcnt, Nat2Z.id.
  split; [now rewrite length_map, length_numbered|]. split.
  - apply Forall_map, Forall_forall. intros [n q] _. split; [reflexivity|].
    cbn. intros H.
    repeat (destruct H as [H|H]; [discriminate H|]). exact H.
  - intros i q Hq. eexists.
    rewrite nth_error_map, (nth_error_numbered retained 1 i q Hq).
    replace (Z.of_nat (1 + i)) with (Z.of_nat i + 1) by lia.
    cbn [option_map fst snd app]. reflexivity.
Qed.

(** X16.  The rows that [create_opp_for_db] prepares for table opp are as
    many as the retained particles and in their order; each has one value
    per column of the table and none of them is NULL; and the particle
    number in the key counts the rows from 1, so that no two rows of a
    file share a key. *)
Theorem opp_rows_fit_the_table
    (self : EVT.obj) (retained : list EVT.particle)
    (cruise file : string) (transform_flag : bool) :
  EVT.opp self = Some retained ->
  EVT.oppcnt self = Z.of_nat (length retained) ->
  exists rows,
    EVT.create_opp_for_db self cruise file transform_flag = Returned (Some rows) /\
    length rows = length retained /\
    Forall (fun row => length row = length opp_table /\ ~ In EVT.SqlNull row) rows /\
    forall i q, nth_error retained i = Some q ->
      exists channels,
        nth_error rows i
        = Some ([EVT.SqlText cruise; EVT.SqlText file;
                 EVT.SqlInteger (Z.of_nat i + 1);
                 EVT.SqlInteger (EVT.time q); EVT.SqlInteger (EVT.pulse_width q)]
                ++ channels).
Proof.
  apply opp_rows_built.
Qed.

Lemma opp_rows_fit_the_table_witness :
  let s' := fst (EVT.filter (decoded "f" focused_file) EVT.default_options) in
  EVT.opp s' = Some focused_rows /\
  EVT.oppcnt s' = Z.of_nat (length focused_rows) /\
  exists rows,
    EVT.create_opp_for_db s' "cruise" "f" true = Returned (Some rows) /\
    length rows = 2%nat.
Proof.
  intros s'.
  assert (H1 : EVT.opp s' = Some focused_rows) by (vm_compute; reflexivity).
  assert (H2 : EVT.oppcnt s' = Z.of_nat (length focused_rows))
    by (vm_compute; reflexivity).
  split; [exact H1|]. split; [exact H2|].
  destruct (opp_rows_fit_the_table s' focused_rows "cruise" "f" true H1 H2)
    as (rows & Hrows & Hlen & _).
  exists rows. split; [exact Hrows|exact Hlen].
Defined.




(** The loop over the channels appends three numbers for each of them. *)
Lemma append_stats_values (t : bool) (stats : EVT.stats_dict) :
  forall channels vals,
    (forall name col, In (name, col) channels ->
       exists m M mean,
         EVT.lookup stats name = Some (EVT.mkStats (val m) (val M) (Fin mean))) ->
    exists more,
      EVT.append_stats t stats channels vals = Returned (vals ++ more) /\
      length more = (3 * length channels)%nat /\ ~ In EVT.SqlNull more.
Proof.
  induction channels as [|[name col] channels IH]; intros vals Hall.
  - exists []. cbn. rewrite app_nil_r. tauto.
  - destruct (Hall name col (or_introl eq_refl)) as (m & M & mean & Hl).
    cbn [EVT.append_stats fst]. rewrite Hl.
    destruct (IH (vals ++ EVT.stat_values t (EVT.mkStats (val m) (val M) (Fin mean))))
      as (more & Hmore & Hlen & Hnull).
    { intros n c Hin. apply (Hall n c). now right. }
    exists (EVT.stat_values t (EVT.mkStats (val m) (val M) (Fin mean)) ++ more).
    split; [now rewrite Hmore, <- app_assoc|]. split.
    + rewrite length_app, Hlen. cbn [EVT.stat_values length]. lia.
    + intros Hin. apply in_app_or in Hin as [Hin|Hin]; [|now apply Hnull].
      destruct t; cbn in Hin;
        repeat (destruct Hin as [Hin|Hin]; [discriminate Hin|]); exact Hin.
Qed.

(** The row bound by [insert_filter_sqlite3]. *)
Lemma filter_row_built
    (self s' : EVT.obj) (o : EVT.filter_options) (rows : list EVT.particle)
    (cruise file : string) (transform_flag : bool) (stats : EVT.stats_dict) :
  EVT.evt self = Some rows -> EVT.evtcnt self <> 0 ->
  EVT.filter self o = (s', Returned tt) ->
  EVT.oppcnt s' <> 0 ->
  exists vals stats',
    EVT.insert_filter_sqlite3 s' cruise file transform_flag stats
    = Returned (Some vals, stats') /\
    length vals = length filter_table /\
    ~ In EVT.SqlNull vals /\
    firstn 4 vals = [EVT.SqlText cruise; EVT.SqlText file;
                     EVT.SqlInteger (EVT.oppcnt s'); EVT.SqlInteger (EVT.evtcnt s')].
Proof.
  intros Hevt Hcnt Hfilter Hopp.
  destruct (proper_parameters self s' o rows Hevt Hcnt Hfilter Hopp)
    as ((n1 & Hn1) & (n2 & Hn2) & (off' & Hoff') & (orig & Horig) & (w' & Hw')).
  assert (Hs : exists retained,
             EVT.opp s' = Some retained /\ retained <> [] /\
             EVT.evtcnt s' = EVT.evtcnt self).
  { destruct (EVT.o_width o) as [w|] eqn:Hw.
    2:{ rewrite (filter_missing_parameter self o rows) in Hfilter; auto. discriminate. }
    destruct (EVT.o_offset o) as [off|] eqn:Hoff.
    2:{ rewrite (filter_missing_parameter self o rows) in Hfilter; auto. discriminate. }
    rewrite (filter_in_stages self o rows w off Hevt Hcnt Hw Hoff) in Hfilter.
    injection Hfilter as <-. cbn [EVT.oppcnt] in Hopp.
    eexists. cbn [EVT.opp EVT.evtcnt]. split; [reflexivity|]. split; [|reflexivity].
    intros Hnil. rewrite Hnil in Hopp. now apply Hopp. }
  destruct Hs as (retained & Hret & Hne & Hevtcnt).
  destruct (stats_entries s' retained stats Hret Hne Hopp) as (stats' & Hcalc & Hall).
  unfold EVT.insert_filter_sqlite3. rewrite Hret, Hcalc.
  destruct (Z.eqb_spec (EVT.evtcnt s') 0) as [Hz|_]; [congruence|].
  destruct (Z.eqb_spec (EVT.oppcnt s') 0) as [|_]; [contradiction|].
  cbn [orb].
  match goal with
  | |- context [EVT.append_stats _ _ _ ?v] =>
    destruct (append_stats_values transform_flag stats' EVT.float_cols v)
      as (more & Hmore & Hlen & Hnull)
  end.
  { intros name col Hin. destruct (Hall name col Hin) as (m & M & mean & Hl & _).
    now exists m, M, mean. }
  rewrite Hmore. eexists _, _. split; [reflexivity|].
  rewrite Hn1, Hn2, Hoff', Horig, Hw'. cbn [EVT.bind_param EVT.bind_float].
  split; [|split].
  - rewrite length_app, Hlen. reflexivity.
  - intros Hin. apply in_app_or in Hin as [Hin|Hin]; [|now apply Hnull].
    cbn [In] in Hin.
    repeat (destruct Hin as [Hin|Hin]; [discriminate Hin|]). exact Hin.
  - reflexivity.
Qed.

(** X18.  When [filter] has retained particles of a decoded file, the
    row that [insert_filter_sqlite3] binds for table filter has one value
    for each column of the table, starting with the cruise, the file and
    the two counts, and none of its values is NULL (the ratio, the five
    parameters and the statistics of every channel are all numbers). *)
Theorem filter_row_fits_the_table
    (self s' : EVT.obj) (o : EVT.filter_options) (rows : list EVT.particle)
    (cruise file : string) (transform_flag : bool) (stats : EVT.stats_dict) :
  EVT.evt self = Some rows -> EVT.evtcnt self <> 0 ->
  EVT.filter self o = (s', Returned tt) ->
  EVT.oppcnt s' <> 0 ->
  exists vals stats',
    EVT.insert_filter_sqlite3 s' cruise file transform_flag stats
    = Returned (Some vals, stats') /\
    length vals = length filter_table /\
    ~ In EVT.SqlNull vals /\
    firstn 4 vals = [EVT.SqlText cruise; EVT.SqlText file;
                     EVT.SqlInteger (EVT.oppcnt s'); EVT.SqlInteger (EVT.evtcnt s')].
Proof.
  apply filter_row_built.
Qed.

Lemma filter_row_fits_the_table_witness :
  let self := decoded "f" focused_file in
  let s' := fst (EVT.filter self EVT.default_options) in
  EVT.evt self = Some focused_rows /\ EVT.evtcnt self <> 0 /\
  EVT.filter self EVT.default_options = (s', Returned tt) /\
  EVT.oppcnt s' <> 0 /\
  exists vals stats',
    EVT.insert_filter_sqlite3 s' "cruise" "f" true [] = Returned (Some vals, stats') /\
    length vals = 34%nat.
Proof.
  intros s s'.
  assert (H1 : EVT.evt s = Some focused_rows) by (vm_compute; reflexivity).
  assert (H2 : EVT.evtcnt s <> 0) by (vm_compute; discriminate).
  assert (H3 : EVT.filter s EVT.default_options = (s', Returned tt))
    by (vm_compute; reflexivity).
  assert (H4 : EVT.oppcnt s' <> 0) by (vm_compute; discriminate).
  split; [exact H1|]. split; [exact H2|]. split; [exact H3|]. split; [exact H4|].
  destruct (filter_row_fits_the_table s s' EVT.default_options focused_rows
              "cruise" "f" true [] H1 H2 H3 H4)
    as (vals & stats' & Hrow & Hlen & _).
  exists vals, stats'. split; [exact Hrow|exact Hlen].
Defined.

(** X19.  [save_opp_to_db] on a filtered file with particles in focus
    completes with one row of table opp per retained particle (none when
    [no_opp] is set) and, in both cases, the summary row of table filter. *)
Theorem save_writes_particles_and_summary
    (self s' : EVT.obj) (o : EVT.filter_options) (rows : list EVT.particle)
    (cruise file : string) (transform_flag no_opp : bool) (stats : EVT.stats_dict) :
  EVT.evt self = Some rows -> EVT.evtcnt self <> 0 ->
  EVT.filter self o = (s', Returned tt) ->
  EVT.oppcnt s' <> 0 ->
  exists opp_rows filter_row,
    EVT.save_opp_to_db s' cruise file transform_flag no_opp stats
    = Returned (opp_rows, Some filter_row) /\
    Z.of_nat (length opp_rows) = (if no_opp then 0 else EVT.oppcnt s') /\
    Forall (fun row => length row = length opp_table) opp_rows /\
    length filter_row = length filter_table.
Proof.
  intros Hevt Hcnt Hfilter Hopp.
  destruct (filter_row_built self s' o rows cruise file transform_flag stats
              Hevt Hcnt Hfilter Hopp) as (vals & stats' & Hrow & Hlen & _).
  assert (Hs : exists retained,
             EVT.opp s' = Some retained /\
             EVT.oppcnt s' = Z.of_nat (length retained)).
  { destruct (EVT.o_width o) as [w|] eqn:Hw.
    2:{ rewrite (filter_missing_parameter self o rows) in Hfilter; auto. discriminate. }
    destruct (EVT.o_offset o) as [off|] eqn:Hoff.
    2:{ rewrite (filter_missing_parameter self o rows) in Hfilter; auto. discriminate. }
    rewrite (filter_in_stages self o rows w off Hevt Hcnt Hw Hoff) in Hfilter.
    injection Hfilter as <-. eexists. cbn [EVT.opp EVT.oppcnt].
    split; reflexivity. }
  destruct Hs as (retained & Hret & Hoppcnt).
  destruct (opp_rows_built s' retained cruise file transform_flag Hret Hoppcnt)
    as (built & Hbuilt & Hlenb & Hshape & _).
  unfold EVT.save_opp_to_db, EVT.insert_opp_sqlite3.
  destruct (Z.eqb_spec (EVT.oppcnt s') 0) as [|_]; [contradiction|].
  rewrite Hrow, Hbuilt. destruct no_opp.
  - exists [], vals. split; [reflexivity|]. split; [reflexivity|].
    split; [constructor|exact Hlen].
  - exists built, vals. split; [reflexivity|]. split; [now rewrite Hlenb|].
    split; [|exact Hlen].
    apply Forall_impl with (2 := Hshape). intros row Hr. exact (proj1 Hr).
Qed.

Lemma save_writes_particles_and_summary_witness :
  let self := decoded "f" focused_file in
  let s' := fst (EVT.filter self EVT.default_options) in
  EVT.evt self = Some focused_rows /\ EVT.evtcnt self <> 0 /\
  EVT.filter self EVT.default_options = (s', Returned tt) /\
  EVT.oppcnt s' <> 0 /\
  exists opp_rows filter_row,
    EVT.save_opp_to_db s' "cruise" "f" true false []
    = Returned (opp_rows, Some filter_row) /\
    Z.of_nat (length opp_rows) = EVT.oppcnt s'.
Proof.
  intros s s'.
  assert (H1 : EVT.evt s = Some focused_rows) by (vm_compute; reflexivity).
  assert (H2 : EVT.evtcnt s <> 0) by (vm_compute; discriminate).
  assert (H3 : EVT.filter s EVT.default_options = (s', Returned tt))
    by (vm_compute; reflexivity).
  assert (H4 : EVT.oppcnt s' <> 0) by (vm_compute; discriminate).
  split; [exact H1|]. split; [exact H2|]. split; [exact H3|]. split; [exact H4|].
  destruct (save_writes_particles_and_summary s s' EVT.default_options focused_rows
              "cruise" "f" true false [] H1 H2 H3 H4)
    as (opp_rows & filter_row & Hsave & Hlen & _).
  exists opp_rows, filter_row. split; [exact Hsave|exact Hlen].
Defined.

(** ** The validation command *)

Section Validation.

Variable is_evt is_opp : string -> outcome bool.
Variable read_evt_labview read_opp_labview : string -> EvtCmd.read_result.
Variable no_header opp : bool.

Local Abbreviation verdict :=
  (EvtCmd.verdict is_evt is_opp read_evt_labview read_opp_labview opp).
Local Abbreviation classify :=
  (EvtCmd.classify is_evt is_opp read_evt_labview read_opp_labview opp).
Local Abbreviation loop :=
  (EvtCmd.loop is_evt is_opp read_evt_labview read_opp_labview no_header opp).
Local Abbreviation evt_cmd :=
  (EvtCmd.evt_cmd is_evt is_opp read_evt_labview read_opp_labview no_header opp).

(** The first half of the loop body in terms of the verdict. *)
Lemma classify_verdict (f : string) (st : EvtCmd.state) :
  classify f st
  = match verdict f with
    | Raised e => Raised e
    | Returned (status, Some n) =>
      Returned (status,
                EvtCmd.mkState (EvtCmd.header_printed st) (EvtCmd.ok st + 1)
                  (EvtCmd.bad st) (Some n) (EvtCmd.printed st))
    | Returned (status, None) =>
      Returned (status,
                EvtCmd.mkState (EvtCmd.header_printed st) (EvtCmd.ok st)
                  (EvtCmd.bad st + 1) (EvtCmd.data st) (EvtCmd.printed st))
    end.
Proof.
  unfold EvtCmd.classify, EvtCmd.verdict.
  destruct opp; cbn [negb bind].
  - destruct (is_opp f) as [[|]|e]; cbn [negb bind]; try reflexivity.
    destruct (read_opp_labview f); reflexivity.
  - destruct (is_evt f) as [[|]|e]; cbn [negb bind]; try reflexivity.
    destruct (read_evt_labview f); reflexivity.
Qed.

(** A verdict with a count is a verdict ["OK"]. *)
Lemma verdict_read (f status : string) (n : nat) :
  verdict f = Returned (status, Some n) -> status = "OK"%string.
Proof.
  unfold EvtCmd.verdict.
  destruct opp; cbn [bind].
  - destruct (is_opp f) as [[|]|e]; cbn [bind]; try discriminate.
    destruct (read_opp_labview f); congruence.
  - destruct (is_evt f) as [[|]|e]; cbn [bind]; try discriminate.
    destruct (read_evt_labview f); congruence.
Qed.

Lemma passed_cons (v : string * option nat) (vs : list (string * option nat)) :
  EvtCmd.passed (v :: vs)
  = ((match snd v with Some _ => 1 | None => 0 end) + EvtCmd.passed vs)%nat.
Proof.
  unfold EvtCmd.passed. cbn [List.filter]. destruct (snd v); reflexivity.
Qed.

(** The loop in the short listing. *)
Lemma quiet_loop (files : list string) (verdicts : list (string * option nat)) :
  Forall2 (fun f v => verdict f = Returned v) files verdicts ->
  forall st, exists st',
    loop false files st = Returned st' /\
    EvtCmd.ok st' = (EvtCmd.ok st + EvtCmd.passed verdicts)%nat /\
    (EvtCmd.bad st' + EvtCmd.ok st'
     = EvtCmd.bad st + EvtCmd.ok st + length files)%nat /\
    EvtCmd.printed st'
    = EvtCmd.printed st
      ++ (if negb (EvtCmd.header_printed st) && negb no_header
          then match EvtCmd.failures (combine files verdicts) with
               | [] => []
               | _ => [EvtCmd.join EvtCmd.tab ["path"; "status"]%string]
               end
          else [])
      ++ map EvtCmd.short_row (EvtCmd.failures (combine files verdicts)).
Proof.
  induction 1 as [|f [status d] files verdicts Hv _ IH]; intros st.
  - exists st. cbn. rewrite app_nil_r.
    destruct (negb _ && negb _); rewrite ?app_nil_r; repeat split; lia.
  - cbn [EvtCmd.loop]. rewrite classify_verdict, Hv.
    rewrite passed_cons. cbn [snd length combine].
    unfold EvtCmd.failures at 1 2. cbn [List.filter fst snd].
    fold (EvtCmd.failures (combine files verdicts)).
    destruct d as [n|]; cbn [bind fst snd]; unfold EvtCmd.report; cbn [negb].
    + rewrite (verdict_read f status n Hv). cbn [String.eqb Ascii.eqb Bool.eqb negb].
      cbn [bind].
      match goal with
      | |- context [EvtCmd.loop _ _ _ _ _ _ false files ?s] =>
        destruct (IH s) as (st' & Hloop & Hok' & Hsum & Hout)
      end.
      exists st'. cbn [EvtCmd.ok EvtCmd.bad EvtCmd.header_printed EvtCmd.printed] in *.
      split; [exact Hloop|]. split; [lia|]. split; [lia|exact Hout].
    + destruct (String.eqb status "OK") eqn:Hst; cbn [negb bind].
      * match goal with
        | |- context [EvtCmd.loop _ _ _ _ _ _ false files ?s] =>
          destruct (IH s) as (st' & Hloop & Hok' & Hsum & Hout)
        end.
        exists st'. cbn [EvtCmd.ok EvtCmd.bad EvtCmd.header_printed EvtCmd.printed] in *.
        split; [exact Hloop|]. split; [lia|]. split; [lia|exact Hout].
      * unfold EvtCmd.print_header, EvtCmd.print.
        cbn [EvtCmd.ok EvtCmd.bad EvtCmd.header_printed EvtCmd.printed EvtCmd.data].
        destruct (negb (EvtCmd.header_printed st) && negb no_header) eqn:Hh;
          cbn [EvtCmd.ok EvtCmd.bad EvtCmd.header_printed EvtCmd.printed EvtCmd.data];
          match goal with
          | |- context [EvtCmd.loop _ _ _ _ _ _ false files ?s] =>
            destruct (IH s) as (st' & Hloop & Hok' & Hsum & Hout)
          end;
          exists st';
          cbn [EvtCmd.ok EvtCmd.bad EvtCmd.header_printed EvtCmd.printed EvtCmd.data
               negb andb] in *;
          (split; [exact Hloop|]); (split; [lia|]); (split; [lia|]); rewrite Hout;
          rewrite ?Hh; cbn [map app]; rewrite <- !app_assoc; reflexivity.
Qed.

(** The loop in the long listing. *)
Lemma verbose_loop (files : list string) (verdicts : list (string * option nat)) :
  Forall2 (fun f v => verdict f = Returned v) files verdicts ->
  Forall (fun v => fst v = "OK"%string -> snd v <> None) verdicts ->
  forall st, exists st',
    loop true files st = Returned st' /\
    EvtCmd.ok st' = (EvtCmd.ok st + EvtCmd.passed verdicts)%nat /\
    (EvtCmd.bad st' + EvtCmd.ok st'
     = EvtCmd.bad st + EvtCmd.ok st + length files)%nat /\
    EvtCmd.printed st'
    = EvtCmd.printed st
      ++ (if negb (EvtCmd.header_printed st) && negb no_header
          then match files with
               | [] => []
               | _ => [EvtCmd.join EvtCmd.tab ["path"; "status"; "events"]%string]
               end
          else [])
      ++ map EvtCmd.long_row (combine files verdicts).
Proof.
  induction 1 as [|f [status d] files verdicts Hv _ IH]; intros Hsound st.
  - exists st. cbn. rewrite app_nil_r.
    destruct (negb _ && negb _); rewrite ?app_nil_r; repeat split; lia.
  - apply Forall_cons_iff in Hsound as [Hs Hsound]. cbn [fst snd] in Hs.
    specialize (IH Hsound).
    cbn [EvtCmd.loop]. rewrite classify_verdict, Hv.
    rewrite passed_cons. cbn [snd length combine map].
    unfold EvtCmd.long_row at 1. cbn [fst snd].
    assert (Hrow :
              exists events,
                EvtCmd.report no_header true f status
                  (match d with
                   | Some n =>
                     EvtCmd.mkState (EvtCmd.header_printed st) (EvtCmd.ok st + 1)
                       (EvtCmd.bad st) (Some n) (EvtCmd.printed st)
                   | None =>
                     EvtCmd.mkState (EvtCmd.header_printed st) (EvtCmd.ok st)
                       (EvtCmd.bad st + 1) (EvtCmd.data st) (EvtCmd.printed st)
                   end)
                = Returned
                    (EvtCmd.print (EvtCmd.join EvtCmd.tab [f; status; events])
                       (EvtCmd.print_header no_header
                          ["path"; "status"; "events"]%string
                          (match d with
                           | Some n =>
                             EvtCmd.mkState (EvtCmd.header_printed st) (EvtCmd.ok st + 1)
                               (EvtCmd.bad st) (Some n) (EvtCmd.printed st)
                           | None =>
                             EvtCmd.mkState (EvtCmd.header_printed st) (EvtCmd.ok st)
                               (EvtCmd.bad st + 1) (EvtCmd.data st) (EvtCmd.printed st)
                           end))) /\
                events = match d with
                         | Some n => if String.eqb status "OK" then EvtCmd.str n
                                     else "-"%string
                         | None => "-"%string
                         end).
    { unfold EvtCmd.report. cbn [negb].
      destruct d as [n|].
      - rewrite (verdict_read f status n Hv). cbn [String.eqb Ascii.eqb Bool.eqb negb].
        eexists. split; [|reflexivity].
        unfold EvtCmd.print_header.
        cbn [EvtCmd.header_printed].
        destruct (negb _ && negb _); reflexivity.
      - destruct (String.eqb_spec status "OK") as [Hok|_]; [now specialize (Hs Hok)|].
        cbn [negb]. eexists. split; reflexivity. }
    destruct Hrow as (events & Hreport & <-).
    destruct d as [n|]; cbn [bind fst snd]; rewrite Hreport; cbn [bind];
      unfold EvtCmd.print_header, EvtCmd.print;
      cbn [EvtCmd.ok EvtCmd.bad EvtCmd.header_printed EvtCmd.printed EvtCmd.data];
      destruct (negb (EvtCmd.header_printed st) && negb no_header) eqn:Hh;
      cbn [EvtCmd.ok EvtCmd.bad EvtCmd.header_printed EvtCmd.printed EvtCmd.data];
      match goal with
      | |- context [EvtCmd.loop _ _ _ _ _ _ true files ?s] =>
        destruct (IH s) as (st' & Hloop & Hok' & Hsum & Hout)
      end;
      exists st';
      cbn [EvtCmd.ok EvtCmd.bad EvtCmd.header_printed EvtCmd.printed EvtCmd.data
           negb andb] in *;
      (split; [exact Hloop|]); (split; [lia|]); (split; [lia|]); rewrite Hout;
      rewrite ?Hh; cbn [map app]; rewrite <- !app_assoc; reflexivity.
Qed.

Lemma loop_files_app (verbose : bool) (before after : list string) :
  forall st,
    loop verbose (before ++ after) st
    = bind (loop verbose before st) (loop verbose after).
Proof.
  induction before as [|f before IH]; intros st; [reflexivity|].
  cbn [app EvtCmd.loop].
  destruct (classify f st) as [r|e]; [|reflexivity]. cbn [bind].
  destruct (EvtCmd.report no_header verbose f (fst r) (snd r)) as [st1|e];
    [|reflexivity].
  cbn [bind]. apply IH.
Qed.

Lemma quiet_run (no_summary : bool) (files : list string)
    (verdicts : list (string * option nat)) :
  files <> [] ->
  Forall2 (fun f v => verdict f = Returned v) files verdicts ->
  evt_cmd no_summary false files
  = Returned
      ((if no_header then []
        else match EvtCmd.failures (combine files verdicts) with
             | [] => []
             | _ => [EvtCmd.join EvtCmd.tab ["path"; "status"]%string]
             end)
       ++ map EvtCmd.short_row (EvtCmd.failures (combine files verdicts))
       ++ (if no_summary then []
           else [EvtCmd.summary (EvtCmd.passed verdicts) (length files)])).
Proof.
  intros Hne Hall.
  destruct (quiet_loop files verdicts Hall EvtCmd.initial)
    as (st' & Hloop & Hok & Hsum & Hout).
  unfold EvtCmd.evt_cmd. destruct files as [|f files]; [contradiction|].
  rewrite Hloop. cbn [bind]. f_equal.
  cbn [EvtCmd.initial EvtCmd.ok EvtCmd.bad EvtCmd.header_printed EvtCmd.printed
       negb andb app] in Hok, Hsum, Hout.
  destruct no_summary; cbn [negb EvtCmd.print EvtCmd.printed].
  - rewrite Hout, app_nil_r. destruct no_header; reflexivity.
  - rewrite Hout, Hsum, Hok. cbn [Nat.add]. rewrite <- app_assoc.
    destruct no_header; reflexivity.
Qed.

Lemma verbose_run (no_summary : bool) (files : list string)
    (verdicts : list (string * option nat)) :
  files <> [] ->
  Forall2 (fun f v => verdict f = Returned v) files verdicts ->
  Forall (fun v => fst v = "OK"%string -> snd v <> None) verdicts ->
  evt_cmd no_summary true files
  = Returned
      ((if no_header then []
        else [EvtCmd.join EvtCmd.tab ["path"; "status"; "events"]%string])
       ++ map EvtCmd.long_row (combine files verdicts)
       ++ (if no_summary then []
           else [EvtCmd.summary (EvtCmd.passed verdicts) (length files)])).
Proof.
  intros Hne Hall Hsound.
  destruct (verbose_loop files verdicts Hall Hsound EvtCmd.initial)
    as (st' & Hloop & Hok & Hsum & Hout).
  unfold EvtCmd.evt_cmd. destruct files as [|f files]; [contradiction|].
  rewrite Hloop. cbn [bind]. f_equal.
  cbn [EvtCmd.initial EvtCmd.ok EvtCmd.bad EvtCmd.header_printed EvtCmd.printed
       negb andb app] in Hok, Hsum, Hout.
  destruct no_summary; cbn [negb EvtCmd.print EvtCmd.printed].
  - rewrite Hout, app_nil_r. destruct no_header; reflexivity.
  - rewrite Hout, Hsum, Hok. cbn [Nat.add]. rewrite <- app_assoc.
    destruct no_header; reflexivity.
Qed.

Lemma failing_run (no_summary verbose : bool) (before after : list string)
    (f : string) (verdicts : list (string * option nat)) (e : exn) :
  Forall2 (fun f v => verdict f = Returned v) before verdicts ->
  Forall (fun v => fst v = "OK"%string -> snd v <> None) verdicts ->
  verdict f = Raised e ->
  evt_cmd no_summary verbose (before ++ f :: after) = Raised e.
Proof.
  intros Hall Hsound Hf.
  assert (Hloop : exists st, loop verbose before EvtCmd.initial = Returned st).
  { destruct verbose.
    - destruct (verbose_loop before verdicts Hall Hsound EvtCmd.initial)
        as (st & Hst & _). now exists st.
    - destruct (quiet_loop before verdicts Hall EvtCmd.initial)
        as (st & Hst & _). now exists st. }
  destruct Hloop as (st & Hst).
  unfold EvtCmd.evt_cmd.
  destruct (before ++ f :: after) as [|f0 l] eqn:Hfiles.
  { now destruct before. }
  rewrite <- Hfiles, loop_files_app, Hst. cbn [bind EvtCmd.loop].
  rewrite classify_verdict, Hf. reflexivity.
Qed.

(** When no [FileError] has the message ["OK"], the files with another
    status than ["OK"] are the files that were not read. *)
Lemma failures_unread (files : list string) (verdicts : list (string * option nat)) :
  Forall2 (fun f v => verdict f = Returned v) files verdicts ->
  Forall (fun v => fst v = "OK"%string -> snd v <> None) verdicts ->
  EvtCmd.failures (combine files verdicts) = EvtCmd.unread (combine files verdicts).
Proof.
  induction 1 as [|f [status d] files verdicts Hv _ IH]; intros Hsound;
    [reflexivity|].
  apply Forall_cons_iff in Hsound as [Hs Hsound]. cbn [fst snd] in Hs.
  unfold EvtCmd.failures, EvtCmd.unread in *.
  cbn [combine List.filter fst snd]. rewrite (IH Hsound).
  destruct d as [n|].
  - rewrite (verdict_read f status n Hv). reflexivity.
  - destruct (String.eqb_spec status "OK") as [Hok|_]; [now specialize (Hs Hok)|].
    reflexivity.
Qed.

Lemma quiet_run_unread (no_summary : bool) (files : list string)
    (verdicts : list (string * option nat)) :
  files <> [] ->
  Forall2 (fun f v => verdict f = Returned v) files verdicts ->
  Forall (fun v => fst v = "OK"%string -> snd v <> None) verdicts ->
  evt_cmd no_summary false files
  = Returned
      ((if no_header then []
        else match EvtCmd.unread (combine files verdicts) with
             | [] => []
             | _ => [EvtCmd.join EvtCmd.tab ["path"; "status"]%string]
             end)
       ++ map EvtCmd.short_row (EvtCmd.unread (combine files verdicts))
       ++ (if no_summary then []
           else [EvtCmd.summary (EvtCmd.passed verdicts) (length files)])).
Proof.
  intros Hne Hall Hsound.
  rewrite <- (failures_unread files verdicts Hall Hsound).
  now apply quiet_run.
Qed.

End Validation.

(** X20.  Without [--verbose], and when no [FileError] has the message
    ["OK"], a validation of at least one file, each with a verdict, prints
    the header once if some file was not read (and headers are not
    switched off), then one row with the status of each file that was not
    read (its name was refused or the reader raised a [FileError]), in
    the order of the arguments, and then the summary with the number of
    files read and the number of files given (unless it is switched
    off). *)
Theorem quiet_validation_lists_the_failures
    (is_evt is_opp : string -> outcome bool)
    (read_evt_labview read_opp_labview : string -> EvtCmd.read_result)
    (no_header opp no_summary : bool) (files : list string)
    (verdicts : list (string * option nat)) :
  files <> [] ->
  Forall2
    (fun f v =>
       EvtCmd.verdict is_evt is_opp read_evt_labview read_opp_labview opp f
       = Returned v)
    files verdicts ->
  Forall (fun v => fst v = "OK"%string -> snd v <> None) verdicts ->
  EvtCmd.evt_cmd is_evt is_opp read_evt_labview read_opp_labview
    no_header opp no_summary false files
  = Returned
      ((if no_header then []
        else match EvtCmd.unread (combine files verdicts) with
             | [] => []
             | _ => [EvtCmd.join EvtCmd.tab ["path"; "status"]%string]
             end)
       ++ map EvtCmd.short_row (EvtCmd.unread (combine files verdicts))
       ++ (if no_summary then []
           else [EvtCmd.summary (EvtCmd.passed verdicts) (length files)])).
Proof.
  apply quiet_run_unread.
Qed.

Lemma quiet_validation_lists_the_failures_witness :
  listed_files <> [] /\
  Forall2
    (fun f v => EvtCmd.verdict name_test name_test reader reader false f = Returned v)
    listed_files listed_verdicts /\
  Forall (fun v => fst v = "OK"%string -> snd v <> None) listed_verdicts /\
  EvtCmd.evt_cmd name_test name_test reader reader false false false false listed_files
  = Returned
      [EvtCmd.join EvtCmd.tab ["path"; "status"];
       EvtCmd.join EvtCmd.tab ["notes.txt"; "Filename does not look like an EVT file"];
       EvtCmd.join EvtCmd.tab ["b.evt"; "File is empty"];
       "1/3 files passed validation"]%string.
Proof.
  assert (H1 : listed_files <> []) by discriminate.
  assert (H2 : Forall2
                 (fun f v => EvtCmd.verdict name_test name_test reader reader false f
                             = Returned v)
                 listed_files listed_verdicts)
    by (repeat constructor).
  assert (H3 : Forall (fun v => fst v = "OK"%string -> snd v <> None) listed_verdicts)
    by (repeat constructor; cbn; discriminate).
  split; [exact H1|]. split; [exact H2|]. split; [exact H3|].
  exact (quiet_validation_lists_the_failures name_test name_test reader reader
           false false false listed_files listed_verdicts H1 H2 H3).
Defined.

(** X21.  With [--verbose], and when no [FileError] has the message
    ["OK"], a validation of at least one file, each with a verdict, prints
    the header (unless switched off), one row for every file in the order
    of the arguments, with the number of events of a file that was read
    and a dash otherwise, and then the summary (unless switched off). *)
Theorem verbose_validation_lists_every_file
    (is_evt is_opp : string -> outcome bool)
    (read_evt_labview read_opp_labview : string -> EvtCmd.read_result)
    (no_header opp no_summary : bool) (files : list string)
    (verdicts : list (string * option nat)) :
  files <> [] ->
  Forall2
    (fun f v =>
       EvtCmd.verdict is_evt is_opp read_evt_labview read_opp_labview opp f
       = Returned v)
    files verdicts ->
  Forall (fun v => fst v = "OK"%string -> snd v <> None) verdicts ->
  EvtCmd.evt_cmd is_evt is_opp read_evt_labview read_opp_labview
    no_header opp no_summary true files
  = Returned
      ((if no_header then []
        else [EvtCmd.join EvtCmd.tab ["path"; "status"; "events"]%string])
       ++ map EvtCmd.long_row (combine files verdicts)
       ++ (if no_summary then []
           else [EvtCmd.summary (EvtCmd.passed verdicts) (length files)])).
Proof.
  apply verbose_run.
Qed.

Lemma verbose_validation_lists_every_file_witness :
  listed_files <> [] /\
  Forall2
    (fun f v => EvtCmd.verdict name_test name_test reader reader false f = Returned v)
    listed_files listed_verdicts /\
  Forall (fun v => fst v = "OK"%string -> snd v <> None) listed_verdicts /\
  EvtCmd.evt_cmd name_test name_test reader reader false false false true listed_files
  = Returned
      [EvtCmd.join EvtCmd.tab ["path"; "status"; "events"];
       EvtCmd.join EvtCmd.tab ["a.evt"; "OK"; "3"];
       EvtCmd.join EvtCmd.tab
         ["notes.txt"; "Filename does not look like an EVT file"; "-"];
       EvtCmd.join EvtCmd.tab ["b.evt"; "File is empty"; "-"];
       "1/3 files passed validation"]%string.
Proof.
  assert (H1 : listed_files <> []) by discriminate.
  assert (H2 : Forall2
                 (fun f v => EvtCmd.verdict name_test name_test reader reader false f
                             = Returned v)
                 listed_files listed_verdicts)
    by (repeat constructor).
  assert (H3 : Forall (fun v => fst v = "OK"%string -> snd v <> None) listed_verdicts)
    by (repeat constructor; cbn; discriminate).
  split; [exact H1|]. split; [exact H2|]. split; [exact H3|].
  exact (verbose_validation_lists_every_file name_test name_test reader reader
           false false false listed_files listed_verdicts H1 H2 H3).
Defined.

(** X22.  Only [FileError] is taken as the status of a file: when the
    name test or the reader raises anything else for a file, and the files
    before it have verdicts, the command ends with that exception, whatever
    follows in the list, and prints no summary. *)
Theorem other_errors_end_the_validation
    (is_evt is_opp : string -> outcome bool)
    (read_evt_labview read_opp_labview : string -> EvtCmd.read_result)
    (no_header opp no_summary verbose : bool) (before after : list string)
    (f : string) (verdicts : list (string * option nat)) (e : exn) :
  Forall2
    (fun f v =>
       EvtCmd.verdict is_evt is_opp read_evt_labview read_opp_labview opp f
       = Returned v)
    before verdicts ->
  Forall (fun v => fst v = "OK"%string -> snd v <> None) verdicts ->
  EvtCmd.verdict is_evt is_opp read_evt_labview read_opp_labview opp f = Raised e ->
  EvtCmd.evt_cmd is_evt is_opp read_evt_labview read_opp_labview
    no_header opp no_summary verbose (before ++ f :: after)
  = Raised e.
Proof.
  apply failing_run.
Qed.

Lemma other_errors_end_the_validation_witness :
  Forall2
    (fun f v => EvtCmd.verdict name_test name_test broken_reader broken_reader false f
                = Returned v)
    ["a.evt"%string] [("OK"%string, Some 3%nat)] /\
  Forall (fun v => fst v = "OK"%string -> snd v <> None) [("OK"%string, Some 3%nat)] /\
  EvtCmd.verdict name_test name_test broken_reader broken_reader false "b.evt"
  = Raised (OtherError "OSError") /\
  EvtCmd.evt_cmd name_test name_test broken_reader broken_reader
    false false false false (["a.evt"%string] ++ "b.evt"%string :: ["c.evt"%string])
  = Raised (OtherError "OSError").
Proof.
  assert (H1 : Forall2
                 (fun f v => EvtCmd.verdict name_test name_test broken_reader
                               broken_reader false f = Returned v)
                 ["a.evt"%string] [("OK"%string, Some 3%nat)])
    by (repeat constructor).
  assert (H2 : Forall (fun v => fst v = "OK"%string -> snd v <> None)
                      [("OK"%string, Some 3%nat)])
    by (repeat constructor; cbn; discriminate).
  assert (H3 : EvtCmd.verdict name_test name_test broken_reader broken_reader false
                 "b.evt" = Raised (OtherError "OSError")) by reflexivity.
  split; [exact H1|]. split; [exact H2|]. split; [exact H3|].
  exact (other_errors_end_the_validation name_test name_test broken_reader
           broken_reader false false false false ["a.evt"%string] ["c.evt"%string]
           "b.evt" [("OK"%string, Some 3%nat)] (OtherError "OSError") H1 H2 H3).
Defined.
